(** * incremental_rag: the tiered retrieval and scoring core

    A shallow embedding of the Python services under [app/]:
    - [app/models/schemas.py]            the data model,
    - [app/config.py]                    the settings,
    - [app/services/vector_store.py]     tier 2, time-weighted vector search,
    - [app/services/semantic_cache.py]   tier 1, the semantic cache,
    - [app/services/mcp_client.py]       tier 3, arXiv and HuggingFace search,
    - [app/services/keyword_extractor.py] keyword extraction and its fallback,
    - [app/services/llm_responder.py]    response synthesis and citations,
    - [app/core/orchestrator.py]         the pipeline.

    Conventions of the embedding.
    - A Python [float] is an IEEE binary64 number, kept as the rational it
      is worth ([Q]): [0.7] is [0x1.6666666666666p-1], [0.3] is
      [0x1.3333333333333p-2], [0.5] is [1#2].  Arithmetic on floats rounds
      to the nearest double ([Binary64.round]); comparisons are exact.
      Infinities and NaN are not met by the scores and are not modelled.
      What the database computes ([1 - distance]) is taken as it stands.
    - A Python [int] is a [Z]; a [str] is a [string] holding its UTF-8
      bytes; lengths, slices, [split] and [strip] count and classify
      characters (code points), not bytes.
    - An [async def] is a computation in the monad [M]: it threads the
      [World] (both tables, the clock, the calls issued so far, the error
      log) and either returns or raises.  [await] is sequencing: a service
      function is its coroutine run without another request in between.
      Where a statement is about requests that interleave, the coroutine
      is a [Task] and the event loop an explicit schedule.
    - An exception is one of the subclasses of [Exception] the services
      meet; cancellation is not modelled.
    - What lies behind a network boundary (OpenAI, the providers' HTTP
      endpoints) or in a library (the XML and JSON parsers, the case
      tables of [str.lower]) is a field of [Collaborators]; every
      statement holds for all of them.
    - The database is the two tables with their id sequences.  A statement
      is run on the whole table and is taken to succeed, except where
      PostgreSQL refuses it by its text (a negative [LIMIT]): a lost
      connection or a failing statement is outside the model.
    - Of the log, the records of level error are kept. *)

From Stdlib Require Import List String Ascii Bool ZArith QArith Lia Lqa.
From Stdlib Require Import QArith.Qround QArith.Qpower QArith.Qabs.
From Stdlib Require Import Permutation Sorted DecimalString.
From Stdlib Require Import Floats.PrimFloat Floats.SpecFloat Floats.FloatOps.
Import ListNotations.

#[local] Set Warnings "-register-all".

Local Open Scope string_scope.
Local Open Scope list_scope.
Local Open Scope Z_scope.

(** ** Python built-ins used by the services *)

Module Py.

(** [x or default] on an [Optional[int]]: [None] and [0] are falsy. *)
Definition or_int (x : option Z) (default : Z) : Z :=
  match x with
  | None => default
  | Some v => if v =? 0 then default else v
  end.

(** [x or default] on an optional (NULL-able) value that is never falsy
    when present. *)
Definition or_else {A : Type} (x : option A) (default : A) : A :=
  match x with
  | None => default
  | Some v => v
  end.

(** Truth value of a list: [if xs:]. *)
Definition truthy {A : Type} (xs : list A) : bool :=
  match xs with
  | [] => false
  | _ :: _ => true
  end.

(** Truth value of an optional list: [None] and [[]] are falsy. *)
Definition truthy_opt {A : Type} (xs : option (list A)) : bool :=
  match xs with
  | None => false
  | Some l => truthy l
  end.

(** [sep.join(parts)]. *)
Fixpoint join (sep : string) (parts : list string) : string :=
  match parts with
  | [] => ""
  | [p] => p
  | p :: rest => (p ++ sep ++ join sep rest)%string
  end.

(** [xs[:n]]: the first [n] elements; a negative [n] counts from the end. *)
Definition slice_to {A : Type} (xs : list A) (n : Z) : list A :=
  if 0 <=? n then firstn (Z.to_nat n) xs
  else firstn (List.length xs - Z.to_nat (- n)) xs.

(** [str(i)] for a natural number. *)
Definition str_nat (n : nat) : string := NilEmpty.string_of_uint (Nat.to_uint n).

(** [str(i)] for an integer. *)
Definition str_int (z : Z) : string := NilZero.string_of_int (Z.to_int z).

(** Truth value of a string: the empty string is falsy. *)
Definition truthy_str (s : string) : bool :=
match s with
| EmptyString => false
| String _ _ => true
end.

(** [enumerate(xs, start)]. *)
Definition enumerate {A : Type} (xs : list A) (start : nat) : list (nat * A) :=
combine (seq start (List.length xs)) xs.

(** The double quote character, for f-strings that embed it. *)
Definition dquote : string := String (ascii_of_nat 34) EmptyString.

(** The line feed of ["\n"]. *)
Definition nl : string := String (ascii_of_nat 10) EmptyString.

(** A [str] is a sequence of code points; the model keeps its UTF-8
    bytes.  Decoding of UTF-8 into code points: a lead byte and its
    continuation bytes give one code point; a stray byte stands for
    itself. *)
Fixpoint code_points (bs : list N) : list N :=
  match bs with
  | [] => []
  | b0 :: rest =>
      if (b0 <? 128)%N then b0 :: code_points rest
      else
        match rest with
        | b1 :: rest1 =>
            if ((192 <=? b0) && (b0 <? 224))%N then
              ((b0 - 192) * 64 + (b1 - 128))%N :: code_points rest1
            else
              match rest1 with
              | b2 :: rest2 =>
                  if ((224 <=? b0) && (b0 <? 240))%N then
                    ((b0 - 224) * 4096 + (b1 - 128) * 64 + (b2 - 128))%N
                      :: code_points rest2
                  else
                    match rest2 with
                    | b3 :: rest3 =>
                        ((b0 - 240) * 262144 + (b1 - 128) * 4096
                         + (b2 - 128) * 64 + (b3 - 128))%N :: code_points rest3
                    | [] => [b0; b1; b2]
                    end
              | [] => [b0; b1]
              end
        | [] => [b0]
        end
  end.

Definition ord_all (s : string) : list N :=
  code_points (map N_of_ascii (list_ascii_of_string s)).

(** [len(s)], in code points. *)
Definition len (s : string) : nat := List.length (ord_all s).

(** The characters of a string, each with its bytes: a character starts at
    every byte that is not a continuation byte ([10xxxxxx]). *)
Definition is_continuation (c : ascii) : bool :=
  let n := nat_of_ascii c in ((128 <=? n) && (n <? 192))%nat.

Fixpoint chars_aux (cur : string) (s : string) : list string :=
  match s with
  | EmptyString => if (String.length cur =? 0)%nat then [] else [cur]
  | String c rest =>
      if is_continuation c then chars_aux (cur ++ String c EmptyString)%string rest
      else if (String.length cur =? 0)%nat then chars_aux (String c EmptyString) rest
      else cur :: chars_aux (String c EmptyString) rest
  end.

Definition chars (s : string) : list string := chars_aux "" s.

(** [s[:n]] on a string, for [0 <= n]: the first [n] characters. *)
Definition str_slice_to (s : string) (n : nat) : string :=
  String.concat "" (firstn n (chars s)).

(** [ch.isspace()]: the whitespace of Unicode, [U+0009..U+000D],
    [U+001C..U+0020], [U+0085], [U+00A0], [U+1680], [U+2000..U+200A],
    [U+2028], [U+2029], [U+202F], [U+205F] and [U+3000]. *)
Definition isspace_cp (cp : N) : bool :=
  ((9 <=? cp) && (cp <=? 13) || (28 <=? cp) && (cp <=? 32)
   || (cp =? 133) || (cp =? 160) || (cp =? 5760)
   || (8192 <=? cp) && (cp <=? 8202)
   || (cp =? 8232) || (cp =? 8233) || (cp =? 8239) || (cp =? 8287)
   || (cp =? 12288))%N.

Definition isspace (ch : string) : bool :=
  match ord_all ch with
  | [cp] => isspace_cp cp
  | _ => false
  end.

(** [s.split()]: the maximal runs of non-whitespace characters. *)
Fixpoint split_ws_aux (cur : string) (cs : list string) : list string :=
  match cs with
  | [] => if (String.length cur =? 0)%nat then [] else [cur]
  | c :: rest =>
      if isspace c
      then (if (String.length cur =? 0)%nat then split_ws_aux "" rest
            else cur :: split_ws_aux "" rest)
      else split_ws_aux (cur ++ c)%string rest
  end.

Definition split_ws (s : string) : list string := split_ws_aux "" (chars s).

(** [s.strip()]: drop leading and trailing whitespace. *)
Fixpoint lstrip_chars (cs : list string) : list string :=
  match cs with
  | [] => []
  | c :: rest => if isspace c then lstrip_chars rest else cs
  end.

Definition strip (s : string) : string :=
  String.concat "" (rev (lstrip_chars (rev (lstrip_chars (chars s))))).

(** [s.split(sep)] for a one-character separator. *)
Fixpoint split_char_aux (sep : ascii) (cur : string) (s : string) : list string :=
  match s with
  | EmptyString => [cur]
  | String c rest =>
      if Ascii.eqb c sep then cur :: split_char_aux sep "" rest
      else split_char_aux sep (cur ++ String c EmptyString)%string rest
  end.

Definition split_char (sep : ascii) (s : string) : list string :=
  split_char_aux sep "" s.

(** [xs[-1]] on a non-empty list (with a default for the empty one, which
    [str.split(sep)] never returns). *)
Definition last_of (xs : list string) : string := last xs "".

(** [s.lower()] for a string of ASCII characters (the case tables of
    Unicode are the runtime's: [str_lower] of [Collaborators]). *)
Definition lower_char (c : ascii) : ascii :=
  let n := nat_of_ascii c in
  if ((65 <=? n) && (n <=? 90))%nat then ascii_of_nat (n + 32) else c.

Fixpoint lower (s : string) : string :=
  match s with
  | EmptyString => EmptyString
  | String c rest => String (lower_char c) (lower rest)
  end.

(** [s.startswith(p)]. *)
Definition startswith (s p : string) : bool := String.prefix p s.

(** [s[n:]]. *)
Definition str_slice_from (s : string) (n : nat) : string :=
  substring n (String.length s - n) s.

(** [s.split(sep)] for a non-empty separator; [skip] counts the characters
    of a separator just met that are still to be passed over. *)
Fixpoint split_str_aux (sep : string) (skip : nat) (cur : string) (s : string)
  : list string :=
  match s with
  | EmptyString => [cur]
  | String c rest =>
      match skip with
      | S k => split_str_aux sep k cur rest
      | O =>
          if String.prefix sep s
          then cur :: split_str_aux sep (String.length sep - 1) "" rest
          else split_str_aux sep 0 (cur ++ String c EmptyString)%string rest
      end
  end.

Definition split_str (sep : string) (s : string) : list string :=
  split_str_aux sep 0 "" s.

End Py.

(** ** [app/models/schemas.py] *)

Inductive SourceType : Type :=
| EXPERT_INSIGHT
| ARXIV_PAPER
| HUGGINGFACE
| MANUAL.

Definition SourceType_value (t : SourceType) : string :=
match t with
| EXPERT_INSIGHT => "expert_insight"
| ARXIV_PAPER => "arxiv_paper"
| HUGGINGFACE => "huggingface"
| MANUAL => "manual"
end.

Inductive SearchPath : Type :=
| CACHE
| VECTOR_DB
| MCP
| NOT_FOUND.

(** A decoded JSON value ([Any] in the metadata bag, and what
  [response.json()] yields). *)
Inductive JSON : Type :=
| JNull
| JBool (b : bool)
| JNum (q : Q)
| JStr (s : string)
| JArr (items : list JSON)
| JObj (fields : list (string * JSON)).

Definition Metadata : Type := list (string * JSON).

(** [datetime]: the wall-clock reading in microseconds since the epoch and
  the UTC offset of its [tzinfo] (microseconds), [None] when naive. *)
Record datetime : Type := {
wall_us : Z;
tzinfo : option Z
}.

Module SourceInfo.
Record t : Type := {
  source_type : SourceType;
  title : option string;
  url : option string;
  author : option string;
  relevance_score : Q
}.
End SourceInfo.

Module KeywordResult.
Record t : Type := {
  keywords : list string;
  source_type_hint : option SourceType
}.
End KeywordResult.

Module SearchRequest.
Record t : Type := { query : string }.
End SearchRequest.

Module SearchResponse.
Record t : Type := {
  query : string;
  response : string;
  sources : list SourceInfo.t;
  search_path : SearchPath;
  processing_time_ms : Q;
  keywords : list string
}.
End SearchResponse.

Module CacheEntry.
Record t : Type := {
  id : Z;
  query_text : string;
  response_text : string;
  sources : list SourceInfo.t;
  hit_count : Z;
  similarity : Q;
  created_at : datetime
}.
End CacheEntry.

Module KnowledgeItem.
Record t : Type := {
  id : Z;
  content : string;
  source_type : SourceType;
  source_url : option string;
  source_title : option string;
  source_author : option string;
  metadata : Metadata;
  similarity : Q;
  recency_score : Q;
  final_score : Q;
  created_at : datetime
}.
End KnowledgeItem.

Module MCPSearchResult.
Record t : Type := {
  content : string;
  source_type : SourceType;
  source_url : option string;
  source_title : option string;
  source_author : option string;
  metadata : Metadata
}.
End MCPSearchResult.

(** ** [app/config.py] *)

Module Settings.
Record t : Type := {
  llm_model : string;
  cache_similarity_threshold : Q;
  vector_search_limit : Z
}.

(** The defaults of the [Settings] class; the threshold is the double
    [0.95], [0x1.e666666666666p-1]. *)
Definition default : t := {|
  llm_model := "gpt-4o-mini";
  cache_similarity_threshold := 8556839292003942 # 9007199254740992;
  vector_search_limit := 10
|}.
End Settings.

(** ** Floats

    A Python [float] is an IEEE binary64 number.  It is kept as the
    rational it is worth; an operation on floats is the operation on
    rationals followed by the rounding to the nearest double, the one with
    the even significand of two ([round]).  Overflow to an infinity is
    not met by the scores and is outside the model: [round] rounds as if
    the exponent had no upper limit. *)

Module Binary64.

(** [2 ** e]. *)
Definition pow2 (e : Z) : Q := Qpower 2 e.

(** For [0 < x]: the [e] with [2^e <= x < 2^(e+1)]. *)
Definition exponent (x : Q) : Z :=
  let e0 := Z.log2 (Qnum x) - Z.log2 (Zpos (Qden x)) in
  if Qle_bool (pow2 e0) x then e0 else e0 - 1.

(** The integer nearest to [x], the even one of two. *)
Definition rne (x : Q) : Z :=
  let f := Qfloor x in
  match (x - inject_Z f ?= 1 # 2)%Q with
  | Lt => f
  | Gt => f + 1
  | Eq => if Z.even f then f else f + 1
  end.

(** The distance between the doubles around [x]: 53 significant bits, and
    [2^-1074] below the smallest normal number [2^-1022]. *)
Definition ulp (x : Q) : Q := pow2 (Z.max (exponent x) (-1022) - 52).

Definition round_pos (x : Q) : Q := (inject_Z (rne (x / ulp x)) * ulp x)%Q.

(** The double nearest to [x]. *)
Definition round (x : Q) : Q :=
  match (x ?= 0)%Q with
  | Eq => 0%Q
  | Gt => round_pos x
  | Lt => (- round_pos (- x))%Q
  end.

(** [x * y] and [x + y] on floats. *)
Definition mul (x y : Q) : Q := round (x * y).

Definition add (x y : Q) : Q := round (x + y).

(** The same on the primitive doubles of the proof assistant, to compare
    with: the literals of the code, and the scoring expression
    [similarity * 0.7 + recency * 0.3] of [VectorStoreService.search]. *)

(** [0.7] *)
Definition d0_7 : float := 0x1.6666666666666p-1%float.

(** [0.3] *)
Definition d0_3 : float := 0x1.3333333333333p-2%float.

(** [0.5], [0.85], [0.9], [0.95] *)
Definition d0_5 : float := 0x1p-1%float.

Definition d0_85 : float := 0x1.b333333333333p-1%float.

Definition d0_9 : float := 0x1.ccccccccccccdp-1%float.

Definition d0_95 : float := 0x1.e666666666666p-1%float.

Definition final_score (similarity recency : float) : float :=
  (similarity * d0_7 + recency * d0_3)%float.

(** What a finite double is worth. *)
Definition to_Q (x : float) : Q :=
  match Prim2SF x with
  | S754_finite s m e => ((if s then -1 else 1) * inject_Z (Zpos m) * pow2 e)%Q
  | _ => 0%Q
  end.

End Binary64.

(** The literals of the scoring code: [1.0], [0.5] and [0.0] are what they
    read; [0.7] is the double [0x1.6666666666666p-1], [0.3] the double
    [0x1.3333333333333p-2]. *)
Definition f1_0 : Q := 1.
Definition f0_7 : Q := 6305039478318694 # 9007199254740992.
Definition f0_5 : Q := 1 # 2.
Definition f0_3 : Q := 5404319552844595 # 18014398509481984.
Definition f0_0 : Q := 0.

(** [x < y] on floats, as a boolean. *)
Definition Qlt_bool (x y : Q) : bool := negb (Qle_bool y x).

(** ** Sorting

    [list.sort(key=..., reverse=True)] and SQL's [ORDER BY ... DESC]: a
    stable sort into descending key order (elements with equal keys keep
    their order; SQL leaves that order open, no statement below depends on
    it). *)

Section SortDesc.
Context {A : Type} (key : A -> Q).

Fixpoint insert_desc (x : A) (l : list A) : list A :=
  match l with
  | [] => [x]
  | y :: ys =>
      if Qlt_bool (key x) (key y) then y :: insert_desc x ys
      else x :: y :: ys
  end.

Fixpoint sort_desc (l : list A) : list A :=
  match l with
  | [] => []
  | x :: xs => insert_desc x (sort_desc xs)
  end.

End SortDesc.

(** ** Exceptions

    The subclasses of [Exception] the services meet; [str(e)] is the
    message. *)

Inductive exn : Type :=
| APIError (msg : string)
| PostgresError (msg : string)
| HTTPError (msg : string)
| ParseError (msg : string)
| JSONDecodeError (msg : string)
| TypeError (msg : string)
| AttributeError (msg : string)
| IndexError (msg : string)
| ValidationError (msg : string).

Definition str_exn (e : exn) : string :=
  match e with
  | APIError msg | PostgresError msg | HTTPError msg | ParseError msg
  | JSONDecodeError msg | TypeError msg | AttributeError msg
  | IndexError msg | ValidationError msg => msg
  end.

(** [isinstance(e, ET.ParseError)]. *)
Definition is_ParseError (e : exn) : bool :=
  match e with
  | ParseError _ => true
  | _ => false
  end.

(** ** The persistent store and the world *)

(** A row of table [knowledge_base]. *)
Module KnowledgeRow.
Record t : Type := {
  id : Z;
  content : string;
  content_embedding : list Q;
  source_type : SourceType;
  source_url : option string;
  source_title : option string;
  source_author : option string;
  metadata : option Metadata;
  created_at : datetime
}.
End KnowledgeRow.

(** A row of table [semantic_cache]. *)
Module CacheRow.
Record t : Type := {
  id : Z;
  query_text : string;
  query_embedding : list Q;
  response_text : string;
  sources : option (list SourceInfo.t);
  hit_count : Z;
  created_at : datetime
}.

(** [SET hit_count = hit_count + 1] on one row. *)
Definition bump (r : t) : t := {|
  id := id r;
  query_text := query_text r;
  query_embedding := query_embedding r;
  response_text := response_text r;
  sources := sources r;
  hit_count := hit_count r + 1;
  created_at := created_at r
|}.
End CacheRow.

(** A call that leaves the process: to OpenAI, to the database, to a
    provider. *)
Inductive Call : Type :=
| EmbeddingsCreate (input : string)
| ChatCompletionsCreate (model system user : string)
| KnowledgeSelect (embedding : list Q) (limit : Z)
| KnowledgeInsert (content : string)
| KnowledgeCount
| CacheSelect (embedding : list Q) (threshold : Q)
| CacheUpdate (id : Z)
| CacheInsert (query_text : string)
| CacheStats
| CacheDelete
| HttpGet (url : string) (params : list (string * JSON)).

Record World : Type := {
  knowledge_base : list KnowledgeRow.t;
  knowledge_base_seq : Z;
  semantic_cache : list CacheRow.t;
  semantic_cache_seq : Z;
  ticks : nat;
  calls : list Call;
  error_log : list string
}.

(** An HTTP response: the exception [raise_for_status()] raises for it, if
    any, and the body. *)
Module Response.
Record t : Type := {
  status_error : option exn;
  text : string
}.
End Response.

(** An [xml.etree.ElementTree.Element]; [tag] is in Clark notation
    ([{namespace}local]). *)
Inductive Element : Type :=
| Elem (tag : string) (attrib : list (string * string)) (text : option string)
    (children : list Element).

(** What the services reach over the network or take from a library.  The
    [nat] argument of a network operation is the number of calls issued
    before it, so that the same request may succeed at one time and fail at
    another. *)
Record Collaborators : Type := {
  (** [client.embeddings.create(...).data[0].embedding] *)
  embeddings_create : nat -> string -> exn + list Q;
  (** [client.chat.completions.create(...)]: the [message.content] of each
      choice *)
  chat_completions_create : nat -> string -> string -> string -> exn + list (option string);
  (** pgvector's [<=>] *)
  cosine_distance : list Q -> list Q -> Q;
  (** the [n]-th reading of the clock, microseconds since the epoch, UTC *)
  clock_us : nat -> Z;
  (** the [created_at] a table gives a new row at a clock reading *)
  db_timestamp : Z -> datetime;
  (** [httpx.AsyncClient.get] *)
  httpx_get : nat -> string -> list (string * JSON) -> exn + Response.t;
  (** [ET.fromstring] *)
  ET_fromstring : string -> exn + Element;
  (** [response.json()] on a body *)
  json_loads : string -> exn + JSON;
  (** [str(v)] on a decoded JSON value that is not a string *)
  py_repr : JSON -> string;
  (** [urllib.parse.quote] *)
  quote : string -> string;
  (** [str.lower] *)
  str_lower : string -> string
}.

(** ** The monad of the services *)

Inductive Outcome (A : Type) : Type :=
| Return (a : A) (w : World)
| Raise (e : exn) (w : World).

Arguments Return {A} a w.
Arguments Raise {A} e w.

Definition M (A : Type) : Type := World -> Outcome A.

Definition ret {A : Type} (a : A) : M A := fun w => Return a w.

Definition bind {A B : Type} (c : M A) (k : A -> M B) : M B :=
  fun w =>
    match c w with
    | Return a w' => k a w'
    | Raise e w' => Raise e w'
    end.

Definition raise {A : Type} (e : exn) : M A := fun w => Raise e w.

(** [try: body  except Exception as e: handler(e)]. *)
Definition try_except {A : Type} (body : M A) (handler : exn -> M A) : M A :=
  fun w =>
    match body w with
    | Return a w' => Return a w'
    | Raise e w' => handler e w'
    end.

Definition lift {A : Type} (r : exn + A) : M A :=
  match r with
  | inl e => raise e
  | inr a => ret a
  end.

Declare Scope monad_scope.
Delimit Scope monad_scope with monad.
Notation "x <- c ;; k" := (bind c (fun x => k))
  (at level 61, c at next level, right associativity) : monad_scope.
Notation "' pat <- c ;; k" := (bind c (fun x => match x with pat => k end))
  (at level 61, pat pattern, c at next level, right associativity) : monad_scope.
Local Open Scope monad_scope.

(** Record a call; the answer is the number of calls issued before it. *)
Definition issue (c : Call) : M nat :=
  fun w =>
    Return (List.length (calls w))
      {| knowledge_base := knowledge_base w;
         knowledge_base_seq := knowledge_base_seq w;
         semantic_cache := semantic_cache w;
         semantic_cache_seq := semantic_cache_seq w;
         ticks := ticks w;
         calls := calls w ++ [c];
         error_log := error_log w |}.

(** [logger.error(msg)]. *)
Definition logger_error (msg : string) : M unit :=
  fun w =>
    Return tt
      {| knowledge_base := knowledge_base w;
         knowledge_base_seq := knowledge_base_seq w;
         semantic_cache := semantic_cache w;
         semantic_cache_seq := semantic_cache_seq w;
         ticks := ticks w;
         calls := calls w;
         error_log := error_log w ++ [msg] |}.

(** The tables, read and written by the statements below. *)
Definition get_knowledge_base : M (list KnowledgeRow.t) :=
  fun w => Return (knowledge_base w) w.

Definition get_semantic_cache : M (list CacheRow.t) :=
  fun w => Return (semantic_cache w) w.

Definition set_semantic_cache (rows : list CacheRow.t) : M unit :=
  fun w =>
    Return tt
      {| knowledge_base := knowledge_base w;
         knowledge_base_seq := knowledge_base_seq w;
         semantic_cache := rows;
         semantic_cache_seq := semantic_cache_seq w;
         ticks := ticks w;
         calls := calls w;
         error_log := error_log w |}.

(** ** Coroutines

    An [async def] as the event loop sees it: a chain of steps, one for
    each [await] that reaches a collaborator or the database.  A
    coroutine runs from one [await] to the next without interruption;
    between two steps the loop may run the steps of other coroutines.  A
    statement sent to the database is one step (each statement is its own
    transaction: the code opens none). *)

Inductive Task (A : Type) : Type :=
| Done (a : A)
| Failed (e : exn)
| Await {X : Type} (step : M X) (k : X -> Task A).

Arguments Done {A} a.
Arguments Failed {A} e.
Arguments Await {A X} step k.

(** A coroutine that nothing interleaves with: [await]ed to its end. *)
Fixpoint run {A : Type} (t : Task A) : M A :=
  match t with
  | Done a => ret a
  | Failed e => raise e
  | Await step k => bind step (fun x => run (k x))
  end.

(** The loop resumes a coroutine for one step. *)
Definition resume {A : Type} (t : Task A) (w : World) : Task A * World :=
  match t with
  | Await step k =>
      match step w with
      | Return x w' => (k x, w')
      | Raise e w' => (Failed e, w')
      end
  | _ => (t, w)
  end.

(** Two coroutines on one loop; the schedule says which one is resumed
    next ([true]: the first). *)
Fixpoint interleave {A B : Type} (schedule : list bool) (t1 : Task A) (t2 : Task B)
    (w : World) : Task A * Task B * World :=
  match schedule with
  | [] => (t1, t2, w)
  | true :: rest =>
      let '(t1', w') := resume t1 w in interleave rest t1' t2 w'
  | false :: rest =>
      let '(t2', w') := resume t2 w in interleave rest t1 t2' w'
  end.

(** ** The clock *)

Definition read_clock (env : Collaborators) : M Z :=
  fun w =>
    Return (clock_us env (ticks w))
      {| knowledge_base := knowledge_base w;
         knowledge_base_seq := knowledge_base_seq w;
         semantic_cache := semantic_cache w;
         semantic_cache_seq := semantic_cache_seq w;
         ticks := S (ticks w);
         calls := calls w;
         error_log := error_log w |}.

(** [timezone.utc]. *)
Definition utc : option Z := Some 0.

(** [datetime.now(timezone.utc)]. *)
Definition datetime_now_utc (env : Collaborators) : M datetime :=
  t <- read_clock env ;;
  ret {| wall_us := t; tzinfo := utc |}.

(** [time.time()], in microseconds. *)
Definition time_time (env : Collaborators) : M Z := read_clock env.

(** [d.replace(tzinfo=tz)]. *)
Definition replace_tzinfo (d : datetime) (tz : option Z) : datetime :=
  {| wall_us := wall_us d; tzinfo := tz |}.

(** The instant an aware [datetime] denotes, microseconds since the epoch
    in UTC (a naive one is read as UTC). *)
Definition instant (d : datetime) : Z :=
  wall_us d - Py.or_else (tzinfo d) 0.

Definition us_per_day : Z := 86400 * 1000000.

(** [(a - b).days] for aware [a] and [b]: a [timedelta] is normalised with
    [0 <= seconds < 86400], so [days] is the floor. *)
Definition timedelta_days (a b : datetime) : Z :=
  (instant a - instant b) / us_per_day.

(** ** [app/core/embeddings.py] *)

Definition get_embedding (env : Collaborators) (text : string) : M (list Q) :=
  n <- issue (EmbeddingsCreate text) ;;
  lift (embeddings_create env n text).

(** The text form ["[x1,x2,...]"] is cast back by [$1::vector]; the vector
    itself stands for it. *)
Definition embedding_to_pgvector (embedding : list Q) : list Q := embedding.

(** [await client.chat.completions.create(model=..., messages=[system,
    user], ...)], the client being that of [get_openai_client()]. *)
Definition chat_completion (env : Collaborators) (model system user : string)
  : M (list (option string)) :=
  n <- issue (ChatCompletionsCreate model system user) ;;
  lift (chat_completions_create env n model system user).

(** [response.choices[0].message.content.strip()]. *)
Definition first_content_stripped (choices : list (option string)) : exn + string :=
  match choices with
  | [] => inl (IndexError "list index out of range")
  | None :: _ => inl (AttributeError "'NoneType' object has no attribute 'strip'")
  | Some content :: _ => inr (Py.strip content)
  end.

(** ** Decoded JSON values as Python objects *)

(** [d.get(key)] on a string-keyed dictionary. *)
Fixpoint dict_lookup {V : Type} (d : list (string * V)) (key : string) : option V :=
  match d with
  | [] => None
  | (k, v) :: rest => if String.eqb k key then Some v else dict_lookup rest key
  end.

(** [v.get(key, default)]: only a dictionary has [get].  The message of
    the [AttributeError] is Python's without the name of the type in
    front. *)
Definition py_get (v : JSON) (key : string) (default : JSON) : exn + JSON :=
  match v with
  | JObj fields => inr (Py.or_else (dict_lookup fields key) default)
  | _ => inl (AttributeError "object has no attribute 'get'")
  end.

(** Truth value of a decoded value. *)
Definition py_truthy (v : JSON) : bool :=
  match v with
  | JNull => false
  | JBool b => b
  | JNum q => negb (Qeq_bool q 0)
  | JStr s => Py.truthy_str s
  | JArr items => Py.truthy items
  | JObj fields => Py.truthy fields
  end.

(** Sequencing of steps that return or raise and touch nothing. *)
Definition and_then {A B : Type} (r : exn + A) (k : A -> exn + B) : exn + B :=
  match r with
  | inl e => inl e
  | inr a => k a
  end.

(** ** [app/services/vector_store.py] *)

Definition calculate_recency_score (env : Collaborators) (created_at : datetime) : M Q :=
  now <- datetime_now_utc env ;;
  let created_at :=
    match tzinfo created_at with
    | None => replace_tzinfo created_at utc
    | Some _ => created_at
    end in
  let age_days := timedelta_days now created_at in
  if age_days <? 7 then ret f1_0
  else if age_days <? 30 then ret f0_7
  else ret f0_5.

Module VectorStoreService.
Section Service.
Context (env : Collaborators) (settings : Settings.t).

(** [1 - (content_embedding <=> $1::vector) as similarity]. *)
Definition row_similarity (q : list Q) (r : KnowledgeRow.t) : Q :=
  1 - cosine_distance env (KnowledgeRow.content_embedding r) q.

(** [SELECT ..., 1 - (content_embedding <=> $1::vector) as similarity FROM
    knowledge_base ORDER BY similarity DESC LIMIT $2].  PostgreSQL refuses
    a negative [LIMIT]. *)
Definition nearest_rows (q : list Q) (limit : Z) (table : list KnowledgeRow.t)
  : list (KnowledgeRow.t * Q) :=
  let scored := map (fun r => (r, row_similarity q r)) table in
  firstn (Z.to_nat limit) (sort_desc snd scored).

Definition fetch_nearest (q : list Q) (limit : Z) : M (list (KnowledgeRow.t * Q)) :=
  _ <- issue (KnowledgeSelect q limit) ;;
  if limit <? 0 then raise (PostgresError "LIMIT must not be negative")
  else
    table <- get_knowledge_base ;;
    ret (nearest_rows q limit table).

(** The [for row in rows] loop of [search]; [items] is the list built so
    far. *)
Fixpoint rerank (rows : list (KnowledgeRow.t * Q)) (min_similarity : Q)
    (items : list KnowledgeItem.t) : M (list KnowledgeItem.t) :=
  match rows with
  | [] => ret items
  | row :: rest =>
      let similarity := snd row in
      if Qlt_bool similarity min_similarity then rerank rest min_similarity items
      else
        recency <- calculate_recency_score env (KnowledgeRow.created_at (fst row)) ;;
        let final_score :=
          Binary64.add (Binary64.mul similarity f0_7) (Binary64.mul recency f0_3) in
        let item := {|
          KnowledgeItem.id := KnowledgeRow.id (fst row);
          KnowledgeItem.content := KnowledgeRow.content (fst row);
          KnowledgeItem.source_type := KnowledgeRow.source_type (fst row);
          KnowledgeItem.source_url := KnowledgeRow.source_url (fst row);
          KnowledgeItem.source_title := KnowledgeRow.source_title (fst row);
          KnowledgeItem.source_author := KnowledgeRow.source_author (fst row);
          KnowledgeItem.metadata := Py.or_else (KnowledgeRow.metadata (fst row)) [];
          KnowledgeItem.similarity := similarity;
          KnowledgeItem.recency_score := recency;
          KnowledgeItem.final_score := final_score;
          KnowledgeItem.created_at := KnowledgeRow.created_at (fst row)
        |} in
        rerank rest min_similarity (items ++ [item])
  end.

Definition search (keywords : list string) (limit : option Z) (min_similarity : Q)
  : M (list KnowledgeItem.t) :=
  if negb (Py.truthy keywords) then ret []
  else
    let limit := Py.or_int limit (Settings.vector_search_limit settings) in
    let search_text := Py.join " " keywords in
    query_embedding <- get_embedding env search_text ;;
    let embedding_str := embedding_to_pgvector query_embedding in
    rows <- fetch_nearest embedding_str (limit * 2) ;;
    items <- rerank rows min_similarity [] ;;
    let items := sort_desc KnowledgeItem.final_score items in
    let results := Py.slice_to items limit in
    ret results.

(** [INSERT INTO knowledge_base (...) VALUES (...) RETURNING id]: the next
    value of the sequence is the id, [created_at] is the table's default. *)
Definition insert_row (item : MCPSearchResult.t) (embedding : list Q) (metadata_json : Metadata)
  : M Z :=
  _ <- issue (KnowledgeInsert (MCPSearchResult.content item)) ;;
  t <- read_clock env ;;
  fun w =>
    let new_id := knowledge_base_seq w in
    let row := {|
      KnowledgeRow.id := new_id;
      KnowledgeRow.content := MCPSearchResult.content item;
      KnowledgeRow.content_embedding := embedding;
      KnowledgeRow.source_type := MCPSearchResult.source_type item;
      KnowledgeRow.source_url := MCPSearchResult.source_url item;
      KnowledgeRow.source_title := MCPSearchResult.source_title item;
      KnowledgeRow.source_author := MCPSearchResult.source_author item;
      KnowledgeRow.metadata := Some metadata_json;
      KnowledgeRow.created_at := db_timestamp env t
    |} in
    Return new_id
      {| knowledge_base := knowledge_base w ++ [row];
         knowledge_base_seq := knowledge_base_seq w + 1;
         semantic_cache := semantic_cache w;
         semantic_cache_seq := semantic_cache_seq w;
         ticks := ticks w;
         calls := calls w;
         error_log := error_log w |}.

Definition ingest (item : MCPSearchResult.t) : M Z :=
  content_embedding <- get_embedding env (MCPSearchResult.content item) ;;
  let embedding_str := embedding_to_pgvector content_embedding in
  let metadata_json := MCPSearchResult.metadata item in
  knowledge_id <- insert_row item embedding_str metadata_json ;;
  ret knowledge_id.

(** The loop of [ingest_batch]; [ids] is the list built so far. *)
Fixpoint ingest_each (items : list MCPSearchResult.t) (ids : list Z) : M (list Z) :=
  match items with
  | [] => ret ids
  | item :: rest =>
      knowledge_id <- ingest item ;;
      ingest_each rest (ids ++ [knowledge_id])
  end.

Definition ingest_batch (items : list MCPSearchResult.t) : M (list Z) :=
  ingest_each items [].

Definition get_count : M Z :=
  _ <- issue KnowledgeCount ;;
  table <- get_knowledge_base ;;
  ret (Z.of_nat (List.length table)).

End Service.
End VectorStoreService.

(** ** [app/services/semantic_cache.py] *)

Module SemanticCacheService.
Section Service.
Context (env : Collaborators) (settings : Settings.t).

(** [1 - (query_embedding <=> $1::vector)]. *)
Definition row_similarity (q : list Q) (r : CacheRow.t) : Q :=
  1 - cosine_distance env (CacheRow.query_embedding r) q.

(** [SELECT ... FROM semantic_cache WHERE 1 - (query_embedding <=>
    $1::vector) >= $2 ORDER BY similarity DESC LIMIT 1]. *)
Definition nearest_row (q : list Q) (threshold : Q) (table : list CacheRow.t)
  : option (CacheRow.t * Q) :=
  let scored := map (fun r => (r, row_similarity q r)) table in
  let matching := filter (fun rs => Qle_bool threshold (snd rs)) scored in
  hd_error (sort_desc snd matching).

Definition fetchrow_nearest (q : list Q) (threshold : Q) : M (option (CacheRow.t * Q)) :=
  _ <- issue (CacheSelect q threshold) ;;
  table <- get_semantic_cache ;;
  ret (nearest_row q threshold table).

(** [UPDATE semantic_cache SET hit_count = hit_count + 1 WHERE id = $1]. *)
Definition increment_hit_count (id : Z) : M unit :=
  _ <- issue (CacheUpdate id) ;;
  table <- get_semantic_cache ;;
  set_semantic_cache
    (map (fun r => if CacheRow.id r =? id then CacheRow.bump r else r) table).

Definition search (query : string) : M (option CacheEntry.t) :=
  query_embedding <- get_embedding env query ;;
  let embedding_str := embedding_to_pgvector query_embedding in
  row <- fetchrow_nearest embedding_str (Settings.cache_similarity_threshold settings) ;;
  match row with
  | Some (r, similarity) =>
      _ <- increment_hit_count (CacheRow.id r) ;;
      let sources := Py.or_else (CacheRow.sources r) [] in
      let entry := {|
        CacheEntry.id := CacheRow.id r;
        CacheEntry.query_text := CacheRow.query_text r;
        CacheEntry.response_text := CacheRow.response_text r;
        CacheEntry.sources := sources;
        CacheEntry.hit_count := CacheRow.hit_count r + 1;
        CacheEntry.similarity := similarity;
        CacheEntry.created_at := CacheRow.created_at r
      |} in
      ret (Some entry)
  | None => ret None
  end.

(** [search] with its [await]s as the loop sees them: the embedding call,
    the [SELECT], and on a hit the [UPDATE]. *)
Definition search_task (query : string) : Task (option CacheEntry.t) :=
  Await (get_embedding env query) (fun query_embedding =>
  let embedding_str := embedding_to_pgvector query_embedding in
  Await (fetchrow_nearest embedding_str (Settings.cache_similarity_threshold settings))
    (fun row =>
  match row with
  | Some (r, similarity) =>
      Await (increment_hit_count (CacheRow.id r)) (fun _ =>
      let sources := Py.or_else (CacheRow.sources r) [] in
      let entry := {|
        CacheEntry.id := CacheRow.id r;
        CacheEntry.query_text := CacheRow.query_text r;
        CacheEntry.response_text := CacheRow.response_text r;
        CacheEntry.sources := sources;
        CacheEntry.hit_count := CacheRow.hit_count r + 1;
        CacheEntry.similarity := similarity;
        CacheEntry.created_at := CacheRow.created_at r
      |} in
      Done (Some entry))
  | None => Done None
  end)).

(** [INSERT INTO semantic_cache (query_text, query_embedding,
    response_text, sources) VALUES (...) RETURNING id]: [hit_count] and
    [created_at] take the table's defaults. *)
Definition insert_row (query : string) (embedding : list Q) (response : string)
    (sources_json : list SourceInfo.t) : M Z :=
  _ <- issue (CacheInsert query) ;;
  t <- read_clock env ;;
  fun w =>
    let new_id := semantic_cache_seq w in
    let row := {|
      CacheRow.id := new_id;
      CacheRow.query_text := query;
      CacheRow.query_embedding := embedding;
      CacheRow.response_text := response;
      CacheRow.sources := Some sources_json;
      CacheRow.hit_count := 0;
      CacheRow.created_at := db_timestamp env t
    |} in
    Return new_id
      {| knowledge_base := knowledge_base w;
         knowledge_base_seq := knowledge_base_seq w;
         semantic_cache := semantic_cache w ++ [row];
         semantic_cache_seq := semantic_cache_seq w + 1;
         ticks := ticks w;
         calls := calls w;
         error_log := error_log w |}.

Definition store (query : string) (response : string) (sources : list SourceInfo.t) : M Z :=
  query_embedding <- get_embedding env query ;;
  let embedding_str := embedding_to_pgvector query_embedding in
  let sources_json := sources in
  cache_id <- insert_row query embedding_str response sources_json ;;
  ret cache_id.


(** [DELETE FROM semantic_cache]; the status line is ["DELETE n"]. *)
Definition clear : M Z :=
  _ <- issue CacheDelete ;;
  table <- get_semantic_cache ;;
  _ <- set_semantic_cache [] ;;
  let count := Z.of_nat (List.length table) in
  ret count.

(** [clear] as the loop sees it: one statement. *)
Definition clear_task : Task Z := Await clear Done.

End Service.
End SemanticCacheService.

(** ** [app/services/mcp_client.py] *)

(** [Element.tag], [.attrib], [.text], and the children. *)
Definition Element_tag (e : Element) : string :=
  match e with Elem tag _ _ _ => tag end.

Definition Element_attrib (e : Element) : list (string * string) :=
  match e with Elem _ attrib _ _ => attrib end.

Definition Element_text (e : Element) : option string :=
  match e with Elem _ _ text _ => text end.

Definition Element_children (e : Element) : list Element :=
  match e with Elem _ _ _ children => children end.

(** [e.findall("prefix:name", namespaces)]: the children of [e] with that
    qualified tag, in document order; [e.find] is the first of them. *)
Definition findall (e : Element) (tag : string) : list Element :=
  filter (fun c => String.eqb (Element_tag c) tag) (Element_children e).

Definition find (e : Element) (tag : string) : option Element :=
  hd_error (findall e tag).

Definition atom (name : string) : string := ("{http://www.w3.org/2005/Atom}" ++ name)%string.

Definition arxiv (name : string) : string := ("{http://arxiv.org/schemas/atom}" ++ name)%string.

(** [x.text.strip() if x is not None and x.text else ""]. *)
Definition stripped_text (x : option Element) : string :=
  match x with
  | Some e =>
      match Element_text e with
      | Some t => if Py.truthy_str t then Py.strip t else ""
      | None => ""
      end
  | None => ""
  end.

Module MCPClientService.
Section Service.
Context (env : Collaborators).

Definition ARXIV_API_URL : string := "https://export.arxiv.org/api/query".

(** [await self.client.get(url, params=params)]. *)
Definition client_get (url : string) (params : list (string * JSON)) : M Response.t :=
  n <- issue (HttpGet url params) ;;
  lift (httpx_get env n url params).

Definition raise_for_status (response : Response.t) : M unit :=
  match Response.status_error response with
  | Some e => raise e
  | None => ret tt
  end.

(** The body of the [for entry in root.findall(...)] loop. *)
Definition parse_entry (entry : Element) : MCPSearchResult.t :=
  let title_elem := find entry (atom "title") in
  let summary_elem := find entry (atom "summary") in
  let id_elem := find entry (atom "id") in
  let authors :=
    flat_map
      (fun author =>
         match find author (atom "name") with
         | Some name =>
             match Element_text name with
             | Some t => if Py.truthy_str t then [t] else []
             | None => []
             end
         | None => []
         end)
      (findall entry (atom "author")) in
  let categories :=
    flat_map
      (fun category =>
         match dict_lookup (Element_attrib category) "term" with
         | Some term => [term]
         | None => []
         end)
      (findall entry (arxiv "primary_category")) in
  let title := stripped_text title_elem in
  let summary := stripped_text summary_elem in
  let arxiv_id :=
    match id_elem with
    | Some e =>
        match Element_text e with
        | Some t => if Py.truthy_str t then t else ""
        | None => ""
        end
    | None => ""
    end in
  let title := Py.join " " (Py.split_ws title) in
  let summary := Py.join " " (Py.split_ws summary) in
  let content := ("Title: " ++ title ++ Py.nl ++ Py.nl ++ "Abstract: " ++ summary)%string in
  {| MCPSearchResult.content := content;
     MCPSearchResult.source_type := ARXIV_PAPER;
     MCPSearchResult.source_url := Some arxiv_id;
     MCPSearchResult.source_title := Some title;
     MCPSearchResult.source_author := Some (Py.join ", " (firstn 3 authors));
     MCPSearchResult.metadata :=
       [ ("arxiv_id",
          JStr (if Py.truthy_str arxiv_id
                then Py.last_of (Py.split_char "/"%char arxiv_id) else ""));
         ("categories", JArr (map JStr categories));
         ("all_authors", JArr (map JStr authors)) ] |}.

(** Only [ET.ParseError] is handled here; the parse is the first step, so
    nothing has been collected when it fails. *)
Definition _parse_arxiv_response (xml_text : string) : M (list MCPSearchResult.t) :=
  try_except
    (root <- lift (ET_fromstring env xml_text) ;;
     ret (map parse_entry (findall root (atom "entry"))))
    (fun e =>
       if is_ParseError e then
         _ <- logger_error ("Failed to parse arXiv XML: " ++ str_exn e)%string ;;
         ret []
       else raise e).

Definition arxiv_params (keywords : list string) (max_results : Z) : list (string * JSON) :=
  let query_parts :=
    map (fun kw => ("all:" ++ Py.dquote ++ kw ++ Py.dquote)%string) keywords in
  let query := Py.join " OR " query_parts in
  [ ("search_query", JStr query);
    ("start", JNum 0);
    ("max_results", JNum (inject_Z max_results));
    ("sortBy", JStr "relevance");
    ("sortOrder", JStr "descending") ].

Definition search_arxiv (keywords : list string) (max_results : Z)
  : M (list MCPSearchResult.t) :=
  if negb (Py.truthy keywords) then ret []
  else
    let params := arxiv_params keywords max_results in
    try_except
      (response <- client_get ARXIV_API_URL params ;;
       _ <- raise_for_status response ;;
       results <- _parse_arxiv_response (Response.text response) ;;
       ret results)
      (fun e =>
         _ <- logger_error ("arXiv search failed: " ++ str_exn e)%string ;;
         ret []).

(** [str(v)], as an f-string renders a decoded value. *)
Definition format_value (v : JSON) : string :=
  match v with
  | JStr s => s
  | _ => py_repr env v
  end.

(** Validation of an [Optional[str]] field. *)
Definition optional_str (v : JSON) : exn + option string :=
  match v with
  | JStr s => inr (Some s)
  | JNull => inr None
  | _ => inl (ValidationError "Input should be a valid string")
  end.

(** The body of the [for model in models[:max_results]] loop: the result
    built from one model, or the exception it raises. *)
Definition model_result (model : JSON) : exn + MCPSearchResult.t :=
  match py_get model "modelId" (JStr "") with
  | inl e => inl e
  | inr model_id =>
      match py_get model "description" (JStr "No description available"),
            py_get model "author" (JStr ""),
            py_get model "downloads" (JNum 0),
            py_get model "likes" (JNum 0),
            py_get model "tags" (JArr []) with
      | inr description, inr author, inr downloads, inr likes, inr tags =>
          match optional_str model_id, optional_str author with
          | inr source_title, inr source_author =>
              inr {| MCPSearchResult.content :=
                       ("HuggingFace Model: " ++ format_value model_id ++ Py.nl ++ Py.nl
                        ++ "Description: " ++ format_value description)%string;
                     MCPSearchResult.source_type := HUGGINGFACE;
                     MCPSearchResult.source_url :=
                       Some ("https://huggingface.co/" ++ format_value model_id)%string;
                     MCPSearchResult.source_title := source_title;
                     MCPSearchResult.source_author := source_author;
                     MCPSearchResult.metadata :=
                       [ ("downloads", downloads); ("likes", likes); ("tags", tags) ] |}
          | inl e, _ => inl e
          | _, inl e => inl e
          end
      | inl e, _, _, _, _ => inl e
      | _, inl e, _, _, _ => inl e
      | _, _, inl e, _, _ => inl e
      | _, _, _, inl e, _ => inl e
      | _, _, _, _, inl e => inl e
      end
  end.

(** [models[:max_results]]: a list is sliced, a string too (into its
    characters); nothing else can be. *)
Definition slice_models (models : JSON) (max_results : Z) : exn + list JSON :=
  match models with
  | JArr items => inr (Py.slice_to items max_results)
  | JStr s =>
      inr (map (fun c => JStr (String c EmptyString))
             (Py.slice_to (list_ascii_of_string s) max_results))
  | _ => inl (TypeError "object is not subscriptable")
  end.

(** The loop over the models; [results] is the list built so far.  The
    answer is the list as the loop left it, and the exception that ended
    the loop, if one did. *)
Fixpoint collect_models (models : list JSON) (results : list MCPSearchResult.t)
  : list MCPSearchResult.t * option exn :=
  match models with
  | [] => (results, None)
  | model :: rest =>
      match model_result model with
      | inl e => (results, Some e)
      | inr result => collect_models rest (results ++ [result])
      end
  end.

Definition huggingface_url (query : string) (max_results : Z) : string :=
  ("https://huggingface.co/api/models?search=" ++ quote env query
   ++ "&limit=" ++ Py.str_int max_results)%string.

(** [results] is bound before the [try]; whatever the [try] block had
    appended when an exception ended it is what is returned. *)
Definition search_huggingface (keywords : list string) (max_results : Z)
  : M (list MCPSearchResult.t) :=
  if negb (Py.truthy keywords) then ret []
  else
    let query := Py.join " " keywords in
    let model_url := huggingface_url query max_results in
    ' (results, failure) <-
      try_except
        (response <- client_get model_url [] ;;
         _ <- raise_for_status response ;;
         models <- lift (json_loads env (Response.text response)) ;;
         head <- lift (slice_models models max_results) ;;
         ret (collect_models head []))
        (fun e => ret ([], Some e)) ;;
    match failure with
    | Some e =>
        _ <- logger_error ("HuggingFace search failed: " ++ str_exn e)%string ;;
        ret results
    | None => ret results
    end.

Definition search_all (keywords : list string) (max_results_per_source : Z)
  : M (list MCPSearchResult.t) :=
  let all_results := [] in
  arxiv_results <- search_arxiv keywords max_results_per_source ;;
  let all_results := all_results ++ arxiv_results in
  hf_results <- search_huggingface keywords max_results_per_source ;;
  let all_results := all_results ++ hf_results in
  ret all_results.

End Service.
End MCPClientService.

(** ** [app/services/keyword_extractor.py] *)

Module KeywordExtractorService.
Section Service.
Context (env : Collaborators) (settings : Settings.t).

(** [EXTRACTION_PROMPT.format(query=query)]. *)
Definition EXTRACTION_PROMPT (query : string) : string :=
  let q s := (Py.dquote ++ s ++ Py.dquote)%string in
  ("Extract technical keywords from the following query for searching a knowledge base about AI, machine learning, and research papers."
   ++ Py.nl ++ Py.nl
   ++ "Rules:" ++ Py.nl
   ++ "1. Extract 3-7 specific technical keywords or phrases" ++ Py.nl
   ++ "2. Convert abstract concepts to technical terms (e.g., " ++ q "AI trends" ++ " → "
   ++ q "large language models" ++ ", " ++ q "transformers" ++ ", " ++ q "AI" ++ ")" ++ Py.nl
   ++ "3. Keep keywords concise but specific" ++ Py.nl
   ++ "4. Include relevant acronyms if applicable (e.g., " ++ q "LLM" ++ ", " ++ q "RAG"
   ++ ", " ++ q "NLP" ++ ")" ++ Py.nl
   ++ "5. Identify if the query is asking about: expert_insight, arxiv_paper, huggingface, or general"
   ++ Py.nl ++ Py.nl
   ++ "Query: " ++ query ++ Py.nl ++ Py.nl
   ++ "Respond in JSON format:" ++ Py.nl
   ++ "{" ++ Py.nl
   ++ "    " ++ q "keywords" ++ ": [" ++ q "keyword1" ++ ", " ++ q "keyword2" ++ ", ...],"
   ++ Py.nl
   ++ "    " ++ q "source_type_hint" ++ ": " ++ q "expert_insight" ++ " | " ++ q "arxiv_paper"
   ++ " | " ++ q "huggingface" ++ " | null" ++ Py.nl
   ++ "}")%string.

Definition SYSTEM_MESSAGE : string :=
  "You are a keyword extraction assistant. Always respond with valid JSON.".

(** The fallback of both [except] clauses: the first five words of the
    query that are longer than two characters. *)
Definition fallback (query : string) : KeywordResult.t :=
  let words := Py.split_ws (str_lower env query) in
  let keywords := firstn 5 (filter (fun w => (2 <? Py.len w)%nat) words) in
  {| KeywordResult.keywords := keywords; KeywordResult.source_type_hint := None |}.

(** The handling of a markdown code block around the answer. *)
Definition unfence (content : string) : exn + string :=
  if Py.startswith content "```" then
    match nth_error (Py.split_str "```" content) 1 with
    | None => inl (IndexError "list index out of range")
    | Some content =>
        let content :=
          if Py.startswith content "json" then Py.str_slice_from content 4 else content in
        inr (Py.strip content)
    end
  else inr content.

(** [type_map.get(source_hint)]: a list or a dictionary cannot be a key. *)
Definition type_map_get (source_hint : JSON) : exn + option SourceType :=
  match source_hint with
  | JStr s =>
      if String.eqb s "expert_insight" then inr (Some EXPERT_INSIGHT)
      else if String.eqb s "arxiv_paper" then inr (Some ARXIV_PAPER)
      else if String.eqb s "huggingface" then inr (Some HUGGINGFACE)
      else inr None
  | JArr _ | JObj _ => inl (TypeError "unhashable type")
  | _ => inr None
  end.

(** Validation of the [List[str]] field [keywords]. *)
Fixpoint all_strings (items : list JSON) : option (list string) :=
  match items with
  | [] => Some []
  | JStr s :: rest =>
      match all_strings rest with
      | Some l => Some (s :: l)
      | None => None
      end
  | _ :: _ => None
  end.

Definition validate_keywords (v : JSON) : exn + list string :=
  match v with
  | JArr items =>
      match all_strings items with
      | Some l => inr l
      | None => inl (ValidationError "Input should be a valid string")
      end
  | _ => inl (ValidationError "Input should be a valid list")
  end.

(** The [try] block after the completion call: it reads the answer and
    touches nothing. *)
Definition decode (choices : list (option string)) : exn + KeywordResult.t :=
  and_then (first_content_stripped choices) (fun content =>
  and_then (unfence content) (fun content =>
  and_then (json_loads env content) (fun data =>
  and_then (py_get data "keywords" (JArr [])) (fun keywords =>
  and_then (py_get data "source_type_hint" JNull) (fun source_hint =>
  and_then (if py_truthy source_hint then type_map_get source_hint else inr None)
    (fun source_type =>
  and_then (validate_keywords keywords) (fun keywords =>
  inr {| KeywordResult.keywords := keywords;
         KeywordResult.source_type_hint := source_type |}))))))).

Definition extract (query : string) : M KeywordResult.t :=
  try_except
    (choices <- chat_completion env (Settings.llm_model settings) SYSTEM_MESSAGE
                  (EXTRACTION_PROMPT query) ;;
     lift (decode choices))
    (fun e =>
       match e with
       | JSONDecodeError _ => ret (fallback query)
       | _ =>
           _ <- logger_error ("Keyword extraction failed: " ++ str_exn e)%string ;;
           ret (fallback query)
       end).

End Service.
End KeywordExtractorService.

(** ** [app/services/llm_responder.py] *)

Module LLMResponderService.
Section Service.
Context (env : Collaborators) (settings : Settings.t).

(** [RESPONSE_PROMPT.format(context=context, query=query)]. *)
Definition RESPONSE_PROMPT (context query : string) : string :=
  ("You are an AI research assistant. Based on the provided context, answer the user's question accurately and concisely."
   ++ Py.nl ++ Py.nl
   ++ "Context from knowledge base:" ++ Py.nl
   ++ context ++ Py.nl ++ Py.nl
   ++ "User question: " ++ query ++ Py.nl ++ Py.nl
   ++ "Instructions:" ++ Py.nl
   ++ "1. Synthesize information from the provided sources" ++ Py.nl
   ++ "2. Be specific and cite relevant details from the context" ++ Py.nl
   ++ "3. If the context doesn't fully answer the question, acknowledge limitations" ++ Py.nl
   ++ "4. Keep the response focused and informative" ++ Py.nl
   ++ "5. Do not make up information not present in the context" ++ Py.nl
   ++ "6. IMPORTANT: Respond in the same language as the user's question. If the question is in Korean, respond in Korean. If the question is in English, respond in English."
   ++ Py.nl ++ Py.nl
   ++ "Response:")%string.

Definition SYSTEM_MESSAGE : string :=
  "You are a helpful AI research assistant with expertise in machine learning, AI, and academic research.".

(** ['가' <= char <= '힣']: a Hangul syllable. *)
Definition is_hangul (cp : N) : bool := ((44032 <=? cp) && (cp <=? 55203))%N.

Definition _not_found_response (query : string) : string :=
  if Py.truthy_str query && existsb is_hangul (Py.ord_all query) then
    "질문에 대한 관련 정보를 찾을 수 없습니다. 질문을 다르게 표현하거나 AI 및 머신러닝 연구와 관련된 다른 주제로 질문해 주세요."
  else
    "I couldn't find relevant information to answer your question. Try rephrasing your query or asking about a different topic related to AI and machine learning research.".

(** The numbered context entry of a source. *)
Definition context_part (i : nat) (source_type : SourceType) (content : string) : string :=
  ("[Source " ++ Py.str_nat i ++ "] (" ++ SourceType_value source_type ++ ")" ++ Py.nl
   ++ Py.str_slice_to content 1000)%string.

(** One turn of [for i, item in enumerate(knowledge_items, 1)]: both lists
    grow by one. *)
Definition add_knowledge_item (acc : list string * list SourceInfo.t)
    (entry : nat * KnowledgeItem.t) : list string * list SourceInfo.t :=
  let '(context_parts, sources) := acc in
  let '(i, item) := entry in
  (context_parts
     ++ [context_part i (KnowledgeItem.source_type item) (KnowledgeItem.content item)],
   sources
     ++ [ {| SourceInfo.source_type := KnowledgeItem.source_type item;
             SourceInfo.title := KnowledgeItem.source_title item;
             SourceInfo.url := KnowledgeItem.source_url item;
             SourceInfo.author := KnowledgeItem.source_author item;
             SourceInfo.relevance_score := KnowledgeItem.final_score item |} ]).

(** One turn of [for i, result in enumerate(mcp_results, offset + 1)]. *)
Definition add_mcp_result (acc : list string * list SourceInfo.t)
    (entry : nat * MCPSearchResult.t) : list string * list SourceInfo.t :=
  let '(context_parts, sources) := acc in
  let '(i, result) := entry in
  (context_parts
     ++ [context_part i (MCPSearchResult.source_type result) (MCPSearchResult.content result)],
   sources
     ++ [ {| SourceInfo.source_type := MCPSearchResult.source_type result;
             SourceInfo.title := MCPSearchResult.source_title result;
             SourceInfo.url := MCPSearchResult.source_url result;
             SourceInfo.author := MCPSearchResult.source_author result;
             SourceInfo.relevance_score := f0_0 |} ]).

(** The first half of [generate_response]: [context_parts] and [sources]
    as the two loops leave them. *)
Definition build_context (knowledge_items : option (list KnowledgeItem.t))
    (mcp_results : option (list MCPSearchResult.t)) : list string * list SourceInfo.t :=
  let acc := ([], []) in
  let acc :=
    if Py.truthy_opt knowledge_items
    then fold_left add_knowledge_item (Py.enumerate (Py.or_else knowledge_items []) 1) acc
    else acc in
  if Py.truthy_opt mcp_results
  then
    let offset := List.length (fst acc) in
    fold_left add_mcp_result (Py.enumerate (Py.or_else mcp_results []) (offset + 1)) acc
  else acc.

Definition generate_response (query : string)
    (knowledge_items : option (list KnowledgeItem.t))
    (mcp_results : option (list MCPSearchResult.t)) : M (string * list SourceInfo.t) :=
  let '(context_parts, sources) := build_context knowledge_items mcp_results in
  if negb (Py.truthy context_parts) then ret (_not_found_response query, [])
  else
    let context := Py.join (Py.nl ++ Py.nl ++ "---" ++ Py.nl ++ Py.nl)%string context_parts in
    try_except
      (choices <- chat_completion env (Settings.llm_model settings) SYSTEM_MESSAGE
                    (RESPONSE_PROMPT context query) ;;
       response_text <- lift (first_content_stripped choices) ;;
       ret (response_text, sources))
      (fun e =>
         _ <- logger_error ("Response generation failed: " ++ str_exn e)%string ;;
         ret (("I encountered an error generating a response: " ++ str_exn e)%string,
              sources)).

End Service.
End LLMResponderService.

(** ** [app/core/orchestrator.py] *)

Module SearchOrchestrator.
Section Service.
Context (env : Collaborators) (settings : Settings.t).

(** [(time.time() - start_time) * 1000], the clock being in microseconds. *)
Definition elapsed_since (start_time : Z) : M Q :=
  now <- time_time env ;;
  ret (inject_Z (now - start_time) / 1000)%Q.

Definition NOT_FOUND_MESSAGE : string :=
  "I couldn't find relevant information to answer your question. Try rephrasing your query or asking about a different topic.".

Definition search (request : SearchRequest.t) : M SearchResponse.t :=
  start_time <- time_time env ;;
  let query := SearchRequest.query request in
  keyword_result <- KeywordExtractorService.extract env settings query ;;
  let keywords := KeywordResult.keywords keyword_result in
  cached <- SemanticCacheService.search env settings query ;;
  match cached with
  | Some cached =>
      elapsed_ms <- elapsed_since start_time ;;
      ret {| SearchResponse.query := query;
             SearchResponse.response := CacheEntry.response_text cached;
             SearchResponse.sources := CacheEntry.sources cached;
             SearchResponse.search_path := CACHE;
             SearchResponse.processing_time_ms := elapsed_ms;
             SearchResponse.keywords := keywords |}
  | None =>
      vector_results <- VectorStoreService.search env settings keywords None f0_5 ;;
      if Py.truthy vector_results then
        ' (response_text, sources) <-
          LLMResponderService.generate_response env settings query (Some vector_results) None ;;
        _ <- SemanticCacheService.store env query response_text sources ;;
        elapsed_ms <- elapsed_since start_time ;;
        ret {| SearchResponse.query := query;
               SearchResponse.response := response_text;
               SearchResponse.sources := sources;
               SearchResponse.search_path := VECTOR_DB;
               SearchResponse.processing_time_ms := elapsed_ms;
               SearchResponse.keywords := keywords |}
      else
        mcp_results <- MCPClientService.search_all env keywords 3 ;;
        if Py.truthy mcp_results then
          _ <- VectorStoreService.ingest_batch env mcp_results ;;
          ' (response_text, sources) <-
            LLMResponderService.generate_response env settings query None (Some mcp_results) ;;
          _ <- SemanticCacheService.store env query response_text sources ;;
          elapsed_ms <- elapsed_since start_time ;;
          ret {| SearchResponse.query := query;
                 SearchResponse.response := response_text;
                 SearchResponse.sources := sources;
                 SearchResponse.search_path := MCP;
                 SearchResponse.processing_time_ms := elapsed_ms;
                 SearchResponse.keywords := keywords |}
        else
          elapsed_ms <- elapsed_since start_time ;;
          ret {| SearchResponse.query := query;
                 SearchResponse.response := NOT_FOUND_MESSAGE;
                 SearchResponse.sources := [];
                 SearchResponse.search_path := NOT_FOUND;
                 SearchResponse.processing_time_ms := elapsed_ms;
                 SearchResponse.keywords := keywords |}
  end.

End Service.
End SearchOrchestrator.

(** ** Vocabulary of the statements *)

(** The world an outcome leaves behind, returned or raised. *)
Definition world_of {A : Type} (o : Outcome A) : World :=
  match o with
  | Return _ w => w
  | Raise _ w => w
  end.

(** The world after [n] further readings of the clock. *)
Definition advance (n : nat) (w : World) : World :=
  {| knowledge_base := knowledge_base w;
     knowledge_base_seq := knowledge_base_seq w;
     semantic_cache := semantic_cache w;
     semantic_cache_seq := semantic_cache_seq w;
     ticks := (n + ticks w)%nat;
     calls := calls w;
     error_log := error_log w |}.

(** The world after further calls [cs]. *)
Definition called (cs : list Call) (w : World) : World :=
  {| knowledge_base := knowledge_base w;
     knowledge_base_seq := knowledge_base_seq w;
     semantic_cache := semantic_cache w;
     semantic_cache_seq := semantic_cache_seq w;
     ticks := ticks w;
     calls := calls w ++ cs;
     error_log := error_log w |}.

(** The world with table [semantic_cache] replaced. *)
Definition with_cache (rows : list CacheRow.t) (w : World) : World :=
  {| knowledge_base := knowledge_base w;
     knowledge_base_seq := knowledge_base_seq w;
     semantic_cache := rows;
     semantic_cache_seq := semantic_cache_seq w;
     ticks := ticks w;
     calls := calls w;
     error_log := error_log w |}.

(** The world after a further error record. *)
Definition logged (msg : string) (w : World) : World :=
  {| knowledge_base := knowledge_base w;
     knowledge_base_seq := knowledge_base_seq w;
     semantic_cache := semantic_cache w;
     semantic_cache_seq := semantic_cache_seq w;
     ticks := ticks w;
     calls := calls w;
     error_log := error_log w ++ [msg] |}.

(** The ids of table [semantic_cache] are those of a sequence: distinct,
    and below the next value. *)
Definition cache_wf (w : World) : Prop :=
  NoDup (map CacheRow.id (semantic_cache w)) /\
  forall r, In r (semantic_cache w) -> CacheRow.id r < semantic_cache_seq w.

(** The entry a cache hit on row [r] at similarity [similarity] returns. *)
Definition entry_of (r : CacheRow.t) (similarity : Q) : CacheEntry.t := {|
  CacheEntry.id := CacheRow.id r;
  CacheEntry.query_text := CacheRow.query_text r;
  CacheEntry.response_text := CacheRow.response_text r;
  CacheEntry.sources := Py.or_else (CacheRow.sources r) [];
  CacheEntry.hit_count := CacheRow.hit_count r + 1;
  CacheEntry.similarity := similarity;
  CacheEntry.created_at := CacheRow.created_at r
|}.

(** Both tables and their sequences are the same in [w] and [w']. *)
Definition same_tables (w w' : World) : Prop :=
  knowledge_base w' = knowledge_base w /\
  knowledge_base_seq w' = knowledge_base_seq w /\
  semantic_cache w' = semantic_cache w /\
  semantic_cache_seq w' = semantic_cache_seq w.

(** The citation [generate_response] builds from a knowledge item, and
    from an external result. *)
Definition knowledge_citation (item : KnowledgeItem.t) : SourceInfo.t := {|
  SourceInfo.source_type := KnowledgeItem.source_type item;
  SourceInfo.title := KnowledgeItem.source_title item;
  SourceInfo.url := KnowledgeItem.source_url item;
  SourceInfo.author := KnowledgeItem.source_author item;
  SourceInfo.relevance_score := KnowledgeItem.final_score item
|}.

Definition external_citation (result : MCPSearchResult.t) : SourceInfo.t := {|
  SourceInfo.source_type := MCPSearchResult.source_type result;
  SourceInfo.title := MCPSearchResult.source_title result;
  SourceInfo.url := MCPSearchResult.source_url result;
  SourceInfo.author := MCPSearchResult.source_author result;
  SourceInfo.relevance_score := 0
|}.

(** The citations of both document sets, knowledge items first. *)
Definition citations (knowledge_items : option (list KnowledgeItem.t))
    (mcp_results : option (list MCPSearchResult.t)) : list SourceInfo.t :=
  map knowledge_citation (Py.or_else knowledge_items [])
  ++ map external_citation (Py.or_else mcp_results []).

(** The user message [generate_response] sends for a query and two
    document sets. *)
Definition user_prompt (query : string) (knowledge_items : option (list KnowledgeItem.t))
    (mcp_results : option (list MCPSearchResult.t)) : string :=
  LLMResponderService.RESPONSE_PROMPT
    (Py.join (Py.nl ++ Py.nl ++ "---" ++ Py.nl ++ Py.nl)%string
       (fst (LLMResponderService.build_context knowledge_items mcp_results)))
    query.

(** The synthesis of a response fails with [e]: the completion call
    raises [e], or it answers and reading the text off the answer raises
    [e]. *)
Definition synthesis_fails (env : Collaborators) (settings : Settings.t) (query : string)
    (knowledge_items : option (list KnowledgeItem.t))
    (mcp_results : option (list MCPSearchResult.t)) (w : World) (e : exn) : Prop :=
  let answer :=
    chat_completions_create env (List.length (calls w)) (Settings.llm_model settings)
      LLMResponderService.SYSTEM_MESSAGE (user_prompt query knowledge_items mcp_results) in
  answer = inl e \/
  exists choices,
    answer = inr choices /\ first_content_stripped choices = inl e.

(** Row [row] of table [semantic_cache] is the fresh entry for this query,
    response and citation list. *)
Definition cached_as (query response : string) (sources : list SourceInfo.t)
    (row : CacheRow.t) : Prop :=
  CacheRow.query_text row = query /\
  CacheRow.response_text row = response /\
  CacheRow.sources row = Some sources /\
  CacheRow.hit_count row = 0.

(** Row [row] of table [knowledge_base] holds the external result
    [result]. *)
Definition ingested (result : MCPSearchResult.t) (row : KnowledgeRow.t) : Prop :=
  KnowledgeRow.content row = MCPSearchResult.content result /\
  KnowledgeRow.source_type row = MCPSearchResult.source_type result /\
  KnowledgeRow.source_url row = MCPSearchResult.source_url result /\
  KnowledgeRow.source_title row = MCPSearchResult.source_title result /\
  KnowledgeRow.source_author row = MCPSearchResult.source_author result /\
  KnowledgeRow.metadata row = Some (MCPSearchResult.metadata result).

(** The calls one [ingest] issues. *)
Definition ingest_calls (result : MCPSearchResult.t) : list Call :=
  [EmbeddingsCreate (MCPSearchResult.content result);
   KnowledgeInsert (MCPSearchResult.content result)].

(** An item created at [created_at] is [a] whole days old at the instant
    [now_us]: at least [a] days and less than [a + 1] days have passed. *)
Definition whole_days_old (now_us : Z) (created_at : datetime) (a : Z) : Prop :=
  a * us_per_day <= now_us - instant created_at < (a + 1) * us_per_day.

(** The three values of the recency sub-score. *)
Definition is_tier (r : Q) : Prop := r = f1_0 \/ r = f0_7 \/ r = f0_5.

(** A candidate row survives the threshold. *)
Definition kept (min_similarity : Q) (row : KnowledgeRow.t * Q) : bool :=
  negb (Qlt_bool (snd row) min_similarity).

(** The item [search] builds from a candidate row and its recency. *)
Definition item_of (row : KnowledgeRow.t * Q) (recency : Q) : KnowledgeItem.t := {|
  KnowledgeItem.id := KnowledgeRow.id (fst row);
  KnowledgeItem.content := KnowledgeRow.content (fst row);
  KnowledgeItem.source_type := KnowledgeRow.source_type (fst row);
  KnowledgeItem.source_url := KnowledgeRow.source_url (fst row);
  KnowledgeItem.source_title := KnowledgeRow.source_title (fst row);
  KnowledgeItem.source_author := KnowledgeRow.source_author (fst row);
  KnowledgeItem.metadata := Py.or_else (KnowledgeRow.metadata (fst row)) [];
  KnowledgeItem.similarity := snd row;
  KnowledgeItem.recency_score := recency;
  KnowledgeItem.final_score :=
    Binary64.add (Binary64.mul (snd row) f0_7) (Binary64.mul recency f0_3);
  KnowledgeItem.created_at := KnowledgeRow.created_at (fst row)
|}.

(** [it] is what [search] makes of [row], at one of the recency tiers. *)
Definition scored_from (row : KnowledgeRow.t * Q) (it : KnowledgeItem.t) : Prop :=
  exists recency, is_tier recency /\ it = item_of row recency.

(** ** A small instance

    Collaborators and worlds on which the statements are exercised.  The
    stub index keeps, as a row's embedding, the distance of the row to any
    query; the clock starts 100 days after the epoch and moves one
    microsecond per reading; the text generator has one sentence for every
    prompt (so keyword extraction falls back to the words of the query);
    the providers are unreachable. *)

Module Demo.

Definition env : Collaborators := {|
  embeddings_create := fun _ text => inr [inject_Z (Z.of_nat (String.length text))];
  chat_completions_create := fun _ _ _ _ => inr [Some "An answer."];
  cosine_distance := fun stored _ => hd 1%Q stored;
  clock_us := fun n => 100 * us_per_day + Z.of_nat n;
  db_timestamp := fun t => {| wall_us := t; tzinfo := None |};
  httpx_get := fun _ _ _ => inl (HTTPError "Connection failed");
  ET_fromstring := fun _ => inl (ParseError "syntax error: line 1, column 0");
  json_loads := fun _ => inl (JSONDecodeError "Expecting value: line 1 column 1 (char 0)");
  py_repr := fun _ => "None";
  quote := fun s => s;
  str_lower := Py.lower
|}.

(** Nothing stored, nothing called. *)
Definition empty_world : World := {|
  knowledge_base := [];
  knowledge_base_seq := 1;
  semantic_cache := [];
  semantic_cache_seq := 1;
  ticks := 0;
  calls := [];
  error_log := []
|}.

(** A knowledge row at distance [distance] from any query, created
    [age_days] days before the clock's first reading. *)
Definition paper (id : Z) (title : string) (distance : Q) (age_days : Z) : KnowledgeRow.t := {|
  KnowledgeRow.id := id;
  KnowledgeRow.content := title;
  KnowledgeRow.content_embedding := [distance];
  KnowledgeRow.source_type := ARXIV_PAPER;
  KnowledgeRow.source_url := None;
  KnowledgeRow.source_title := Some title;
  KnowledgeRow.source_author := None;
  KnowledgeRow.metadata := None;
  KnowledgeRow.created_at :=
    {| wall_us := (100 - age_days) * us_per_day; tzinfo := utc |}
|}.

(** Two papers, a recent one at similarity 0.85 and an old one at 0.95,
    and a third row at similarity 0.30. *)
Definition library : World := {|
  knowledge_base :=
    [ paper 1 "New Transformer Paper" (15 # 100) 2;
      paper 2 "Old Transformer Paper" (5 # 100) 60;
      paper 3 "Cooking" (70 # 100) 1 ];
  knowledge_base_seq := 4;
  semantic_cache := [];
  semantic_cache_seq := 1;
  ticks := 0;
  calls := [];
  error_log := []
|}.

(** A cache row at distance [distance] from any query, hit [hits] times
    so far. *)
Definition answer (id : Z) (query response : string) (distance : Q) (hits : Z)
  : CacheRow.t := {|
  CacheRow.id := id;
  CacheRow.query_text := query;
  CacheRow.query_embedding := [distance];
  CacheRow.response_text := response;
  CacheRow.sources := Some [];
  CacheRow.hit_count := hits;
  CacheRow.created_at := {| wall_us := 99 * us_per_day; tzinfo := None |}
|}.

(** A cache with one entry near every query (similarity 0.98) and one far
    from it (similarity 0.50). *)
Definition warm_cache : World := {|
  knowledge_base := [];
  knowledge_base_seq := 1;
  semantic_cache :=
    [ answer 1 "What is attention?" "Attention weighs tokens." (50 # 100) 0;
      answer 2 "What is RAG?" "RAG stands for Retrieval-Augmented Generation." (2 # 100) 5 ];
  semantic_cache_seq := 3;
  ticks := 0;
  calls := [];
  error_log := []
|}.

(** The same collaborators with the text generator out of quota. *)
Definition llm_down : Collaborators := {|
  embeddings_create := embeddings_create env;
  chat_completions_create := fun _ _ _ _ => inl (APIError "Rate limit exceeded");
  cosine_distance := cosine_distance env;
  clock_us := clock_us env;
  db_timestamp := db_timestamp env;
  httpx_get := httpx_get env;
  ET_fromstring := ET_fromstring env;
  json_loads := json_loads env;
  py_repr := py_repr env;
  quote := quote env;
  str_lower := str_lower env
|}.

(** The same collaborators with HuggingFace reachable (arXiv is not): it
    answers with one well-formed model, a number where a model should be,
    and a third model that is never reached. *)
Definition hf_up : Collaborators := {|
  embeddings_create := embeddings_create env;
  chat_completions_create := chat_completions_create env;
  cosine_distance := cosine_distance env;
  clock_us := clock_us env;
  db_timestamp := db_timestamp env;
  httpx_get := fun _ url _ =>
    if String.eqb url MCPClientService.ARXIV_API_URL
    then inl (HTTPError "Connection failed")
    else inr {| Response.status_error := None; Response.text := "[...]" |};
  ET_fromstring := ET_fromstring env;
  json_loads := fun _ =>
    inr (JArr [ JObj [("modelId", JStr "test-org/test-model"); ("author", JStr "test-org")];
                JNum 5;
                JObj [("modelId", JStr "test-org/other-model")] ]);
  py_repr := py_repr env;
  quote := quote env;
  str_lower := str_lower env
|}.

(** One result of an external search. *)
Definition found : MCPSearchResult.t := {|
  MCPSearchResult.content := "HuggingFace Model: test-org/test-model";
  MCPSearchResult.source_type := HUGGINGFACE;
  MCPSearchResult.source_url := Some "https://huggingface.co/test-org/test-model";
  MCPSearchResult.source_title := Some "test-org/test-model";
  MCPSearchResult.source_author := Some "test-org";
  MCPSearchResult.metadata := [("downloads", JNum 1000)]
|}.

End Demo.

(** What the stub library answers to two keywords under the default
    settings. *)
Module DemoRun.

Definition keywords : list string := ["transformer"; "architecture"].

Definition outcome : Outcome (list KnowledgeItem.t) :=
  Eval vm_compute in
    VectorStoreService.search Demo.env Settings.default keywords None (1 # 2) Demo.library.

Definition ranked : list KnowledgeItem.t :=
  match outcome with
  | Return items _ => items
  | Raise _ _ => []
  end.

Definition top : KnowledgeItem.t :=
  item_of (Demo.paper 1 "New Transformer Paper" (15 # 100) 2, 1 - (15 # 100))%Q f1_0.

(** A query that only the external tier can answer, on an empty store. *)
Definition request : SearchRequest.t := {| SearchRequest.query := "test model" |}.

Definition pipeline : Outcome SearchResponse.t :=
  Eval vm_compute in
    SearchOrchestrator.search Demo.hf_up Settings.default request Demo.empty_world.

Definition envelope : SearchResponse.t :=
  match pipeline with
  | Return resp _ => resp
  | Raise _ _ =>
      {| SearchResponse.query := "";
         SearchResponse.response := "";
         SearchResponse.sources := [];
         SearchResponse.search_path := NOT_FOUND;
         SearchResponse.processing_time_ms := 0;
         SearchResponse.keywords := [] |}
  end.

Definition after : World := world_of pipeline.

End DemoRun.

(** ** Vocabulary of the further properties *)

(** The same search with the threshold lowered to 0.25, so that the third
    row of the stub library survives. *)
Module DemoWide.

Definition outcome : Outcome (list KnowledgeItem.t) :=
  Eval vm_compute in
    VectorStoreService.search Demo.env Settings.default DemoRun.keywords None (1 # 4)
      Demo.library.

Definition ranked : list KnowledgeItem.t :=
  match outcome with
  | Return items _ => items
  | Raise _ _ => []
  end.

End DemoWide.

(** The ids of table [knowledge_base] are those of a sequence: distinct,
    and below the next value. *)
Definition knowledge_wf (w : World) : Prop :=
  NoDup (map KnowledgeRow.id (knowledge_base w)) /\
  forall r, In r (knowledge_base w) -> KnowledgeRow.id r < knowledge_base_seq w.

(** [n] consecutive integers from [start]. *)
Definition consecutive (start : Z) (n : nat) : list Z :=
  map (fun i => start + Z.of_nat i) (seq 0 n).

(** The row [ingest] writes for [item], embedded as [embedding], at id
    [id] and clock reading [t]. *)
Definition knowledge_row_of (env : Collaborators) (item : MCPSearchResult.t)
    (embedding : list Q) (id : Z) (t : Z) : KnowledgeRow.t := {|
  KnowledgeRow.id := id;
  KnowledgeRow.content := MCPSearchResult.content item;
  KnowledgeRow.content_embedding := embedding;
  KnowledgeRow.source_type := MCPSearchResult.source_type item;
  KnowledgeRow.source_url := MCPSearchResult.source_url item;
  KnowledgeRow.source_title := MCPSearchResult.source_title item;
  KnowledgeRow.source_author := MCPSearchResult.source_author item;
  KnowledgeRow.metadata := Some (MCPSearchResult.metadata item);
  KnowledgeRow.created_at := db_timestamp env t
|}.

(** The world after that row has been written. *)
Definition with_knowledge_row (row : KnowledgeRow.t) (w : World) : World :=
  {| knowledge_base := knowledge_base w ++ [row];
     knowledge_base_seq := knowledge_base_seq w + 1;
     semantic_cache := semantic_cache w;
     semantic_cache_seq := semantic_cache_seq w;
     ticks := S (ticks w);
     calls := calls w ++ [EmbeddingsCreate (KnowledgeRow.content row);
                          KnowledgeInsert (KnowledgeRow.content row)];
     error_log := error_log w |}.

(** An external result of the stub instance that is not in the library. *)
Module DemoIngest.

Definition other : MCPSearchResult.t := {|
  MCPSearchResult.content := "Title: Attention";
  MCPSearchResult.source_type := ARXIV_PAPER;
  MCPSearchResult.source_url := Some "http://arxiv.org/abs/1706.03762";
  MCPSearchResult.source_title := Some "Attention";
  MCPSearchResult.source_author := Some "Vaswani";
  MCPSearchResult.metadata := []
|}.

Definition batch : list MCPSearchResult.t := [Demo.found; other].

Definition outcome : Outcome (list Z) :=
  Eval vm_compute in VectorStoreService.ingest_batch Demo.env batch Demo.library.

Definition after : World := world_of outcome.

End DemoIngest.

(** The row [store] writes, and the world after it has been written. *)
Definition cache_row_of (env : Collaborators) (query : string) (embedding : list Q)
    (response : string) (sources : list SourceInfo.t) (id : Z) (t : Z) : CacheRow.t := {|
  CacheRow.id := id;
  CacheRow.query_text := query;
  CacheRow.query_embedding := embedding;
  CacheRow.response_text := response;
  CacheRow.sources := Some sources;
  CacheRow.hit_count := 0;
  CacheRow.created_at := db_timestamp env t
|}.

Definition with_cache_row (row : CacheRow.t) (w : World) : World :=
  {| knowledge_base := knowledge_base w;
     knowledge_base_seq := knowledge_base_seq w;
     semantic_cache := semantic_cache w ++ [row];
     semantic_cache_seq := semantic_cache_seq w + 1;
     ticks := S (ticks w);
     calls := calls w ++ [EmbeddingsCreate (CacheRow.query_text row);
                          CacheInsert (CacheRow.query_text row)];
     error_log := error_log w |}.


(** Row [r'] is row [r] after zero or more hits: the same entry, its
    counter not lower. *)
Definition same_entry (r r' : CacheRow.t) : Prop :=
  CacheRow.id r' = CacheRow.id r /\
  CacheRow.query_text r' = CacheRow.query_text r /\
  CacheRow.query_embedding r' = CacheRow.query_embedding r /\
  CacheRow.response_text r' = CacheRow.response_text r /\
  CacheRow.sources r' = CacheRow.sources r /\
  CacheRow.created_at r' = CacheRow.created_at r /\
  CacheRow.hit_count r <= CacheRow.hit_count r'.

(** A stub in which a vector is at distance 0 from itself and at distance
    1 from any other ([embeddings_create] gives one number). *)
Module DemoExact.

Definition env : Collaborators := {|
  embeddings_create := embeddings_create Demo.env;
  chat_completions_create := chat_completions_create Demo.env;
  cosine_distance := fun a b =>
    if Qeq_bool (hd 0%Q a) (hd 0%Q b) then 0%Q else 1%Q;
  clock_us := clock_us Demo.env;
  db_timestamp := db_timestamp Demo.env;
  httpx_get := httpx_get Demo.env;
  ET_fromstring := ET_fromstring Demo.env;
  json_loads := json_loads Demo.env;
  py_repr := py_repr Demo.env;
  quote := quote Demo.env;
  str_lower := str_lower Demo.env
|}.

Definition stored : Outcome Z :=
  Eval vm_compute in
    SemanticCacheService.store env "What is RAG?" "Retrieval-Augmented Generation." []
      Demo.empty_world.

Definition after_store : World := world_of stored.

End DemoExact.

(** The text generator answering the extraction prompt in the format it
    was asked for. *)
Module DemoExtract.

Definition answer_text : string := "{keywords: [rag, retrieval], source_type_hint: arxiv_paper}".

Definition answer_data : JSON :=
  JObj [ ("keywords", JArr [JStr "rag"; JStr "retrieval"]);
         ("source_type_hint", JStr "arxiv_paper") ].

Definition env : Collaborators := {|
  embeddings_create := embeddings_create Demo.env;
  chat_completions_create := fun _ _ _ _ => inr [Some answer_text];
  cosine_distance := cosine_distance Demo.env;
  clock_us := clock_us Demo.env;
  db_timestamp := db_timestamp Demo.env;
  httpx_get := httpx_get Demo.env;
  ET_fromstring := ET_fromstring Demo.env;
  json_loads := fun _ => inr answer_data;
  py_repr := py_repr Demo.env;
  quote := quote Demo.env;
  str_lower := str_lower Demo.env
|}.

End DemoExtract.

(** The documents handed to [generate_response], knowledge items first:
    the source type and the content of each. *)
Definition documents (knowledge_items : option (list KnowledgeItem.t))
    (mcp_results : option (list MCPSearchResult.t)) : list (SourceType * string) :=
  map (fun item => (KnowledgeItem.source_type item, KnowledgeItem.content item))
    (Py.or_else knowledge_items [])
  ++ map (fun result => (MCPSearchResult.source_type result, MCPSearchResult.content result))
       (Py.or_else mcp_results []).

(** The context entry of the document numbered [i]. *)
Definition numbered_part (entry : nat * (SourceType * string)) : string :=
  LLMResponderService.context_part (fst entry) (fst (snd entry)) (snd (snd entry)).

(** The embedding service out of reach, everything else as in [Demo]. *)
Module DemoOutage.

Definition env : Collaborators := {|
  embeddings_create := fun _ _ => inl (APIError "Connection error");
  chat_completions_create := chat_completions_create Demo.env;
  cosine_distance := cosine_distance Demo.env;
  clock_us := clock_us Demo.env;
  db_timestamp := db_timestamp Demo.env;
  httpx_get := httpx_get Demo.env;
  ET_fromstring := ET_fromstring Demo.env;
  json_loads := json_loads Demo.env;
  py_repr := py_repr Demo.env;
  quote := quote Demo.env;
  str_lower := str_lower Demo.env
|}.

End DemoOutage.

(** A knowledge base with one row that the keywords of ["What is RAG?"]
    match exactly, and a first run of the pipeline on it. *)
Module DemoRepeat.

Definition request : SearchRequest.t := {| SearchRequest.query := "What is RAG?" |}.

Definition library : World := {|
  knowledge_base := [ Demo.paper 1 "A survey of RAG" 9 2 ];
  knowledge_base_seq := 2;
  semantic_cache := [];
  semantic_cache_seq := 1;
  ticks := 0;
  calls := [];
  error_log := []
|}.

Definition first_run : Outcome SearchResponse.t :=
  Eval vm_compute in SearchOrchestrator.search DemoExact.env Settings.default request library.

End DemoRepeat.

(** Both providers' worth of trouble at once: HuggingFace answers with two
    models, and the embedding service runs out of quota after the ninth
    call of the process, which is the embedding of the second model. *)
Module DemoPartial.

Definition env : Collaborators := {|
  embeddings_create := fun n text =>
    if (n <? 9)%nat then embeddings_create Demo.env n text
    else inl (APIError "Rate limit exceeded");
  chat_completions_create := chat_completions_create Demo.env;
  cosine_distance := cosine_distance Demo.env;
  clock_us := clock_us Demo.env;
  db_timestamp := db_timestamp Demo.env;
  httpx_get := httpx_get Demo.hf_up;
  ET_fromstring := ET_fromstring Demo.env;
  json_loads := fun _ =>
    inr (JArr [ JObj [("modelId", JStr "test-org/test-model"); ("author", JStr "test-org")];
                JObj [("modelId", JStr "test-org/other-model")] ]);
  py_repr := py_repr Demo.env;
  quote := quote Demo.env;
  str_lower := str_lower Demo.env
|}.

Definition run : Outcome SearchResponse.t :=
  Eval vm_compute in
    SearchOrchestrator.search env Settings.default DemoRun.request Demo.empty_world.

End DemoPartial.

(** The recency sub-score of a row created at [created_at], at the clock
    reading number [t]. *)
Definition recency_at (env : Collaborators) (created_at : datetime) (t : nat) : Q :=
  let age := (clock_us env t - instant created_at) / us_per_day in
  if age <? 7 then f1_0 else if age <? 30 then f0_7 else f0_5.

(** One fresh paper at similarity [0.9], the double [0x1.ccccccccccccdp-1]. *)
Module DemoRound.

Definition f0_9 : Q := 8106479329266893 # 9007199254740992.

Definition library : World := {|
  knowledge_base := [ Demo.paper 1 "A survey of RAG" (1 - f0_9) 2 ];
  knowledge_base_seq := 2;
  semantic_cache := [];
  semantic_cache_seq := 1;
  ticks := 0;
  calls := [];
  error_log := []
|}.

Definition outcome : Outcome (list KnowledgeItem.t) :=
  Eval vm_compute in
    VectorStoreService.search Demo.env Settings.default ["rag"] None (1 # 2) library.

End DemoRound.

(** Two requests on one event loop, on the warm cache.  In [twice] two
    searches for the same query take turns: both embed, both [SELECT],
    both [UPDATE].  In [cleared] a [clear] runs between the [SELECT] and
    the [UPDATE] of a search. *)
Module DemoRace.

Definition hit : Task (option CacheEntry.t) :=
  SemanticCacheService.search_task Demo.env Settings.default "What is RAG?".

Definition twice
  : Task (option CacheEntry.t) * Task (option CacheEntry.t) * World :=
  Eval vm_compute in
    interleave [true; false; true; false; true; false] hit hit Demo.warm_cache.

Definition cleared : Task (option CacheEntry.t) * Task Z * World :=
  Eval vm_compute in
    interleave [true; true; false; true] hit SemanticCacheService.clear_task
      Demo.warm_cache.

End DemoRace.

(* ================================================================== *)
(** * Properties *)
(* ================================================================== *)

(** ** Floats and sorting *)

(** *** Rounding to the nearest double *)

Section Rounding.
Local Open Scope Q_scope.

Lemma pow2_pos (e : Z) : 0 < Binary64.pow2 e.
Proof. unfold Binary64.pow2. apply Qpower_0_lt. reflexivity. Qed.

Lemma pow2_add (a b : Z) : Binary64.pow2 (a + b) == Binary64.pow2 a * Binary64.pow2 b.
Proof. unfold Binary64.pow2. apply Qpower_plus. discriminate. Qed.

Lemma pow2_le (a b : Z) : (a <= b)%Z -> Binary64.pow2 a <= Binary64.pow2 b.
Proof. intro H. unfold Binary64.pow2. apply Qpower_le_compat_l; [exact H | discriminate]. Qed.

Lemma pow2_nat (n : Z) : (0 <= n)%Z -> inject_Z (2 ^ n) == Binary64.pow2 n.
Proof. intro H. unfold Binary64.pow2. apply Zpower_Qpower. exact H. Qed.

(** The exponent is not too high. *)
Lemma exponent_le (x : Q) : 0 < x -> Binary64.pow2 (Binary64.exponent x) <= x.
Proof.
  intro Hx. unfold Binary64.exponent.
  set (a := Z.log2 (Qnum x)). set (b := Z.log2 (Zpos (Qden x))).
  destruct (Qle_bool (Binary64.pow2 (a - b)) x) eqn:E.
  - apply Qle_bool_iff. exact E.
  - assert (Hn : (0 < Qnum x)%Z).
    { unfold Qlt in Hx. simpl in Hx. lia. }
    assert (Ha : (2 ^ a <= Qnum x)%Z) by (apply Z.log2_spec; exact Hn).
    assert (Hb : (Zpos (Qden x) < 2 ^ (b + 1))%Z).
    { replace (b + 1)%Z with (Z.succ b) by lia. apply Z.log2_spec. reflexivity. }
    assert (Ha0 : (0 <= a)%Z) by apply Z.log2_nonneg.
    assert (Hb0 : (0 <= b)%Z) by apply Z.log2_nonneg.
    set (P := Binary64.pow2 (a - b - 1)).
    assert (HP : 0 < P) by apply pow2_pos.
    assert (HPB : P * inject_Z (2 ^ (b + 1)) == inject_Z (2 ^ a)).
    { rewrite (pow2_nat (b + 1)) by lia. rewrite (pow2_nat a) by lia.
      unfold P. rewrite <- pow2_add. replace (a - b - 1 + (b + 1))%Z with a by lia.
      reflexivity. }
    assert (HA : inject_Z (2 ^ a) <= inject_Z (Qnum x)) by (rewrite <- Zle_Qle; exact Ha).
    assert (HB : inject_Z (Zpos (Qden x)) < inject_Z (2 ^ (b + 1)))
      by (rewrite <- Zlt_Qlt; exact Hb).
    assert (HD : 0 < inject_Z (Zpos (Qden x))) by reflexivity.
    assert (Hx' : x == inject_Z (Qnum x) / inject_Z (Zpos (Qden x))).
    { destruct x as [n d]. simpl. apply Qmake_Qdiv. }
    rewrite Hx'. apply Qle_shift_div_l; [exact HD|].
    apply Qle_trans with (inject_Z (2 ^ a)); [|exact HA].
    rewrite <- HPB. apply Qmult_le_l; [exact HP|]. apply Qlt_le_weak. exact HB.
Qed.

Lemma exponent_lt (x : Q) (n : Z) :
  0 < x -> x < Binary64.pow2 n -> (Binary64.exponent x < n)%Z.
Proof.
  intros Hx Hn.
  destruct (Z_lt_le_dec (Binary64.exponent x) n) as [H|H]; [exact H|].
  exfalso. apply pow2_le in H.
  pose proof (exponent_le x Hx) as He.
  apply (Qlt_irrefl x). eapply Qlt_le_trans; [exact Hn|].
  eapply Qle_trans; eassumption.
Qed.

(** The exponent is not too low. *)
Lemma exponent_gt (x : Q) : 0 < x -> x < Binary64.pow2 (Binary64.exponent x + 1).
Proof.
  intro Hx. unfold Binary64.exponent.
  set (a := Z.log2 (Qnum x)). set (b := Z.log2 (Zpos (Qden x))).
  destruct (Qle_bool (Binary64.pow2 (a - b)) x) eqn:E.
  - assert (Hn : (0 < Qnum x)%Z).
    { unfold Qlt in Hx. simpl in Hx. lia. }
    assert (Ha : (Qnum x < 2 ^ (a + 1))%Z).
    { replace (a + 1)%Z with (Z.succ a) by lia. apply Z.log2_spec. exact Hn. }
    assert (Hb : (2 ^ b <= Zpos (Qden x))%Z) by (apply Z.log2_spec; reflexivity).
    assert (Ha0 : (0 <= a)%Z) by apply Z.log2_nonneg.
    assert (Hb0 : (0 <= b)%Z) by apply Z.log2_nonneg.
    set (P := Binary64.pow2 (a - b + 1)).
    assert (HP : 0 < P) by apply pow2_pos.
    assert (HPB : P * inject_Z (2 ^ b) == inject_Z (2 ^ (a + 1))).
    { rewrite (pow2_nat b) by lia. rewrite (pow2_nat (a + 1)) by lia.
      unfold P. rewrite <- pow2_add. replace (a - b + 1 + b)%Z with (a + 1)%Z by lia.
      reflexivity. }
    assert (HA : inject_Z (Qnum x) < inject_Z (2 ^ (a + 1))) by (rewrite <- Zlt_Qlt; exact Ha).
    assert (HB : inject_Z (2 ^ b) <= inject_Z (Zpos (Qden x)))
      by (rewrite <- Zle_Qle; exact Hb).
    assert (HD : 0 < inject_Z (Zpos (Qden x))) by reflexivity.
    assert (Hx' : x == inject_Z (Qnum x) / inject_Z (Zpos (Qden x))).
    { destruct x as [n d]. simpl. apply Qmake_Qdiv. }
    rewrite Hx'. apply Qlt_shift_div_r; [exact HD|].
    apply Qlt_le_trans with (inject_Z (2 ^ (a + 1))); [exact HA|].
    rewrite <- HPB. apply Qmult_le_l; [exact HP|]. exact HB.
  - replace (a - b - 1 + 1)%Z with (a - b)%Z by lia.
    apply Qnot_le_lt. intro H. apply Qle_bool_iff in H. congruence.
Qed.

Lemma rne_floor (x : Q) :
  (Qfloor x <= Binary64.rne x <= Qfloor x + 1)%Z.
Proof.
  unfold Binary64.rne.
  destruct (x - inject_Z (Qfloor x) ?= 1 # 2); [destruct (Z.even (Qfloor x))| |]; lia.
Qed.

Lemma rne_err (x : Q) :
  - (1 # 2) <= inject_Z (Binary64.rne x) - x <= 1 # 2.
Proof.
  pose proof (Qfloor_le x) as Hlo. pose proof (Qlt_floor x) as Hhi.
  rewrite inject_Z_plus in Hhi. change (inject_Z 1) with 1 in Hhi.
  unfold Binary64.rne.
  destruct (x - inject_Z (Qfloor x) ?= 1 # 2) eqn:E.
  - apply Qeq_alt in E.
    destruct (Z.even (Qfloor x));
      [|rewrite inject_Z_plus; change (inject_Z 1) with 1]; split; lra.
  - apply Qlt_alt in E. split; lra.
  - apply Qgt_alt in E. rewrite inject_Z_plus. change (inject_Z 1) with 1. split; lra.
Qed.

Lemma rne_le_int (x : Q) (k : Z) : x <= inject_Z k -> (Binary64.rne x <= k)%Z.
Proof.
  intro H.
  pose proof (Qfloor_le x) as Hlo.
  assert (Hf : (Qfloor x <= k)%Z).
  { rewrite Zle_Qle. eapply Qle_trans; eassumption. }
  unfold Binary64.rne.
  destruct (x - inject_Z (Qfloor x) ?= 1 # 2) eqn:E.
  - destruct (Z.even (Qfloor x)); [exact Hf|].
    apply Qeq_alt in E.
    assert (Hlt : inject_Z (Qfloor x) < inject_Z k) by lra.
    rewrite <- Zlt_Qlt in Hlt. lia.
  - exact Hf.
  - apply Qgt_alt in E.
    assert (Hlt : inject_Z (Qfloor x) < inject_Z k) by lra.
    rewrite <- Zlt_Qlt in Hlt. lia.
Qed.

Lemma rne_ge_int (x : Q) (k : Z) : inject_Z k <= x -> (k <= Binary64.rne x)%Z.
Proof.
  intro H. apply Qfloor_resp_le in H. rewrite Qfloor_Z in H.
  pose proof (rne_floor x). lia.
Qed.

Lemma ulp_pos (x : Q) : 0 < Binary64.ulp x.
Proof. apply pow2_pos. Qed.

(** A multiple of a power of two that is coarser than the grid of [x] bounds
    the rounding of [x] as it bounds [x]. *)
Lemma round_pos_le_grid (x : Q) (M j : Z) :
  x <= inject_Z M * Binary64.pow2 j ->
  (Z.max (Binary64.exponent x) (-1022) - 52 <= j)%Z ->
  Binary64.round_pos x <= inject_Z M * Binary64.pow2 j.
Proof.
  intros Hx Hj. unfold Binary64.round_pos.
  pose proof (ulp_pos x) as Hu.
  set (c := (Z.max (Binary64.exponent x) (-1022) - 52)%Z) in *.
  assert (Hf : inject_Z M * Binary64.pow2 j == inject_Z (M * 2 ^ (j - c)) * Binary64.ulp x).
  { unfold Binary64.ulp. fold c. rewrite inject_Z_mult, (pow2_nat (j - c)) by lia.
    rewrite <- Qmult_assoc, <- pow2_add. replace (j - c + c)%Z with j by lia. reflexivity. }
  rewrite Hf in Hx |- *.
  apply Qmult_le_compat_r; [|apply Qlt_le_weak; exact Hu].
  rewrite <- Zle_Qle. apply rne_le_int.
  apply Qle_shift_div_r; assumption.
Qed.

Lemma round_pos_ge_grid (x : Q) (M j : Z) :
  inject_Z M * Binary64.pow2 j <= x ->
  (Z.max (Binary64.exponent x) (-1022) - 52 <= j)%Z ->
  inject_Z M * Binary64.pow2 j <= Binary64.round_pos x.
Proof.
  intros Hx Hj. unfold Binary64.round_pos.
  pose proof (ulp_pos x) as Hu.
  set (c := (Z.max (Binary64.exponent x) (-1022) - 52)%Z) in *.
  assert (Hf : inject_Z M * Binary64.pow2 j == inject_Z (M * 2 ^ (j - c)) * Binary64.ulp x).
  { unfold Binary64.ulp. fold c. rewrite inject_Z_mult, (pow2_nat (j - c)) by lia.
    rewrite <- Qmult_assoc, <- pow2_add. replace (j - c + c)%Z with j by lia. reflexivity. }
  rewrite Hf in Hx |- *.
  apply Qmult_le_compat_r; [|apply Qlt_le_weak; exact Hu].
  rewrite <- Zle_Qle. apply rne_ge_int.
  apply Qle_shift_div_l; assumption.
Qed.

Lemma round_pos_err (x : Q) :
  - (Binary64.ulp x * (1 # 2)) <= Binary64.round_pos x - x <= Binary64.ulp x * (1 # 2).
Proof.
  unfold Binary64.round_pos.
  pose proof (ulp_pos x) as Hu.
  pose proof (rne_err (x / Binary64.ulp x)) as [Hlo Hhi].
  set (u := Binary64.ulp x) in *. set (k := inject_Z (Binary64.rne (x / u))) in *.
  assert (Hxu : x / u * u == x) by (field; lra).
  split.
  - assert (H : (k - x / u) * u >= - (1 # 2) * u).
    { apply Qmult_le_compat_r; [exact Hlo | lra]. }
    lra.
  - assert (H : (k - x / u) * u <= (1 # 2) * u).
    { apply Qmult_le_compat_r; [exact Hhi | lra]. }
    lra.
Qed.

Lemma round_nonneg (x : Q) : 0 <= x -> 0 <= Binary64.round x.
Proof.
  intro Hx. unfold Binary64.round.
  destruct (x ?= 0) eqn:E.
  - apply Qle_refl.
  - apply Qlt_alt in E. exfalso. lra.
  - apply Qgt_alt in E.
    pose proof (round_pos_ge_grid x 0 (Z.max (Binary64.exponent x) (-1022) - 52)) as H.
    rewrite Qmult_0_l in H. apply H; [exact Hx | lia].
Qed.

Lemma round_le_grid (x : Q) (M j : Z) :
  0 <= x ->
  x <= inject_Z M * Binary64.pow2 j ->
  x < Binary64.pow2 (j + 53) ->
  (-1074 <= j)%Z ->
  Binary64.round x <= inject_Z M * Binary64.pow2 j.
Proof.
  intros Hx Hle Hlt Hj. unfold Binary64.round.
  destruct (x ?= 0) eqn:E.
  - eapply Qle_trans; eassumption.
  - apply Qlt_alt in E. exfalso. lra.
  - apply Qgt_alt in E. apply round_pos_le_grid; [exact Hle|].
    pose proof (exponent_lt x (j + 53) E Hlt). lia.
Qed.

(** Rounding moves a number of the unit interval by at most [2^-53]. *)
Lemma round_unit_err (x : Q) :
  0 <= x <= 1 ->
  - (1 # 9007199254740992) <= Binary64.round x - x <= 1 # 9007199254740992.
Proof.
  intros [H0 H1]. unfold Binary64.round.
  destruct (x ?= 0) eqn:E.
  - apply Qeq_alt in E. split; lra.
  - apply Qlt_alt in E. exfalso. lra.
  - apply Qgt_alt in E.
    pose proof (round_pos_err x) as [Hlo Hhi].
    assert (Hu : Binary64.ulp x <= 1 # 4503599627370496).
    { assert (He : (Binary64.exponent x < 1)%Z).
      { apply exponent_lt; [exact E|]. change (Binary64.pow2 1) with 2. lra. }
      unfold Binary64.ulp.
      apply Qle_trans with (Binary64.pow2 (-52)); [apply pow2_le; lia|].
      vm_compute. discriminate. }
    split; lra.
Qed.

(** The scoring expression on doubles of the unit interval stays in the unit
    interval, within [2^-51] of the exact [0.7 s + 0.3 r]. *)
Lemma score_bounds (s r : Q) :
  0 <= s <= 1 -> 0 <= r <= 1 ->
  0 <= Binary64.add (Binary64.mul s f0_7) (Binary64.mul r f0_3) <= 1 /\
  Qabs (Binary64.add (Binary64.mul s f0_7) (Binary64.mul r f0_3)
        - ((7 # 10) * s + (3 # 10) * r)) <= 1 # 2251799813685248.
Proof.
  intros [Hs0 Hs1] [Hr0 Hr1]. unfold Binary64.add, Binary64.mul.
  assert (Hx1 : 0 <= s * f0_7 <= f0_7) by (unfold f0_7; split; nra).
  assert (Hx2 : 0 <= r * f0_3 <= f0_3) by (unfold f0_3; split; nra).
  set (x1 := s * f0_7) in *. set (x2 := r * f0_3) in *.
  assert (Hp1 : 0 <= Binary64.round x1 <= f0_7).
  { split; [apply round_nonneg; tauto|].
    assert (Hg : f0_7 == inject_Z 6305039478318694 * Binary64.pow2 (-53))
      by (vm_compute; reflexivity).
    rewrite Hg. apply round_le_grid; [tauto | rewrite <- Hg; tauto | | lia].
    change (Binary64.pow2 (-53 + 53)) with 1. unfold f0_7 in Hx1. lra. }
  assert (Hp2 : 0 <= Binary64.round x2 <= f0_3).
  { split; [apply round_nonneg; tauto|].
    assert (Hg : f0_3 == inject_Z 5404319552844595 * Binary64.pow2 (-54))
      by (vm_compute; reflexivity).
    rewrite Hg. apply round_le_grid; [tauto | rewrite <- Hg; tauto | | lia].
    change (Binary64.pow2 (-54 + 53)) with (1 # 2). unfold f0_3 in Hx2. lra. }
  assert (He1 := round_unit_err x1). assert (He2 := round_unit_err x2).
  set (p1 := Binary64.round x1) in *. set (p2 := Binary64.round x2) in *.
  assert (Hsum : 0 <= p1 + p2 <= 1) by (unfold f0_7, f0_3 in *; split; lra).
  assert (He3 := round_unit_err (p1 + p2) Hsum).
  assert (Hf : 0 <= Binary64.round (p1 + p2) <= 1).
  { split; [apply round_nonneg; tauto|].
    assert (Hg : 1 == inject_Z 1 * Binary64.pow2 0) by reflexivity.
    rewrite Hg. apply round_le_grid; [tauto | rewrite <- Hg; tauto | | lia].
    apply Qle_lt_trans with 1; [tauto|]. vm_compute. reflexivity. }
  split; [exact Hf|].
  apply Qabs_Qle_condition.
  assert (He1' : - (1 # 9007199254740992) <= p1 - x1 <= 1 # 9007199254740992).
  { apply He1. unfold f0_7 in *. split; lra. }
  assert (He2' : - (1 # 9007199254740992) <= p2 - x2 <= 1 # 9007199254740992).
  { apply He2. unfold f0_3 in *. split; lra. }
  unfold x1, x2, f0_7, f0_3 in *. split; nra.
Qed.

Lemma is_tier_unit (r : Q) : is_tier r -> 0 <= r <= 1.
Proof.
  intros [-> | [-> | ->]]; unfold f1_0, f0_7, f0_5; split; lra.
Qed.

End Rounding.


Lemma Qlt_bool_true (x y : Q) : Qlt_bool x y = true <-> (x < y)%Q.
Proof.
  unfold Qlt_bool. rewrite negb_true_iff.
  split; intro H.
  - apply Qnot_le_lt. intro Hle. apply Qle_bool_iff in Hle. congruence.
  - destruct (Qle_bool y x) eqn:E; [|reflexivity].
    apply Qle_bool_iff in E. exfalso. exact (Qlt_not_le _ _ H E).
Qed.

Lemma Qlt_bool_false (x y : Q) : Qlt_bool x y = false <-> (y <= x)%Q.
Proof.
  unfold Qlt_bool. rewrite negb_false_iff. apply Qle_bool_iff.
Qed.

Section SortDescFacts.
Context {A : Type} (key : A -> Q).

(** [y] may stand before [x] in descending key order. *)
Definition desc (y x : A) : Prop := (key x <= key y)%Q.

Lemma insert_desc_perm (x : A) (l : list A) :
  Permutation (insert_desc key x l) (x :: l).
Proof.
  induction l as [|y ys IH]; simpl.
  - apply Permutation_refl.
  - destruct (Qlt_bool (key x) (key y)).
    + apply perm_trans with (y :: x :: ys).
      * apply perm_skip. exact IH.
      * apply perm_swap.
    + apply Permutation_refl.
Qed.

Lemma sort_desc_perm (l : list A) : Permutation (sort_desc key l) l.
Proof.
  induction l as [|x xs IH]; simpl.
  - apply perm_nil.
  - apply perm_trans with (x :: sort_desc key xs).
    + apply insert_desc_perm.
    + apply perm_skip. exact IH.
Qed.

Lemma insert_desc_sorted (x : A) (l : list A) :
  StronglySorted desc l -> StronglySorted desc (insert_desc key x l).
Proof.
  induction l as [|y ys IH]; simpl; intro Hs.
  - constructor; [constructor | constructor].
  - inversion Hs as [|? ? Hys Hall]; subst.
    destruct (Qlt_bool (key x) (key y)) eqn:E.
    + constructor.
      * apply IH. exact Hys.
      * apply Permutation_Forall with (x :: ys).
        -- apply Permutation_sym. apply insert_desc_perm.
        -- constructor; [|exact Hall].
           apply Qlt_bool_true in E. unfold desc. apply Qlt_le_weak. exact E.
    + apply Qlt_bool_false in E.
      constructor; [exact Hs|].
      constructor; [exact E|].
      eapply Forall_impl; [|exact Hall].
      intros z Hz. unfold desc in *. eapply Qle_trans; eassumption.
Qed.

Lemma sort_desc_sorted (l : list A) : StronglySorted desc (sort_desc key l).
Proof.
  induction l as [|x xs IH]; simpl.
  - constructor.
  - apply insert_desc_sorted. exact IH.
Qed.

Lemma firstn_sorted (n : nat) (l : list A) :
  StronglySorted desc l -> StronglySorted desc (firstn n l).
Proof.
  revert l. induction n as [|n IH]; intros [|x xs] Hs; simpl; try constructor.
  - apply IH. inversion Hs; assumption.
  - inversion Hs as [|? ? _ Hall]; subst.
    rewrite <- (firstn_skipn n xs) in Hall.
    apply Forall_app in Hall. tauto.
Qed.

Lemma sorted_split (n : nat) (l : list A) :
  StronglySorted desc l ->
  forall x y, In x (firstn n l) -> In y (skipn n l) -> desc x y.
Proof.
  revert l. induction n as [|n IH]; intros l Hs x y Hx Hy; simpl in *.
  - contradiction.
  - destruct l as [|z zs]; simpl in *; [contradiction|].
    inversion Hs as [|? ? Hzs Hall]; subst.
    destruct Hx as [-> | Hx].
    + rewrite Forall_forall in Hall. apply Hall.
      rewrite <- (firstn_skipn n zs). apply in_or_app. right. exact Hy.
    + eapply IH; eassumption.
Qed.

End SortDescFacts.

(** ** The monad *)

Lemma bind_returns {A B : Type} (c : M A) (k : A -> M B) (w : World) (b : B) (w2 : World) :
  bind c k w = Return b w2 ->
  exists a w1, c w = Return a w1 /\ k a w1 = Return b w2.
Proof.
  unfold bind. destruct (c w) as [a w1|e w1]; intro H.
  - exists a, w1. split; [reflexivity | exact H].
  - discriminate H.
Qed.

Lemma advance_0 (w : World) : advance 0 w = w.
Proof. destruct w; reflexivity. Qed.

Lemma advance_advance (n m : nat) (w : World) :
  advance n (advance m w) = advance (n + m) w.
Proof. unfold advance; simpl. f_equal. lia. Qed.

Lemma called_nil (w : World) : called [] w = w.
Proof. destruct w; unfold called; simpl. rewrite app_nil_r. reflexivity. Qed.

Lemma called_called (cs ds : list Call) (w : World) :
  called ds (called cs w) = called (cs ++ ds) w.
Proof. unfold called; simpl. rewrite app_assoc. reflexivity. Qed.

Lemma advance_called (n : nat) (cs : list Call) (w : World) :
  advance n (called cs w) = called cs (advance n w).
Proof. reflexivity. Qed.

Lemma issue_run (c : Call) (w : World) :
  issue c w = Return (List.length (calls w)) (called [c] w).
Proof. reflexivity. Qed.

Lemma read_clock_run (env : Collaborators) (w : World) :
  read_clock env w = Return (clock_us env (ticks w)) (advance 1 w).
Proof. reflexivity. Qed.

(** ** Recency *)

Lemma timedelta_days_whole (now_us : Z) (created_at : datetime) (a : Z) :
  whole_days_old now_us created_at a ->
  timedelta_days {| wall_us := now_us; tzinfo := utc |}
    (match tzinfo created_at with
     | None => replace_tzinfo created_at utc
     | Some _ => created_at
     end) = a.
Proof.
  unfold whole_days_old, timedelta_days. intros [Hlo Hhi].
  assert (Hi : instant (match tzinfo created_at with
                        | None => replace_tzinfo created_at utc
                        | Some _ => created_at
                        end) = instant created_at).
  { destruct created_at as [wl [off|]]; reflexivity. }
  rewrite Hi.
  replace (instant {| wall_us := now_us; tzinfo := utc |}) with now_us
    by (unfold instant; simpl; lia).
  symmetry. apply Z.div_unique_pos with (r := now_us - instant created_at - a * us_per_day).
  - unfold us_per_day in *. lia.
  - lia.
Qed.

Lemma calculate_recency_score_run (env : Collaborators) (created_at : datetime) (w : World) :
  exists r, calculate_recency_score env created_at w = Return r (advance 1 w) /\ is_tier r.
Proof.
  unfold calculate_recency_score, datetime_now_utc, bind, ret.
  rewrite read_clock_run.
  match goal with |- context [timedelta_days ?a ?b] => generalize (timedelta_days a b) end.
  intro age. unfold is_tier.
  destruct (age <? 7); [eauto|]. destruct (age <? 30); eauto.
Qed.

(** C2.  The recency sub-score of an item that is [a] whole days old when
    it is scored is 1.0 for [a < 7], 0.7 for [7 <= a < 30] and 0.5 for
    [30 <= a]; so an age of exactly 7 days scores 0.7 and one of exactly 30
    days scores 0.5.  Scoring reads the clock once and changes nothing
    else. *)
Theorem recency_score_by_age (env : Collaborators) (created_at : datetime) (w : World) (a : Z) :
  whole_days_old (clock_us env (ticks w)) created_at a ->
  (a < 7 -> calculate_recency_score env created_at w = Return f1_0 (advance 1 w)) /\
  (7 <= a < 30 -> calculate_recency_score env created_at w = Return f0_7 (advance 1 w)) /\
  (30 <= a -> calculate_recency_score env created_at w = Return f0_5 (advance 1 w)) /\
  (a = 7 ->
   calculate_recency_score env created_at w
   = Return (Binary64.round (7 # 10)) (advance 1 w)) /\
  (a = 30 -> calculate_recency_score env created_at w = Return (1 # 2)%Q (advance 1 w)).
Proof.
  intro Hage.
  assert (Hrun : calculate_recency_score env created_at w =
                 if a <? 7 then Return f1_0 (advance 1 w)
                 else if a <? 30 then Return f0_7 (advance 1 w)
                 else Return f0_5 (advance 1 w)).
  { unfold calculate_recency_score, datetime_now_utc, bind, ret.
    rewrite read_clock_run.
    rewrite (timedelta_days_whole _ _ _ Hage).
    destruct (a <? 7); [reflexivity|]. destruct (a <? 30); reflexivity. }
  rewrite Hrun.
  repeat split; intros.
  - destruct (Z.ltb_spec a 7); [reflexivity | lia].
  - destruct (Z.ltb_spec a 7); [lia|]. destruct (Z.ltb_spec a 30); [reflexivity | lia].
  - destruct (Z.ltb_spec a 7); [lia|]. destruct (Z.ltb_spec a 30); [lia | reflexivity].
  - subst a. reflexivity.
  - subst a. reflexivity.
Qed.

(** ** Tier 2: the vector store *)

Lemma rerank_run (env : Collaborators) (rows : list (KnowledgeRow.t * Q)) (m : Q) :
  forall (acc : list KnowledgeItem.t) (w : World),
  exists new,
    VectorStoreService.rerank env rows m acc w
      = Return (acc ++ new) (advance (List.length new) w) /\
    Forall2 scored_from (filter (kept m) rows) new.
Proof.
  induction rows as [|row rest IH]; intros acc w; simpl.
  - exists []. rewrite app_nil_r, advance_0. split; [reflexivity | constructor].
  - unfold kept at 1. destruct (Qlt_bool (snd row) m) eqn:E; simpl.
    + apply IH.
    + destruct (calculate_recency_score_run env (KnowledgeRow.created_at (fst row)) w)
        as [r [Hr Ht]].
      unfold bind at 1. rewrite Hr.
      destruct (IH (acc ++ [item_of row r]) (advance 1 w)) as [new [Hrun Hall]].
      exists (item_of row r :: new). split.
      * unfold item_of in Hrun |- *. rewrite Hrun.
        rewrite <- app_assoc. simpl. rewrite advance_advance.
        rewrite Nat.add_1_r. reflexivity.
      * constructor; [|exact Hall]. exists r. split; [exact Ht | reflexivity].
Qed.

Lemma get_embedding_run (env : Collaborators) (text : string) (w : World) :
  get_embedding env text w =
  match embeddings_create env (List.length (calls w)) text with
  | inl e => Raise e (called [EmbeddingsCreate text] w)
  | inr emb => Return emb (called [EmbeddingsCreate text] w)
  end.
Proof.
  unfold get_embedding, bind. rewrite issue_run.
  destruct (embeddings_create env (List.length (calls w)) text); reflexivity.
Qed.

Lemma fetch_nearest_run (env : Collaborators) (q : list Q) (k : Z) (w : World) :
  VectorStoreService.fetch_nearest env q k w =
  if k <? 0
  then Raise (PostgresError "LIMIT must not be negative") (called [KnowledgeSelect q k] w)
  else Return (VectorStoreService.nearest_rows env q k (knowledge_base w))
         (called [KnowledgeSelect q k] w).
Proof.
  unfold VectorStoreService.fetch_nearest, bind. rewrite issue_run.
  destruct (k <? 0); reflexivity.
Qed.

Lemma search_unfold (env : Collaborators) (settings : Settings.t) (keywords : list string)
    (limit : option Z) (m : Q) (w : World) :
  keywords <> [] ->
  let L := Py.or_int limit (Settings.vector_search_limit settings) in
  let text := Py.join " " keywords in
  VectorStoreService.search env settings keywords limit m w =
  match embeddings_create env (List.length (calls w)) text with
  | inl e => Raise e (called [EmbeddingsCreate text] w)
  | inr emb =>
      let w2 := called [EmbeddingsCreate text; KnowledgeSelect emb (L * 2)] w in
      if L * 2 <? 0 then Raise (PostgresError "LIMIT must not be negative") w2
      else
        bind (VectorStoreService.rerank env
                (VectorStoreService.nearest_rows env emb (L * 2) (knowledge_base w)) m [])
          (fun items => ret (Py.slice_to (sort_desc KnowledgeItem.final_score items) L)) w2
  end.
Proof.
  intros Hk L text.
  destruct keywords as [|k ks]; [congruence|].
  unfold VectorStoreService.search.
  change (negb (Py.truthy (k :: ks))) with false. cbv iota.
  fold L. fold text.
  unfold bind at 1. rewrite get_embedding_run.
  destruct (embeddings_create env (List.length (calls w)) text) as [e|emb].
  - reflexivity.
  - cbv beta iota zeta. unfold embedding_to_pgvector.
    unfold bind at 1. rewrite fetch_nearest_run. rewrite called_called. simpl app.
    simpl knowledge_base.
    destruct (L * 2 <? 0); reflexivity.
Qed.

(** What a [search] with keywords does, in full: it embeds the joined
    keywords, asks the table for the nearest rows, re-ranks them and returns
    the head of the ranking; a failing embedding call or a refused query
    ends it. *)
Lemma search_run (env : Collaborators) (settings : Settings.t) (keywords : list string)
    (limit : option Z) (m : Q) (w : World) :
  keywords <> [] ->
  let L := Py.or_int limit (Settings.vector_search_limit settings) in
  let text := Py.join " " keywords in
  match embeddings_create env (List.length (calls w)) text with
  | inl e =>
      VectorStoreService.search env settings keywords limit m w
        = Raise e (called [EmbeddingsCreate text] w)
  | inr emb =>
      let w2 := called [EmbeddingsCreate text; KnowledgeSelect emb (L * 2)] w in
      if L * 2 <? 0 then
        VectorStoreService.search env settings keywords limit m w
          = Raise (PostgresError "LIMIT must not be negative") w2
      else
        exists scored,
          Forall2 scored_from
            (filter (kept m) (VectorStoreService.nearest_rows env emb (L * 2) (knowledge_base w)))
            scored /\
          VectorStoreService.search env settings keywords limit m w
            = Return (Py.slice_to (sort_desc KnowledgeItem.final_score scored) L)
                (advance (List.length scored) w2)
  end.
Proof.
  intros Hk L text.
  rewrite (search_unfold env settings keywords limit m w Hk). fold L. fold text.
  destruct (embeddings_create env (List.length (calls w)) text) as [e|emb].
  - reflexivity.
  - cbv zeta. destruct (L * 2 <? 0) eqn:E.
    + reflexivity.
    + destruct (rerank_run env
                  (VectorStoreService.nearest_rows env emb (L * 2) (knowledge_base w)) m []
                  (called [EmbeddingsCreate text; KnowledgeSelect emb (L * 2)] w))
        as [scored [Hrun Hall]].
      exists scored. split; [exact Hall|].
      unfold bind. rewrite Hrun. reflexivity.
Qed.

Lemma slice_to_nonneg {A : Type} (l : list A) (n : Z) :
  0 <= n -> Py.slice_to l n = firstn (Z.to_nat n) l.
Proof.
  intro H. unfold Py.slice_to.
  destruct (Z.leb_spec 0 n); [reflexivity | lia].
Qed.

Lemma In_firstn {A : Type} (n : nat) (l : list A) (x : A) :
  In x (firstn n l) -> In x l.
Proof.
  intro H. rewrite <- (firstn_skipn n l). apply in_or_app. left. exact H.
Qed.

Lemma Forall2_In_r {A B : Type} (R : A -> B -> Prop) (l : list A) (l' : list B) (y : B) :
  Forall2 R l l' -> In y l' -> exists x, In x l /\ R x y.
Proof.
  induction 1 as [|a b l l' Hab _ IH]; simpl; intro Hin.
  - contradiction.
  - destruct Hin as [<- | Hin].
    + exists a. auto.
    + destruct (IH Hin) as [x [Hx HR]]. exists x. auto.
Qed.

(** A [search] with keywords that returns has embedded the keywords, got
    its candidates from the table, and returns the first [L] of the
    survivors in ranking order, [L] being the limit in force. *)
Lemma search_returns (env : Collaborators) (settings : Settings.t) (keywords : list string)
    (limit : option Z) (m : Q) (w : World) (items : list KnowledgeItem.t) (w' : World) :
  keywords <> [] ->
  VectorStoreService.search env settings keywords limit m w = Return items w' ->
  let L := Py.or_int limit (Settings.vector_search_limit settings) in
  let text := Py.join " " keywords in
  exists emb scored,
    embeddings_create env (List.length (calls w)) text = inr emb /\
    0 <= L /\
    Forall2 scored_from
      (filter (kept m) (VectorStoreService.nearest_rows env emb (L * 2) (knowledge_base w)))
      scored /\
    items = firstn (Z.to_nat L) (sort_desc KnowledgeItem.final_score scored) /\
    w' = advance (List.length scored)
           (called [EmbeddingsCreate text; KnowledgeSelect emb (L * 2)] w).
Proof.
  intros Hk Hrun L text.
  pose proof (search_run env settings keywords limit m w Hk) as H.
  cbv zeta in H. fold L in H. fold text in H.
  destruct (embeddings_create env (List.length (calls w)) text) as [e|emb].
  - rewrite H in Hrun. discriminate Hrun.
  - destruct (Z.ltb_spec (L * 2) 0) as [Hneg|Hpos].
    + rewrite H in Hrun. discriminate Hrun.
    + destruct H as [scored [Hall Heq]].
      rewrite Heq in Hrun. inversion Hrun; subst items w'.
      exists emb, scored.
      assert (0 <= L) by lia.
      rewrite slice_to_nonneg by assumption.
      repeat split; auto.
Qed.

(** Every item a [search] returns was scored from a candidate that meets
    the threshold. *)
Lemma search_items_scored (env : Collaborators) (settings : Settings.t) (keywords : list string)
    (limit : option Z) (m : Q) (w : World) (items : list KnowledgeItem.t) (w' : World) :
  VectorStoreService.search env settings keywords limit m w = Return items w' ->
  forall it, In it items ->
  exists row, scored_from row it /\ (m <= snd row)%Q.
Proof.
  intros Hrun it Hin.
  destruct keywords as [|k ks].
  - inversion Hrun; subst. contradiction.
  - assert (Hk : k :: ks <> []) by congruence.
    destruct (search_returns _ _ _ _ _ _ _ _ Hk Hrun) as (emb & scored & _ & _ & Hall & Hit & _).
    subst items. apply In_firstn in Hin.
    apply (Permutation_in _ (sort_desc_perm _ scored)) in Hin.
    destruct (Forall2_In_r _ _ _ _ Hall Hin) as [row [Hrow Hsc]].
    exists row. split; [exact Hsc|].
    apply filter_In in Hrow. destruct Hrow as [_ Hkept].
    unfold kept in Hkept. apply negb_true_iff in Hkept.
    apply Qlt_bool_false. exact Hkept.
Qed.

(** The recency sub-score is read off the clock. *)
Lemma calculate_recency_score_at (env : Collaborators) (created_at : datetime) (w : World) :
  calculate_recency_score env created_at w
  = Return (recency_at env created_at (ticks w)) (advance 1 w).
Proof.
  unfold calculate_recency_score, datetime_now_utc, bind, ret, recency_at.
  rewrite read_clock_run.
  assert (Hage : timedelta_days {| wall_us := clock_us env (ticks w); tzinfo := utc |}
                   (match tzinfo created_at with
                    | None => replace_tzinfo created_at utc
                    | Some _ => created_at
                    end) = (clock_us env (ticks w) - instant created_at) / us_per_day).
  { unfold timedelta_days. f_equal.
    destruct created_at as [wl [off|]]; unfold instant; simpl; lia. }
  rewrite Hage. cbv zeta.
  destruct (_ <? 7); [reflexivity|]. destruct (_ <? 30); reflexivity.
Qed.

Lemma recency_at_tier (env : Collaborators) (created_at : datetime) (t : nat) :
  is_tier (recency_at env created_at t).
Proof.
  unfold recency_at, is_tier. cbv zeta.
  destruct (_ <? 7); [tauto|]. destruct (_ <? 30); tauto.
Qed.

(** The loop of [search], with the clock reading of every item it builds. *)
Lemma rerank_run_at (env : Collaborators) (rows : list (KnowledgeRow.t * Q)) (m : Q) :
  forall (acc : list KnowledgeItem.t) (w : World),
  exists new,
    VectorStoreService.rerank env rows m acc w
      = Return (acc ++ new) (advance (List.length new) w) /\
    Forall2 (fun row it =>
               exists t, (ticks w <= t)%nat /\
                 it = item_of row (recency_at env (KnowledgeRow.created_at (fst row)) t))
      (filter (kept m) rows) new.
Proof.
  induction rows as [|row rest IH]; intros acc w; simpl.
  - exists []. rewrite app_nil_r, advance_0. split; [reflexivity | constructor].
  - unfold kept at 1. destruct (Qlt_bool (snd row) m) eqn:E; simpl.
    + apply IH.
    + unfold bind at 1. rewrite calculate_recency_score_at.
      set (r := recency_at env (KnowledgeRow.created_at (fst row)) (ticks w)).
      destruct (IH (acc ++ [item_of row r]) (advance 1 w)) as [new [Hrun Hall]].
      exists (item_of row r :: new). split.
      * unfold item_of in Hrun |- *. rewrite Hrun.
        rewrite <- app_assoc. simpl. rewrite advance_advance.
        rewrite Nat.add_1_r. reflexivity.
      * constructor.
        -- exists (ticks w). split; [lia | reflexivity].
        -- eapply Forall2_impl; [|exact Hall].
           intros a b (t & Ht & Hb). exists t. split; [simpl in Ht; lia | exact Hb].
Qed.

Lemma In_slice_to {A : Type} (l : list A) (n : Z) (x : A) :
  In x (Py.slice_to l n) -> In x l.
Proof.
  unfold Py.slice_to. destruct (0 <=? n); apply In_firstn.
Qed.

(** Every item a [search] returns was built from a row of the table: its
    similarity is the row's to the embedded keywords, its recency that of
    the row's creation time at a clock reading of the call. *)
Lemma search_items_from_rows (env : Collaborators) (settings : Settings.t)
    (keywords : list string) (limit : option Z) (m : Q) (w : World)
    (items : list KnowledgeItem.t) (w' : World) :
  VectorStoreService.search env settings keywords limit m w = Return items w' ->
  forall it, In it items ->
  exists emb row t,
    embeddings_create env (List.length (calls w)) (Py.join " " keywords) = inr emb /\
    In row (knowledge_base w) /\
    (ticks w <= t)%nat /\
    it = item_of (row, VectorStoreService.row_similarity env emb row)
           (recency_at env (KnowledgeRow.created_at row) t).
Proof.
  intros Hrun it Hin.
  destruct keywords as [|k ks]; [inversion Hrun; subst; contradiction|].
  assert (Hk : k :: ks <> []) by congruence.
  rewrite (search_unfold env settings (k :: ks) limit m w Hk) in Hrun. cbv zeta in Hrun.
  destruct (embeddings_create env (List.length (calls w)) (Py.join " " (k :: ks)))
    as [e|emb]; [discriminate Hrun|].
  destruct (_ <? 0); [discriminate Hrun|].
  match type of Hrun with
  | bind (VectorStoreService.rerank env ?rows m []) _ ?w2 = _ =>
      destruct (rerank_run_at env rows m [] w2) as (new & Hr & Hall);
      unfold bind in Hrun; rewrite Hr in Hrun
  end.
  unfold ret in Hrun. injection Hrun as <- _.
  apply In_slice_to in Hin.
  eapply Permutation_in in Hin; [|apply sort_desc_perm].
  simpl in Hin.
  destruct (Forall2_In_r _ _ _ _ Hall Hin) as (row & Hrow & t & Ht & ->).
  apply filter_In in Hrow. destruct Hrow as (Hrow & _).
  unfold VectorStoreService.nearest_rows in Hrow. apply In_firstn in Hrow.
  eapply Permutation_in in Hrow; [|apply sort_desc_perm].
  apply in_map_iff in Hrow. destruct Hrow as (r & <- & Hr0).
  exists emb, r, t. split; [reflexivity|]. split; [exact Hr0|].
  split; [exact Ht | reflexivity].
Qed.

(** C1.  Every item a knowledge-tier [search] returns was scored from a
    row of the table: [s] is the row's similarity to the embedded keywords
    and [r] the recency sub-score of the row's creation time at a clock
    reading of the call.  Its final score is the binary64 value of
    [s * 0.7 + r * 0.3]: both products and the sum rounded to the nearest
    double.  The weights are not negative and their sum is the double 1.0;
    [r] lies in [0,1]; when [s] does too, the final score lies in [0,1] and
    within [2^-51] of the exact 0.7 s + 0.3 r. *)
Theorem search_final_score_convex (env : Collaborators) (settings : Settings.t)
    (keywords : list string) (limit : option Z) (m : Q) (w : World)
    (items : list KnowledgeItem.t) (w' : World) :
  VectorStoreService.search env settings keywords limit m w = Return items w' ->
  forall it, In it items ->
  exists emb row t,
    embeddings_create env (List.length (calls w)) (Py.join " " keywords) = inr emb /\
    In row (knowledge_base w) /\
    (ticks w <= t)%nat /\
    let s := VectorStoreService.row_similarity env emb row in
    let r := recency_at env (KnowledgeRow.created_at row) t in
    KnowledgeItem.id it = KnowledgeRow.id row /\
    KnowledgeItem.similarity it = s /\
    KnowledgeItem.recency_score it = r /\
    KnowledgeItem.final_score it
      = Binary64.round (Binary64.round (s * f0_7) + Binary64.round (r * f0_3)) /\
    (Binary64.round (f0_7 + f0_3) == 1 /\ 0 <= f0_7 /\ 0 <= f0_3)%Q /\
    (0 <= r <= 1)%Q /\
    ((0 <= s <= 1)%Q ->
     (0 <= KnowledgeItem.final_score it <= 1)%Q /\
     (Qabs (KnowledgeItem.final_score it - ((7 # 10) * s + (3 # 10) * r))
      <= 1 # 2251799813685248)%Q).
Proof.
  intros Hrun it Hin.
  destruct (search_items_from_rows _ _ _ _ _ _ _ _ Hrun it Hin)
    as (emb & row & t & Hemb & Hrow & Ht & ->).
  exists emb, row, t.
  split; [exact Hemb|]. split; [exact Hrow|]. split; [exact Ht|].
  cbv zeta.
  split; [reflexivity|]. split; [reflexivity|]. split; [reflexivity|].
  split; [reflexivity|].
  split; [split; [vm_compute; reflexivity | split; discriminate]|].
  pose proof (is_tier_unit _ (recency_at_tier env (KnowledgeRow.created_at row) t)) as Hr.
  split; [exact Hr|].
  intro Hs. exact (score_bounds _ _ Hs Hr).
Qed.

Lemma search_final_score_convex_witness :
  (KnowledgeItem.final_score DemoRun.top
   = Binary64.round (Binary64.round (KnowledgeItem.similarity DemoRun.top * f0_7)
                     + Binary64.round (KnowledgeItem.recency_score DemoRun.top * f0_3))) /\
  (0 <= KnowledgeItem.final_score DemoRun.top <= 1)%Q.
Proof.
  assert (Hrun : VectorStoreService.search Demo.env Settings.default DemoRun.keywords None
                   (1 # 2) Demo.library = DemoRun.outcome) by (vm_compute; reflexivity).
  assert (Hin : In DemoRun.top DemoRun.ranked) by (left; vm_compute; reflexivity).
  destruct (search_final_score_convex Demo.env Settings.default DemoRun.keywords None (1 # 2)
              Demo.library DemoRun.ranked _ Hrun DemoRun.top Hin)
    as (emb & row & t & _ & _ & _ & _ & Hs & Hr & Hf & _ & _ & Hunit).
  split; [rewrite Hf, Hs, Hr; reflexivity|].
  apply Hunit. rewrite <- Hs. vm_compute. split; discriminate.
Defined.

(** The score is not the exact 0.7 s + 0.3 r.  For the fresh paper at
    similarity 0.9, [s = 0.9] and [r = 1.0] lie in [0,1] and [search]
    returns the final score [0x1.dc28f5c28f5c2p-1], which is what the
    processor computes for [0.9 * 0.7 + 1.0 * 0.3] and is neither
    (7/10) s + (3/10) r nor that sum with the doubles 0.7 and 0.3 as
    weights. *)
Lemma search_final_score_not_exact :
  exists it w',
    VectorStoreService.search Demo.env Settings.default ["rag"] None (1 # 2)
      DemoRound.library = Return [it] w' /\
    let s := KnowledgeItem.similarity it in
    let r := KnowledgeItem.recency_score it in
    (s == Binary64.to_Q Binary64.d0_9)%Q /\ r = 1%Q /\
    (0 <= s <= 1)%Q /\ (0 <= r <= 1)%Q /\
    (KnowledgeItem.final_score it
     == Binary64.to_Q (Binary64.final_score Binary64.d0_9 1))%Q /\
    ~ (KnowledgeItem.final_score it == (7 # 10) * s + (3 # 10) * r)%Q /\
    ~ (KnowledgeItem.final_score it == f0_7 * s + f0_3 * r)%Q.
Proof.
  destruct DemoRound.outcome as [items w'|e w'] eqn:Hout; [|discriminate Hout].
  destruct items as [|it [|it2 rest]]; [discriminate Hout | | discriminate Hout].
  exists it, w'. split.
  { rewrite <- Hout. vm_compute. reflexivity. }
  injection Hout as <- _. cbv zeta.
  split; [vm_compute; reflexivity|]. split; [reflexivity|].
  split; [vm_compute; split; discriminate|]. split; [vm_compute; split; discriminate|].
  split; [vm_compute; reflexivity|].
  split; vm_compute; discriminate.
Qed.

Lemma recency_score_by_age_witness :
  calculate_recency_score Demo.env
    {| wall_us := 93 * us_per_day; tzinfo := None |} Demo.empty_world
    = Return (Binary64.round (7 # 10)) (advance 1 Demo.empty_world) /\
  calculate_recency_score Demo.env
    {| wall_us := 70 * us_per_day; tzinfo := utc |} Demo.empty_world
    = Return (1 # 2)%Q (advance 1 Demo.empty_world).
Proof.
  split.
  - apply (recency_score_by_age Demo.env {| wall_us := 93 * us_per_day; tzinfo := None |}
             Demo.empty_world 7).
    + unfold whole_days_old. vm_compute. split; [discriminate | reflexivity].
    + reflexivity.
  - apply (recency_score_by_age Demo.env {| wall_us := 70 * us_per_day; tzinfo := utc |}
             Demo.empty_world 30).
    + unfold whole_days_old. vm_compute. split; [discriminate | reflexivity].
    + reflexivity.
Defined.

(** C3 (amended).  A knowledge-tier [search] with keywords never returns a
    candidate whose raw similarity is below [min_similarity], whatever its
    recency: the returned list is the head of the surviving candidates,
    each scored, in descending order of final score, cut to at most [L]
    elements, where [L] is the limit in force: the [limit] argument, or
    the configured [vector_search_limit] when [limit] is omitted or 0. *)
Theorem search_threshold_rank_truncate (env : Collaborators) (settings : Settings.t)
    (keywords : list string) (limit : option Z) (m : Q) (w : World)
    (items : list KnowledgeItem.t) (w' : World) :
  keywords <> [] ->
  VectorStoreService.search env settings keywords limit m w = Return items w' ->
  let L := Py.or_int limit (Settings.vector_search_limit settings) in
  exists emb survivors rest,
    let candidates := VectorStoreService.nearest_rows env emb (L * 2) (knowledge_base w) in
    Forall2 scored_from (filter (fun c => Qle_bool m (snd c)) candidates) survivors /\
    (forall it, In it items -> (m <= KnowledgeItem.similarity it)%Q) /\
    (forall c recency, In c candidates -> (snd c < m)%Q -> ~ In (item_of c recency) items) /\
    Permutation (items ++ rest) survivors /\
    StronglySorted (desc KnowledgeItem.final_score) items /\
    (forall x y, In x items -> In y rest ->
       (KnowledgeItem.final_score y <= KnowledgeItem.final_score x)%Q) /\
    List.length items = Nat.min (Z.to_nat L) (List.length survivors) /\
    Z.of_nat (List.length items) <= L /\
    (forall n, limit = Some n -> n <> 0 -> Z.of_nat (List.length items) <= n).
Proof.
  intros Hk Hrun L.
  destruct (search_returns _ _ _ _ _ _ _ _ Hk Hrun) as (emb & scored & _ & HL & Hall & Hit & _).
  fold L in HL, Hall, Hit.
  set (sorted := sort_desc KnowledgeItem.final_score scored) in *.
  exists emb, scored, (skipn (Z.to_nat L) sorted). cbv zeta.
  assert (Hsim : forall it, In it items -> (m <= KnowledgeItem.similarity it)%Q).
  { intros it Hin.
    destruct (search_items_scored _ _ _ _ _ _ _ _ Hrun it Hin) as (row & (rec & _ & ->) & Hm).
    exact Hm. }
  assert (Hlen : List.length items = Nat.min (Z.to_nat L) (List.length scored)).
  { subst items. rewrite length_firstn. unfold sorted.
    rewrite (Permutation_length (sort_desc_perm _ scored)). reflexivity. }
  split.
  { erewrite filter_ext; [exact Hall|].
    intros c. unfold kept, Qlt_bool. rewrite negb_involutive. reflexivity. }
  split; [exact Hsim|].
  split.
  { intros c rec _ Hlow Hin. apply Hsim in Hin. simpl in Hin.
    exact (Qlt_not_le _ _ Hlow Hin). }
  split.
  { subst items. rewrite firstn_skipn. apply sort_desc_perm. }
  split.
  { subst items. apply firstn_sorted. apply sort_desc_sorted. }
  split.
  { intros x y Hx Hy. subst items.
    exact (sorted_split KnowledgeItem.final_score (Z.to_nat L) sorted
             (sort_desc_sorted _ scored) x y Hx Hy). }
  split; [exact Hlen|].
  assert (Hle : Z.of_nat (List.length items) <= L) by lia.
  split; [exact Hle|].
  intros n -> Hn. unfold L in Hle. simpl in Hle.
  destruct (Z.eqb_spec n 0); [contradiction | exact Hle].
Qed.

Lemma search_threshold_rank_truncate_witness :
  (forall it, In it DemoRun.ranked -> ((1 # 2) <= KnowledgeItem.similarity it)%Q) /\
  StronglySorted (desc KnowledgeItem.final_score) DemoRun.ranked /\
  Z.of_nat (List.length DemoRun.ranked) <= 10.
Proof.
  assert (Hk : DemoRun.keywords <> []) by discriminate.
  assert (Hrun : VectorStoreService.search Demo.env Settings.default DemoRun.keywords None
                   (1 # 2) Demo.library = DemoRun.outcome) by (vm_compute; reflexivity).
  destruct (search_threshold_rank_truncate Demo.env Settings.default DemoRun.keywords None
              (1 # 2) Demo.library DemoRun.ranked _ Hk Hrun)
    as (emb & survivors & rest & _ & H1 & _ & _ & H2 & _ & _ & H3 & _).
  split; [exact H1|]. split; [exact H2 | exact H3].
Defined.

(** C3, as stated, fails for [limit = 0]: the default limit takes over
    and two items are returned, more than [limit]. *)
Lemma search_limit_zero_returns_items :
  exists items w',
    VectorStoreService.search Demo.env Settings.default ["rag"] (Some 0) (1 # 2) Demo.library
      = Return items w' /\
    ~ (Z.of_nat (List.length items) <= 0).
Proof.
  eexists. eexists. split.
  - vm_compute. reflexivity.
  - vm_compute. intro H. apply H. reflexivity.
Qed.

(** C6 (amended).  A knowledge-tier [search] with keywords asks the table
    for exactly [2 * L] nearest rows, where [L] is the limit in force: the
    [limit] argument, or the configured [vector_search_limit] when [limit]
    is omitted or 0.  The query is the one database call of the search; it
    follows the embedding call (and is not issued when that call fails) and
    it precedes the filtering by similarity and the cut to [L]. *)
Theorem search_requests_twice_the_limit (env : Collaborators) (settings : Settings.t)
    (keywords : list string) (limit : option Z) (m : Q) (w : World) :
  keywords <> [] ->
  let L := Py.or_int limit (Settings.vector_search_limit settings) in
  let text := Py.join " " keywords in
  let o := VectorStoreService.search env settings keywords limit m w in
  (forall n, limit = Some n -> n <> 0 -> L = n) /\
  (limit = None \/ limit = Some 0 -> L = Settings.vector_search_limit settings) /\
  (forall e, embeddings_create env (List.length (calls w)) text = inl e ->
     calls (world_of o) = calls w ++ [EmbeddingsCreate text]) /\
  (forall emb, embeddings_create env (List.length (calls w)) text = inr emb ->
     calls (world_of o) = calls w ++ [EmbeddingsCreate text; KnowledgeSelect emb (2 * L)]) /\
  (forall items w', o = Return items w' ->
     exists emb survivors,
       calls w' = calls w ++ [EmbeddingsCreate text; KnowledgeSelect emb (2 * L)] /\
       Forall2 scored_from
         (filter (kept m)
            (VectorStoreService.nearest_rows env emb (2 * L) (knowledge_base w)))
         survivors /\
       items = firstn (Z.to_nat L) (sort_desc KnowledgeItem.final_score survivors)).
Proof.
  intros Hk L text o.
  split.
  { intros n -> Hn. unfold L. simpl. destruct (Z.eqb_spec n 0); [contradiction | reflexivity]. }
  split.
  { intros [-> | ->]; reflexivity. }
  pose proof (search_run env settings keywords limit m w Hk) as H.
  cbv zeta in H. fold L in H. fold text in H. fold o in H.
  replace (L * 2) with (2 * L) in H by lia.
  split; [|split].
  - intros e He. rewrite He in H. rewrite H. reflexivity.
  - intros emb He. rewrite He in H.
    destruct (2 * L <? 0).
    + rewrite H. reflexivity.
    + destruct H as [scored [_ ->]]. reflexivity.
  - intros items w' Ho.
    destruct (search_returns _ _ _ _ _ _ _ _ Hk Ho) as (emb & scored & _ & _ & Hall & Hit & Hw).
    fold L in Hall, Hit, Hw. fold text in Hw.
    replace (L * 2) with (2 * L) in * by lia.
    exists emb, scored. subst w'. auto.
Qed.

Lemma search_requests_twice_the_limit_witness :
  calls (world_of (VectorStoreService.search Demo.env Settings.default ["rag"] (Some 5)
                     (1 # 2) Demo.library))
  = [EmbeddingsCreate "rag"; KnowledgeSelect [3%Q] 10].
Proof.
  assert (Hk : ["rag"] <> @nil string) by discriminate.
  destruct (search_requests_twice_the_limit Demo.env Settings.default ["rag"] (Some 5)
              (1 # 2) Demo.library Hk) as (_ & _ & _ & H & _).
  exact (H [3%Q] eq_refl).
Defined.

(** C6, as stated, fails for [limit = 0]: the search asks for 20 rows,
    twice the default limit, not for [2 * 0]. *)
Lemma search_limit_zero_requests_default :
  calls (world_of (VectorStoreService.search Demo.env Settings.default ["rag"] (Some 0)
                     (1 # 2) Demo.library))
  = [EmbeddingsCreate "rag"; KnowledgeSelect [3%Q] 20] /\
  20 <> 2 * 0.
Proof.
  split.
  - vm_compute. reflexivity.
  - discriminate.
Qed.

(** ** Tier 1: the semantic cache *)

Lemma hd_error_In {A : Type} (l : list A) (x : A) : hd_error l = Some x -> In x l.
Proof.
  destruct l as [|y ys]; simpl; intro H; [discriminate|].
  inversion H. left. reflexivity.
Qed.

Lemma nearest_row_some (env : Collaborators) (q : list Q) (threshold : Q)
    (table : list CacheRow.t) (r : CacheRow.t) (similarity : Q) :
  SemanticCacheService.nearest_row env q threshold table = Some (r, similarity) ->
  In r table /\
  similarity = SemanticCacheService.row_similarity env q r /\
  (threshold <= similarity)%Q /\
  forall r', In r' table ->
    (SemanticCacheService.row_similarity env q r' <= similarity)%Q.
Proof.
  unfold SemanticCacheService.nearest_row. cbv zeta. intro H.
  set (scored := map (fun r => (r, SemanticCacheService.row_similarity env q r)) table) in *.
  set (matching := filter (fun rs => Qle_bool threshold (snd rs)) scored) in *.
  pose proof (sort_desc_sorted (@snd CacheRow.t Q) matching) as Hsorted.
  pose proof (sort_desc_perm (@snd CacheRow.t Q) matching) as Hperm.
  assert (Hin : In (r, similarity) matching).
  { apply (Permutation_in _ Hperm). apply hd_error_In. exact H. }
  apply filter_In in Hin. destruct Hin as [Hin Hthr].
  apply in_map_iff in Hin. destruct Hin as (r0 & Heq & Hr0).
  assert (Hr : r0 = r) by congruence. subst r0.
  assert (Hsim : similarity = SemanticCacheService.row_similarity env q r) by congruence.
  clear Heq.
  apply Qle_bool_iff in Hthr. simpl in Hthr.
  split; [exact Hr0|]. split; [exact Hsim|]. split; [exact Hthr|].
  intros r' Hr'.
  destruct (Qlt_le_dec (SemanticCacheService.row_similarity env q r') threshold) as [Hlow|Hhigh].
  - apply Qlt_le_weak. eapply Qlt_le_trans; eassumption.
  - assert (Hin' : In (r', SemanticCacheService.row_similarity env q r')
                     (sort_desc snd matching)).
    { apply (Permutation_in _ (Permutation_sym Hperm)).
      apply filter_In. split.
      - apply in_map_iff. exists r'. auto.
      - apply Qle_bool_iff. exact Hhigh. }
    destruct (sort_desc snd matching) as [|top rest]; [contradiction|].
    simpl in H. inversion H; subst top.
    destruct Hin' as [Heq | Hrest].
    + inversion Heq. apply Qle_refl.
    + inversion Hsorted as [|? ? _ Hall]; subst.
      rewrite Forall_forall in Hall. exact (Hall _ Hrest).
Qed.

Lemma nearest_row_none (env : Collaborators) (q : list Q) (threshold : Q)
    (table : list CacheRow.t) :
  SemanticCacheService.nearest_row env q threshold table = None <->
  forall r, In r table -> (SemanticCacheService.row_similarity env q r < threshold)%Q.
Proof.
  unfold SemanticCacheService.nearest_row. cbv zeta.
  set (scored := map (fun r => (r, SemanticCacheService.row_similarity env q r)) table).
  set (matching := filter (fun rs => Qle_bool threshold (snd rs)) scored).
  pose proof (sort_desc_perm (@snd CacheRow.t Q) matching) as Hperm.
  split.
  - intros H r Hr.
    destruct (Qlt_le_dec (SemanticCacheService.row_similarity env q r) threshold)
      as [Hlow|Hhigh]; [exact Hlow|].
    exfalso.
    assert (Hin : In (r, SemanticCacheService.row_similarity env q r)
                    (sort_desc snd matching)).
    { apply (Permutation_in _ (Permutation_sym Hperm)).
      apply filter_In. split.
      - apply in_map_iff. exists r. auto.
      - apply Qle_bool_iff. exact Hhigh. }
    destruct (sort_desc snd matching); [contradiction | discriminate].
  - intro H.
    destruct (sort_desc snd matching) as [|[r sim] rest] eqn:E; [reflexivity|].
    exfalso.
    assert (Hin : In (r, sim) matching).
    { apply (Permutation_in _ Hperm). left. reflexivity. }
    apply filter_In in Hin. destruct Hin as [Hin Hthr].
    apply in_map_iff in Hin. destruct Hin as (r0 & Heq & Hr0).
    inversion Heq; subst. apply Qle_bool_iff in Hthr. simpl in Hthr.
    exact (Qlt_not_le _ _ (H _ Hr0) Hthr).
Qed.

(** The [UPDATE ... WHERE id = $1] touches the one row with that id. *)
Lemma bump_one_row (before after : list CacheRow.t) (r : CacheRow.t) :
  NoDup (map CacheRow.id (before ++ r :: after)) ->
  map (fun x => if CacheRow.id x =? CacheRow.id r then CacheRow.bump x else x)
    (before ++ r :: after)
  = before ++ CacheRow.bump r :: after.
Proof.
  intro Hnd.
  rewrite map_app in Hnd. simpl in Hnd.
  pose proof (NoDup_remove_2 _ _ _ Hnd) as Hnot.
  rewrite map_app. simpl. rewrite Z.eqb_refl.
  assert (Hsame : forall l, (forall x, In x l -> CacheRow.id x <> CacheRow.id r) ->
            map (fun x => if CacheRow.id x =? CacheRow.id r then CacheRow.bump x else x) l = l).
  { induction l as [|x xs IH]; simpl; intro H; [reflexivity|].
    destruct (Z.eqb_spec (CacheRow.id x) (CacheRow.id r)) as [Heq|_].
    - exfalso. exact (H x (or_introl eq_refl) Heq).
    - f_equal. apply IH. intros y Hy. apply H. right. exact Hy. }
  rewrite !Hsame; [reflexivity| |].
  - intros x Hx Heq. apply Hnot. apply in_or_app. right.
    rewrite <- Heq. apply in_map. exact Hx.
  - intros x Hx Heq. apply Hnot. apply in_or_app. left.
    rewrite <- Heq. apply in_map. exact Hx.
Qed.

(** What a cache [search] does, in full. *)
Lemma cache_search_unfold (env : Collaborators) (settings : Settings.t) (query : string)
    (w : World) :
  let threshold := Settings.cache_similarity_threshold settings in
  SemanticCacheService.search env settings query w =
  match embeddings_create env (List.length (calls w)) query with
  | inl e => Raise e (called [EmbeddingsCreate query] w)
  | inr emb =>
      match SemanticCacheService.nearest_row env emb threshold (semantic_cache w) with
      | Some (r, similarity) =>
          Return (Some (entry_of r similarity))
            (with_cache
               (map (fun x => if CacheRow.id x =? CacheRow.id r then CacheRow.bump x else x)
                  (semantic_cache w))
               (called [EmbeddingsCreate query; CacheSelect emb threshold;
                        CacheUpdate (CacheRow.id r)] w))
      | None =>
          Return None (called [EmbeddingsCreate query; CacheSelect emb threshold] w)
      end
  end.
Proof.
  intro threshold.
  unfold SemanticCacheService.search. fold threshold.
  unfold bind at 1. rewrite get_embedding_run.
  destruct (embeddings_create env (List.length (calls w)) query) as [e|emb]; [reflexivity|].
  cbv beta iota. unfold embedding_to_pgvector.
  unfold bind at 1. unfold SemanticCacheService.fetchrow_nearest.
  unfold bind at 1. rewrite issue_run. rewrite called_called. simpl app.
  unfold bind at 1. unfold get_semantic_cache, ret at 1. cbv beta iota.
  change (semantic_cache (called [EmbeddingsCreate query; CacheSelect emb threshold] w))
    with (semantic_cache w).
  destruct (SemanticCacheService.nearest_row env emb threshold (semantic_cache w))
    as [[r similarity]|]; [|reflexivity].
  unfold SemanticCacheService.increment_hit_count, bind, ret.
  rewrite issue_run. rewrite called_called. simpl app.
  reflexivity.
Qed.

Lemma cache_wf_bump (w : World) (before after : list CacheRow.t) (r : CacheRow.t)
    (cs : list Call) :
  cache_wf w ->
  semantic_cache w = before ++ r :: after ->
  cache_wf (with_cache (before ++ CacheRow.bump r :: after) (called cs w)).
Proof.
  intros [Hnd Hlt] Hsplit. unfold cache_wf. simpl.
  split.
  - rewrite Hsplit in Hnd. rewrite map_app in Hnd |- *. exact Hnd.
  - intros x Hx. apply in_app_or in Hx.
    destruct Hx as [Hx | [<- | Hx]].
    + apply Hlt. rewrite Hsplit. apply in_or_app. left. exact Hx.
    + change (CacheRow.id (CacheRow.bump r)) with (CacheRow.id r).
      apply Hlt. rewrite Hsplit. apply in_or_app. right. left. reflexivity.
    + apply Hlt. rewrite Hsplit. apply in_or_app. right. right. exact Hx.
Qed.

(** [search] is its coroutine run without interruption. *)
Lemma search_task_run (env : Collaborators) (settings : Settings.t) (query : string)
    (w : World) :
  run (SemanticCacheService.search_task env settings query) w
  = SemanticCacheService.search env settings query w.
Proof.
  unfold SemanticCacheService.search_task, SemanticCacheService.search.
  simpl run. unfold bind.
  destruct (get_embedding env query w) as [emb w1|e w1]; [|reflexivity].
  destruct (SemanticCacheService.fetchrow_nearest env (embedding_to_pgvector emb)
              (Settings.cache_similarity_threshold settings) w1)
    as [[[r similarity]|] w2|e w2]; reflexivity.
Qed.

(** C4 (amended).  Let a cache [search] run with no other request between
    its statements.  When it returns an entry, the similarity of the entry
    to the query is at least the configured threshold, and the hit counter
    of that entry, and of no other, has been incremented by one, in the
    single [UPDATE] the search issues after its [SELECT].  When no stored
    entry reaches the threshold (so also when the table is empty) the
    search returns none, without raising and without writing. *)
Theorem cache_search_hit_or_miss (env : Collaborators) (settings : Settings.t)
    (query : string) (w : World) :
  cache_wf w ->
  let threshold := Settings.cache_similarity_threshold settings in
  let o := SemanticCacheService.search env settings query w in
  (forall entry w', o = Return (Some entry) w' ->
     (threshold <= CacheEntry.similarity entry)%Q /\
     exists emb r before after,
       embeddings_create env (List.length (calls w)) query = inr emb /\
       semantic_cache w = before ++ r :: after /\
       entry = entry_of r (SemanticCacheService.row_similarity env emb r) /\
       CacheEntry.hit_count entry = CacheRow.hit_count r + 1 /\
       semantic_cache w' = before ++ CacheRow.bump r :: after /\
       CacheRow.hit_count (CacheRow.bump r) = CacheRow.hit_count r + 1 /\
       calls w' = calls w ++ [EmbeddingsCreate query; CacheSelect emb threshold;
                              CacheUpdate (CacheRow.id r)] /\
       cache_wf w') /\
  (forall emb, embeddings_create env (List.length (calls w)) query = inr emb ->
     (forall r, In r (semantic_cache w) ->
        (SemanticCacheService.row_similarity env emb r < threshold)%Q) ->
     o = Return None (called [EmbeddingsCreate query; CacheSelect emb threshold] w)) /\
  (forall emb, embeddings_create env (List.length (calls w)) query = inr emb ->
     semantic_cache w = [] ->
     o = Return None (called [EmbeddingsCreate query; CacheSelect emb threshold] w)) /\
  (forall w', o = Return None w' ->
     semantic_cache w' = semantic_cache w /\
     exists emb,
       embeddings_create env (List.length (calls w)) query = inr emb /\
       calls w' = calls w ++ [EmbeddingsCreate query; CacheSelect emb threshold] /\
       forall r, In r (semantic_cache w) ->
         (SemanticCacheService.row_similarity env emb r < threshold)%Q).
Proof.
  intros Hwf threshold o.
  pose proof (cache_search_unfold env settings query w) as Hrun.
  cbv zeta in Hrun. fold threshold in Hrun. fold o in Hrun.
  assert (Hmiss : forall emb,
            embeddings_create env (List.length (calls w)) query = inr emb ->
            (forall r, In r (semantic_cache w) ->
               (SemanticCacheService.row_similarity env emb r < threshold)%Q) ->
            o = Return None (called [EmbeddingsCreate query; CacheSelect emb threshold] w)).
  { intros emb He Hlow. rewrite He in Hrun.
    apply nearest_row_none in Hlow. rewrite Hlow in Hrun. exact Hrun. }
  split; [|split; [exact Hmiss | split]].
  - intros entry w' Ho. rewrite Ho in Hrun.
    destruct (embeddings_create env (List.length (calls w)) query) as [e|emb];
      [discriminate Hrun|].
    destruct (SemanticCacheService.nearest_row env emb threshold (semantic_cache w))
      as [[r similarity]|] eqn:Hrow; [|discriminate Hrun].
    inversion Hrun; subst entry w'. clear Hrun.
    destruct (nearest_row_some _ _ _ _ _ _ Hrow) as (Hin & Hsim & Hthr & _).
    split; [exact Hthr|].
    destruct (in_split _ _ Hin) as (before & after & Hsplit).
    exists emb, r, before, after.
    assert (Hcache : map (fun x => if CacheRow.id x =? CacheRow.id r then CacheRow.bump x else x)
                       (semantic_cache w) = before ++ CacheRow.bump r :: after).
    { rewrite Hsplit. apply bump_one_row. rewrite <- Hsplit. exact (proj1 Hwf). }
    rewrite Hcache. subst similarity.
    repeat split; try reflexivity; try exact Hsplit.
    + destruct (cache_wf_bump w before after r
                  [EmbeddingsCreate query; CacheSelect emb threshold;
                   CacheUpdate (CacheRow.id r)] Hwf Hsplit) as [H _]. exact H.
    + destruct (cache_wf_bump w before after r
                  [EmbeddingsCreate query; CacheSelect emb threshold;
                   CacheUpdate (CacheRow.id r)] Hwf Hsplit) as [_ H]. exact H.
  - intros emb He Hempty. apply (Hmiss emb He).
    intros r Hr. rewrite Hempty in Hr. contradiction.
  - intros w' Ho. rewrite Ho in Hrun.
    destruct (embeddings_create env (List.length (calls w)) query) as [e|emb];
      [discriminate Hrun|].
    destruct (SemanticCacheService.nearest_row env emb threshold (semantic_cache w))
      as [[r similarity]|] eqn:Hrow; [discriminate Hrun|].
    inversion Hrun; subst w'. clear Hrun.
    split; [reflexivity|].
    exists emb. split; [reflexivity|]. split; [reflexivity|].
    apply nearest_row_none. exact Hrow.
Qed.

Lemma cache_search_hit_or_miss_witness :
  exists entry w',
    SemanticCacheService.search Demo.env Settings.default "What is RAG?" Demo.warm_cache
      = Return (Some entry) w' /\
    (Settings.cache_similarity_threshold Settings.default
     <= CacheEntry.similarity entry)%Q /\
    CacheEntry.hit_count entry = 6 /\
    map CacheRow.hit_count (semantic_cache w') = [0; 6].
Proof.
  assert (Hwf : cache_wf Demo.warm_cache).
  { split.
    - repeat constructor; simpl; intuition discriminate.
    - intros r [<- | [<- | []]]; reflexivity. }
  destruct (cache_search_hit_or_miss Demo.env Settings.default "What is RAG?"
              Demo.warm_cache Hwf) as (Hhit & _).
  eexists. eexists.
  assert (Hrun : SemanticCacheService.search Demo.env Settings.default "What is RAG?"
                   Demo.warm_cache = Return _ _) by (vm_compute; reflexivity).
  split; [exact Hrun|].
  destruct (Hhit _ _ Hrun) as (Hthr & _).
  split; [exact Hthr|]. split; reflexivity.
Defined.

(** The read and the increment are two statements, and other requests
    run between them.  On a cache whose second entry has been hit 5 times:
    two searches for its query that take turns both find the counter at 5
    and both return 6, while the table ends at 7; and a search whose
    [UPDATE] comes after a [clear] returns the entry with the count 6
    although no counter has been incremented: the table is empty. *)
Lemma cache_hit_not_atomic :
  map CacheRow.hit_count (semantic_cache Demo.warm_cache) = [0; 5] /\
  (exists e1 e2 w',
     interleave [true; false; true; false; true; false] DemoRace.hit DemoRace.hit
       Demo.warm_cache = (Done (Some e1), Done (Some e2), w') /\
     CacheEntry.id e1 = 2 /\ CacheEntry.id e2 = 2 /\
     CacheEntry.hit_count e1 = 6 /\ CacheEntry.hit_count e2 = 6 /\
     map CacheRow.hit_count (semantic_cache w') = [0; 7]) /\
  (exists e w',
     interleave [true; true; false; true] DemoRace.hit SemanticCacheService.clear_task
       Demo.warm_cache = (Done (Some e), Done 2, w') /\
     CacheEntry.id e = 2 /\
     (Settings.cache_similarity_threshold Settings.default <= CacheEntry.similarity e)%Q /\
     CacheEntry.hit_count e = 6 /\
     semantic_cache w' = []).
Proof.
  split; [reflexivity|]. split.
  - assert (H : interleave [true; false; true; false; true; false] DemoRace.hit DemoRace.hit
                  Demo.warm_cache = DemoRace.twice) by (vm_compute; reflexivity).
    unfold DemoRace.twice in H.
    do 3 eexists. split; [exact H|].
    repeat (split; [reflexivity|]). reflexivity.
  - assert (H : interleave [true; true; false; true] DemoRace.hit
                  SemanticCacheService.clear_task Demo.warm_cache = DemoRace.cleared)
      by (vm_compute; reflexivity).
    unfold DemoRace.cleared in H.
    do 2 eexists. split; [exact H|].
    split; [reflexivity|]. split; [vm_compute; discriminate|].
    split; reflexivity.
Qed.

(** ** Tier 3: the external providers *)

Lemma logger_error_run (msg : string) (w : World) :
  logger_error msg w = Return tt (logged msg w).
Proof. reflexivity. Qed.

Lemma client_get_run (env : Collaborators) (url : string) (params : list (string * JSON))
    (w : World) :
  MCPClientService.client_get env url params w =
  match httpx_get env (List.length (calls w)) url params with
  | inl e => Raise e (called [HttpGet url params] w)
  | inr response => Return response (called [HttpGet url params] w)
  end.
Proof.
  unfold MCPClientService.client_get, bind. rewrite issue_run.
  destruct (httpx_get env (List.length (calls w)) url params); reflexivity.
Qed.

(** What [search_arxiv] does with keywords, in full. *)
Lemma search_arxiv_unfold (env : Collaborators) (keywords : list string) (max_results : Z)
    (w : World) :
  keywords <> [] ->
  let url := MCPClientService.ARXIV_API_URL in
  let params := MCPClientService.arxiv_params keywords max_results in
  let w1 := called [HttpGet url params] w in
  let failed e := Return [] (logged ("arXiv search failed: " ++ str_exn e) w1) in
  MCPClientService.search_arxiv env keywords max_results w =
  match httpx_get env (List.length (calls w)) url params with
  | inl e => failed e
  | inr response =>
      match Response.status_error response with
      | Some e => failed e
      | None =>
          match ET_fromstring env (Response.text response) with
          | inl e =>
              if is_ParseError e
              then Return [] (logged ("Failed to parse arXiv XML: " ++ str_exn e) w1)
              else failed e
          | inr root =>
              Return (map MCPClientService.parse_entry (findall root (atom "entry"))) w1
          end
      end
  end.
Proof.
  intros Hk url params w1 failed.
  destruct keywords as [|k ks]; [congruence|].
  unfold MCPClientService.search_arxiv.
  change (negb (Py.truthy (k :: ks))) with false. cbv iota zeta.
  fold url. fold params.
  unfold try_except, bind at 1. rewrite client_get_run. fold w1.
  destruct (httpx_get env (List.length (calls w)) url params) as [e|response].
  - reflexivity.
  - unfold bind at 1. unfold MCPClientService.raise_for_status.
    destruct (Response.status_error response) as [e|].
    + reflexivity.
    + unfold ret at 1. unfold bind at 1.
      unfold MCPClientService._parse_arxiv_response, try_except.
      unfold bind at 1.
      destruct (ET_fromstring env (Response.text response)) as [e|root]; simpl lift.
      * unfold raise at 1. destruct (is_ParseError e); reflexivity.
      * reflexivity.
Qed.

(** What [search_huggingface] does with keywords, in full. *)
Lemma search_huggingface_unfold (env : Collaborators) (keywords : list string)
    (max_results : Z) (w : World) :
  keywords <> [] ->
  let url := MCPClientService.huggingface_url env (Py.join " " keywords) max_results in
  let w1 := called [HttpGet url []] w in
  let failed results e :=
    Return results (logged ("HuggingFace search failed: " ++ str_exn e) w1) in
  MCPClientService.search_huggingface env keywords max_results w =
  match httpx_get env (List.length (calls w)) url [] with
  | inl e => failed [] e
  | inr response =>
      match Response.status_error response with
      | Some e => failed [] e
      | None =>
          match json_loads env (Response.text response) with
          | inl e => failed [] e
          | inr models =>
              match MCPClientService.slice_models models max_results with
              | inl e => failed [] e
              | inr head =>
                  match MCPClientService.collect_models env head [] with
                  | (results, Some e) => failed results e
                  | (results, None) => Return results w1
                  end
              end
          end
      end
  end.
Proof.
  intros Hk url w1 failed.
  destruct keywords as [|k ks]; [congruence|].
  unfold MCPClientService.search_huggingface.
  change (negb (Py.truthy (k :: ks))) with false. cbv iota zeta.
  fold url.
  unfold bind at 1. unfold try_except. unfold bind at 1. rewrite client_get_run. fold w1.
  destruct (httpx_get env (List.length (calls w)) url []) as [e|response].
  - reflexivity.
  - unfold bind at 1. unfold MCPClientService.raise_for_status.
    destruct (Response.status_error response) as [e|].
    + reflexivity.
    + unfold ret at 1. unfold bind at 1.
      destruct (json_loads env (Response.text response)) as [e|models]; simpl lift.
      * reflexivity.
      * unfold ret at 1. unfold bind at 1.
        destruct (MCPClientService.slice_models models max_results) as [e|head]; simpl lift.
        -- reflexivity.
        -- unfold ret at 1 2.
           destruct (MCPClientService.collect_models env head []) as [results [e|]];
             reflexivity.
Qed.

Lemma same_tables_refl (w : World) : same_tables w w.
Proof. repeat split. Qed.

Lemma same_tables_trans (w1 w2 w3 : World) :
  same_tables w1 w2 -> same_tables w2 w3 -> same_tables w1 w3.
Proof.
  unfold same_tables. intros (A1 & B1 & C1 & D1) (A2 & B2 & C2 & D2).
  repeat split; congruence.
Qed.

(** [search_arxiv] returns, whatever the provider does; it writes to no
    table. *)
Lemma search_arxiv_returns (env : Collaborators) (keywords : list string) (max_results : Z)
    (w : World) :
  exists results w',
    MCPClientService.search_arxiv env keywords max_results w = Return results w' /\
    same_tables w w'.
Proof.
  destruct keywords as [|k ks].
  - exists [], w. split; [reflexivity | apply same_tables_refl].
  - assert (Hk : k :: ks <> []) by congruence.
    rewrite (search_arxiv_unfold env (k :: ks) max_results w Hk). cbv zeta.
    destruct (httpx_get env _ _ _) as [e|response].
    { eexists. eexists. split; [reflexivity | repeat split]. }
    destruct (Response.status_error response) as [e|].
    { eexists. eexists. split; [reflexivity | repeat split]. }
    destruct (ET_fromstring env (Response.text response)) as [e|root].
    + destruct (is_ParseError e); eexists; eexists; (split; [reflexivity | repeat split]).
    + eexists. eexists. split; [reflexivity | repeat split].
Qed.

(** So does [search_huggingface]. *)
Lemma search_huggingface_returns (env : Collaborators) (keywords : list string)
    (max_results : Z) (w : World) :
  exists results w',
    MCPClientService.search_huggingface env keywords max_results w = Return results w' /\
    same_tables w w'.
Proof.
  destruct keywords as [|k ks].
  - exists [], w. split; [reflexivity | apply same_tables_refl].
  - assert (Hk : k :: ks <> []) by congruence.
    rewrite (search_huggingface_unfold env (k :: ks) max_results w Hk). cbv zeta.
    destruct (httpx_get env _ _ _) as [e|response].
    { eexists. eexists. split; [reflexivity | repeat split]. }
    destruct (Response.status_error response) as [e|].
    { eexists. eexists. split; [reflexivity | repeat split]. }
    destruct (json_loads env (Response.text response)) as [e|models].
    { eexists. eexists. split; [reflexivity | repeat split]. }
    destruct (MCPClientService.slice_models models max_results) as [e|head].
    { eexists. eexists. split; [reflexivity | repeat split]. }
    destruct (MCPClientService.collect_models env head []) as [results [e|]];
      eexists; eexists; (split; [reflexivity | repeat split]).
Qed.

(** And so does [search_all]. *)
Lemma search_all_returns (env : Collaborators) (keywords : list string)
    (max_results_per_source : Z) (w : World) :
  exists results w',
    MCPClientService.search_all env keywords max_results_per_source w = Return results w' /\
    same_tables w w'.
Proof.
  destruct (search_arxiv_returns env keywords max_results_per_source w)
    as (r1 & w1 & H1 & F1).
  destruct (search_huggingface_returns env keywords max_results_per_source w1)
    as (r2 & w2 & H2 & F2).
  exists (r1 ++ r2), w2. split.
  - unfold MCPClientService.search_all, bind. rewrite H1, H2. reflexivity.
  - eapply same_tables_trans; eassumption.
Qed.

(** C7.  Neither external search raises to its caller, whatever the
    provider does: [search_arxiv], [search_huggingface] and their
    combination always return a list.  When the transport fails (the
    request raises, or the status is an error) or the body cannot be parsed
    (as XML for arXiv, as JSON for HuggingFace), the list is empty and the
    failure is recorded in the error log. *)
Theorem external_search_never_raises (env : Collaborators) (keywords : list string)
    (max_results : Z) (w : World) :
  (exists results w',
     MCPClientService.search_arxiv env keywords max_results w = Return results w') /\
  (exists results w',
     MCPClientService.search_huggingface env keywords max_results w = Return results w') /\
  (exists results w',
     MCPClientService.search_all env keywords max_results w = Return results w') /\
  (keywords <> [] ->
   let n := List.length (calls w) in
   let url := MCPClientService.ARXIV_API_URL in
   let params := MCPClientService.arxiv_params keywords max_results in
   let w1 := called [HttpGet url params] w in
   let o := MCPClientService.search_arxiv env keywords max_results w in
   (forall e, httpx_get env n url params = inl e ->
      o = Return [] (logged ("arXiv search failed: " ++ str_exn e) w1)) /\
   (forall response e,
      httpx_get env n url params = inr response ->
      Response.status_error response = Some e ->
      o = Return [] (logged ("arXiv search failed: " ++ str_exn e) w1)) /\
   (forall response e,
      httpx_get env n url params = inr response ->
      Response.status_error response = None ->
      ET_fromstring env (Response.text response) = inl e ->
      exists msg, o = Return [] (logged (msg ++ str_exn e) w1))) /\
  (keywords <> [] ->
   let n := List.length (calls w) in
   let url := MCPClientService.huggingface_url env (Py.join " " keywords) max_results in
   let w1 := called [HttpGet url []] w in
   let o := MCPClientService.search_huggingface env keywords max_results w in
   (forall e, httpx_get env n url [] = inl e ->
      o = Return [] (logged ("HuggingFace search failed: " ++ str_exn e) w1)) /\
   (forall response e,
      httpx_get env n url [] = inr response ->
      Response.status_error response = Some e ->
      o = Return [] (logged ("HuggingFace search failed: " ++ str_exn e) w1)) /\
   (forall response e,
      httpx_get env n url [] = inr response ->
      Response.status_error response = None ->
      json_loads env (Response.text response) = inl e ->
      o = Return [] (logged ("HuggingFace search failed: " ++ str_exn e) w1)) /\
   (forall response models e,
      httpx_get env n url [] = inr response ->
      Response.status_error response = None ->
      json_loads env (Response.text response) = inr models ->
      MCPClientService.slice_models models max_results = inl e ->
      o = Return [] (logged ("HuggingFace search failed: " ++ str_exn e) w1))).
Proof.
  split.
  { destruct (search_arxiv_returns env keywords max_results w) as (r & w' & H & _). eauto. }
  split.
  { destruct (search_huggingface_returns env keywords max_results w) as (r & w' & H & _).
    eauto. }
  split.
  { destruct (search_all_returns env keywords max_results w) as (r & w' & H & _). eauto. }
  split.
  - intros Hk n url params w1 o.
    pose proof (search_arxiv_unfold env keywords max_results w Hk) as H.
    cbv zeta in H. fold n url params w1 o in H.
    split; [|split].
    + intros e He. rewrite He in H. exact H.
    + intros response e Hr He. rewrite Hr, He in H. exact H.
    + intros response e Hr Hs He. rewrite Hr, Hs, He in H.
      destruct (is_ParseError e); eexists; exact H.
  - intros Hk n url w1 o.
    pose proof (search_huggingface_unfold env keywords max_results w Hk) as H.
    cbv zeta in H. fold n url w1 o in H.
    split; [|split; [|split]].
    + intros e He. rewrite He in H. exact H.
    + intros response e Hr He. rewrite Hr, He in H. exact H.
    + intros response e Hr Hs He. rewrite Hr, Hs, He in H. exact H.
    + intros response models e Hr Hs Hj He. rewrite Hr, Hs, Hj, He in H. exact H.
Qed.

(** C8.  With no keywords, the knowledge-tier [search] and both external
    searches return the empty list at once: the world is left as it was,
    so no embedding call, no query and no request has been issued. *)
Theorem empty_keywords_short_circuit (env : Collaborators) (settings : Settings.t)
    (limit : option Z) (min_similarity : Q) (max_results : Z) (w : World) :
  VectorStoreService.search env settings [] limit min_similarity w = Return [] w /\
  MCPClientService.search_arxiv env [] max_results w = Return [] w /\
  MCPClientService.search_huggingface env [] max_results w = Return [] w /\
  calls (world_of (VectorStoreService.search env settings [] limit min_similarity w))
    = calls w /\
  calls (world_of (MCPClientService.search_arxiv env [] max_results w)) = calls w /\
  calls (world_of (MCPClientService.search_huggingface env [] max_results w)) = calls w.
Proof.
  repeat split; reflexivity.
Qed.

(** ** The response synthesizer *)

Lemma fold_knowledge_items (l : list KnowledgeItem.t) :
  forall (start : nat) (parts : list string) (sources : list SourceInfo.t),
  exists parts',
    fold_left LLMResponderService.add_knowledge_item (Py.enumerate l start) (parts, sources)
      = (parts ++ parts', sources ++ map knowledge_citation l) /\
    List.length parts' = List.length l.
Proof.
  induction l as [|x xs IH]; intros start parts sources.
  - exists []. simpl. rewrite !app_nil_r. auto.
  - unfold Py.enumerate. simpl.
    destruct (IH (S start)
                (parts ++ [LLMResponderService.context_part start
                             (KnowledgeItem.source_type x) (KnowledgeItem.content x)])
                (sources ++ [knowledge_citation x])) as (parts' & Heq & Hlen).
    unfold Py.enumerate in Heq. unfold knowledge_citation in Heq at 1. rewrite Heq.
    eexists (_ :: parts'). split.
    + rewrite <- !app_assoc. reflexivity.
    + simpl. rewrite Hlen. reflexivity.
Qed.

Lemma fold_mcp_results (l : list MCPSearchResult.t) :
  forall (start : nat) (parts : list string) (sources : list SourceInfo.t),
  exists parts',
    fold_left LLMResponderService.add_mcp_result (Py.enumerate l start) (parts, sources)
      = (parts ++ parts', sources ++ map external_citation l) /\
    List.length parts' = List.length l.
Proof.
  induction l as [|x xs IH]; intros start parts sources.
  - exists []. simpl. rewrite !app_nil_r. auto.
  - unfold Py.enumerate. simpl.
    destruct (IH (S start)
                (parts ++ [LLMResponderService.context_part start
                             (MCPSearchResult.source_type x) (MCPSearchResult.content x)])
                (sources ++ [external_citation x])) as (parts' & Heq & Hlen).
    unfold Py.enumerate in Heq. unfold external_citation in Heq at 1.
    unfold f0_0. rewrite Heq.
    eexists (_ :: parts'). split.
    + rewrite <- !app_assoc. reflexivity.
    + simpl. rewrite Hlen. reflexivity.
Qed.

(** The two loops leave one context entry and one citation per document,
    knowledge items first. *)
Lemma build_context_spec (knowledge_items : option (list KnowledgeItem.t))
    (mcp_results : option (list MCPSearchResult.t)) :
  exists parts,
    LLMResponderService.build_context knowledge_items mcp_results
      = (parts, citations knowledge_items mcp_results) /\
    List.length parts
      = (List.length (Py.or_else knowledge_items [])
         + List.length (Py.or_else mcp_results []))%nat.
Proof.
  unfold LLMResponderService.build_context, citations.
  assert (H1 : exists parts1,
             (if Py.truthy_opt knowledge_items
              then fold_left LLMResponderService.add_knowledge_item
                     (Py.enumerate (Py.or_else knowledge_items []) 1) ([], [])
              else ([], []))
             = (parts1, map knowledge_citation (Py.or_else knowledge_items [])) /\
             List.length parts1 = List.length (Py.or_else knowledge_items [])).
  { destruct knowledge_items as [[|x xs]|]; simpl Py.truthy_opt; cbv iota.
    - exists []. auto.
    - destruct (fold_knowledge_items (x :: xs) 1 [] []) as (p & Heq & Hlen).
      exists p. simpl Py.or_else. rewrite Heq. auto.
    - exists []. auto. }
  destruct H1 as (parts1 & Heq1 & Hlen1). cbv zeta. rewrite Heq1.
  destruct mcp_results as [[|y ys]|]; simpl Py.truthy_opt; cbv iota.
  - exists parts1. simpl. rewrite app_nil_r, Nat.add_0_r. auto.
  - destruct (fold_mcp_results (y :: ys) (List.length parts1 + 1) parts1
                (map knowledge_citation (Py.or_else knowledge_items [])))
      as (p & Heq & Hlen).
    exists (parts1 ++ p). simpl Py.or_else. simpl fst. rewrite Heq.
    split; [reflexivity|]. rewrite length_app. lia.
  - exists parts1. simpl. rewrite app_nil_r, Nat.add_0_r. auto.
Qed.

(** What [generate_response] does, in full. *)
Lemma generate_response_unfold (env : Collaborators) (settings : Settings.t) (query : string)
    (knowledge_items : option (list KnowledgeItem.t))
    (mcp_results : option (list MCPSearchResult.t)) (w : World) :
  let sources := citations knowledge_items mcp_results in
  let model := Settings.llm_model settings in
  let system := LLMResponderService.SYSTEM_MESSAGE in
  let user := user_prompt query knowledge_items mcp_results in
  let w1 := called [ChatCompletionsCreate model system user] w in
  let failed e :=
    Return (("I encountered an error generating a response: " ++ str_exn e)%string, sources)
      (logged ("Response generation failed: " ++ str_exn e) w1) in
  LLMResponderService.generate_response env settings query knowledge_items mcp_results w =
  if Py.truthy_opt knowledge_items || Py.truthy_opt mcp_results then
    match chat_completions_create env (List.length (calls w)) model system user with
    | inl e => failed e
    | inr choices =>
        match first_content_stripped choices with
        | inl e => failed e
        | inr response_text => Return (response_text, sources) w1
        end
    end
  else Return (LLMResponderService._not_found_response query, []) w.
Proof.
  intros sources model system user w1 failed.
  unfold LLMResponderService.generate_response.
  destruct (build_context_spec knowledge_items mcp_results) as (parts & Hctx & Hlen).
  assert (Huser : user = LLMResponderService.RESPONSE_PROMPT
                    (Py.join (Py.nl ++ Py.nl ++ "---" ++ Py.nl ++ Py.nl)%string parts) query).
  { unfold user, user_prompt. rewrite Hctx. reflexivity. }
  rewrite Hctx. fold sources.
  assert (Htruthy : Py.truthy parts
                    = Py.truthy_opt knowledge_items || Py.truthy_opt mcp_results).
  { destruct knowledge_items as [[|x xs]|], mcp_results as [[|y ys]|];
      simpl in Hlen |- *; destruct parts; simpl in *; try reflexivity; try lia. }
  rewrite Htruthy.
  destruct (Py.truthy_opt knowledge_items || Py.truthy_opt mcp_results).
  - change (negb true) with false. cbv beta iota.
    unfold try_except, bind at 1. unfold chat_completion, bind at 1.
    rewrite issue_run. fold model system. rewrite <- Huser. fold w1.
    destruct (chat_completions_create env (List.length (calls w)) model system user)
      as [e|choices]; simpl lift.
    + reflexivity.
    + unfold ret at 1. unfold bind at 1.
      destruct (first_content_stripped choices) as [e|text]; reflexivity.
  - reflexivity.
Qed.

(** [generate_response] always returns; its citations are those of the
    documents it was given, and it writes to no table. *)
Lemma generate_response_returns (env : Collaborators) (settings : Settings.t)
    (query : string) (knowledge_items : option (list KnowledgeItem.t))
    (mcp_results : option (list MCPSearchResult.t)) (w : World) :
  exists text w',
    LLMResponderService.generate_response env settings query knowledge_items mcp_results w
    = Return (text, citations knowledge_items mcp_results) w' /\
    same_tables w w'.
Proof.
  pose proof (generate_response_unfold env settings query knowledge_items mcp_results w)
    as H.
  cbv zeta in H. rewrite H.
  destruct (Py.truthy_opt knowledge_items || Py.truthy_opt mcp_results) eqn:Hdocs.
  - destruct (chat_completions_create env _ _ _ _) as [e|choices].
    { eexists. eexists. split; [reflexivity | repeat split]. }
    destruct (first_content_stripped choices) as [e|text];
      eexists; eexists; (split; [reflexivity | repeat split]).
  - exists (LLMResponderService._not_found_response query), w.
    split; [|apply same_tables_refl].
    destruct knowledge_items as [[|x xs]|], mcp_results as [[|y ys]|];
      simpl in Hdocs |- *; try discriminate; reflexivity.
Qed.

(** C9.  When [generate_response] is given at least one non-empty
    document set and the text-generation call fails, it returns, without
    raising, a message that embeds the error text, together with the
    citations of all the documents it was given: one per document,
    knowledge items first.  The failure is recorded in the error log. *)
Theorem generate_response_failure_keeps_citations (env : Collaborators)
    (settings : Settings.t) (query : string)
    (knowledge_items : option (list KnowledgeItem.t))
    (mcp_results : option (list MCPSearchResult.t)) (w : World) (e : exn) :
  Py.truthy_opt knowledge_items || Py.truthy_opt mcp_results = true ->
  synthesis_fails env settings query knowledge_items mcp_results w e ->
  let sources :=
    map knowledge_citation (Py.or_else knowledge_items [])
    ++ map external_citation (Py.or_else mcp_results []) in
  LLMResponderService.generate_response env settings query knowledge_items mcp_results w
  = Return (("I encountered an error generating a response: " ++ str_exn e)%string, sources)
      (logged ("Response generation failed: " ++ str_exn e)
         (called [ChatCompletionsCreate (Settings.llm_model settings)
                    LLMResponderService.SYSTEM_MESSAGE
                    (user_prompt query knowledge_items mcp_results)] w)) /\
  List.length sources
  = (List.length (Py.or_else knowledge_items [])
     + List.length (Py.or_else mcp_results []))%nat /\
  sources <> [].
Proof.
  intros Hdocs Hfail sources.
  pose proof (generate_response_unfold env settings query knowledge_items mcp_results w) as H.
  cbv zeta in H. rewrite Hdocs in H.
  split; [|split].
  - rewrite H. destruct Hfail as [He | (choices & Hc & He)].
    + rewrite He. reflexivity.
    + rewrite Hc, He. reflexivity.
  - unfold sources. rewrite length_app, !length_map. reflexivity.
  - unfold sources.
    destruct knowledge_items as [[|x xs]|], mcp_results as [[|y ys]|];
      simpl in Hdocs |- *; try discriminate.
Qed.

Lemma generate_response_failure_keeps_citations_witness :
  LLMResponderService.generate_response Demo.llm_down Settings.default "What is RAG?"
    (Some DemoRun.ranked) (Some [Demo.found]) Demo.empty_world
  = Return ("I encountered an error generating a response: Rate limit exceeded",
            map knowledge_citation DemoRun.ranked ++ [external_citation Demo.found])
      (logged "Response generation failed: Rate limit exceeded"
         (called [ChatCompletionsCreate "gpt-4o-mini" LLMResponderService.SYSTEM_MESSAGE
                    (user_prompt "What is RAG?" (Some DemoRun.ranked) (Some [Demo.found]))]
            Demo.empty_world)).
Proof.
  assert (Hdocs : Py.truthy_opt (Some DemoRun.ranked) || Py.truthy_opt (Some [Demo.found])
                  = true) by reflexivity.
  assert (Hfail : synthesis_fails Demo.llm_down Settings.default "What is RAG?"
                    (Some DemoRun.ranked) (Some [Demo.found]) Demo.empty_world
                    (APIError "Rate limit exceeded")) by (left; reflexivity).
  exact (proj1 (generate_response_failure_keeps_citations Demo.llm_down Settings.default
                  "What is RAG?" (Some DemoRun.ranked) (Some [Demo.found]) Demo.empty_world
                  (APIError "Rate limit exceeded") Hdocs Hfail)).
Defined.

(** C10.  [generate_response] always returns, and the citations it returns
    are those of the documents it was given, knowledge items first: the
    citation of a knowledge item carries the item's final score as its
    relevance score, the citation of an external result carries 0.0, never
    a positive score. *)
Theorem citation_relevance_scores (env : Collaborators) (settings : Settings.t)
    (query : string) (knowledge_items : option (list KnowledgeItem.t))
    (mcp_results : option (list MCPSearchResult.t)) (w : World) :
  (exists text w',
     LLMResponderService.generate_response env settings query knowledge_items mcp_results w
     = Return (text,
               map knowledge_citation (Py.or_else knowledge_items [])
               ++ map external_citation (Py.or_else mcp_results [])) w' /\
     same_tables w w') /\
  (forall item,
     SourceInfo.relevance_score (knowledge_citation item) = KnowledgeItem.final_score item) /\
  (forall result,
     SourceInfo.relevance_score (external_citation result) = 0%Q /\
     ~ (0 < SourceInfo.relevance_score (external_citation result))%Q).
Proof.
  split; [|split].
  - exact (generate_response_returns env settings query knowledge_items mcp_results w).
  - intro item. reflexivity.
  - intro result. split; [reflexivity|]. simpl. apply Qlt_irrefl.
Qed.

(** ** The pipeline *)

Lemma store_returns (env : Collaborators) (query response : string)
    (sources : list SourceInfo.t) (w : World) (cache_id : Z) (w' : World) :
  SemanticCacheService.store env query response sources w = Return cache_id w' ->
  exists row,
    semantic_cache w' = semantic_cache w ++ [row] /\
    cached_as query response sources row /\
    CacheRow.id row = cache_id /\
    cache_id = semantic_cache_seq w /\
    semantic_cache_seq w' = semantic_cache_seq w + 1 /\
    knowledge_base w' = knowledge_base w /\
    knowledge_base_seq w' = knowledge_base_seq w /\
    calls w' = calls w ++ [EmbeddingsCreate query; CacheInsert query].
Proof.
  unfold SemanticCacheService.store. intro H.
  apply bind_returns in H. destruct H as (emb & w1 & H1 & H).
  rewrite get_embedding_run in H1.
  destruct (embeddings_create env (List.length (calls w)) query) as [e|emb'];
    [discriminate H1|].
  inversion H1; subst emb' w1. clear H1.
  unfold embedding_to_pgvector in H.
  apply bind_returns in H. destruct H as (id & w2 & H2 & H).
  inversion H; subst id w2. clear H.
  unfold SemanticCacheService.insert_row, bind in H2.
  rewrite issue_run, read_clock_run in H2.
  inversion H2; subst cache_id w'. clear H2. simpl.
  eexists. split; [reflexivity|].
  rewrite <- app_assoc.
  repeat split; reflexivity.
Qed.

Lemma ingest_returns (env : Collaborators) (item : MCPSearchResult.t) (w : World)
    (knowledge_id : Z) (w' : World) :
  VectorStoreService.ingest env item w = Return knowledge_id w' ->
  exists row,
    knowledge_base w' = knowledge_base w ++ [row] /\
    ingested item row /\
    KnowledgeRow.id row = knowledge_id /\
    semantic_cache w' = semantic_cache w /\
    semantic_cache_seq w' = semantic_cache_seq w /\
    calls w' = calls w ++ ingest_calls item.
Proof.
  unfold VectorStoreService.ingest. intro H.
  apply bind_returns in H. destruct H as (emb & w1 & H1 & H).
  rewrite get_embedding_run in H1.
  destruct (embeddings_create env (List.length (calls w)) (MCPSearchResult.content item))
    as [e|emb']; [discriminate H1|].
  inversion H1; subst emb' w1. clear H1.
  unfold embedding_to_pgvector in H.
  apply bind_returns in H. destruct H as (id & w2 & H2 & H).
  inversion H; subst id w2. clear H.
  unfold VectorStoreService.insert_row, bind in H2.
  rewrite issue_run, read_clock_run in H2.
  inversion H2; subst knowledge_id w'. clear H2. simpl.
  eexists. split; [reflexivity|].
  unfold ingest_calls. rewrite <- app_assoc.
  repeat split; reflexivity.
Qed.

Lemma ingest_each_returns (env : Collaborators) (items : list MCPSearchResult.t) :
  forall (ids : list Z) (w : World) (ids' : list Z) (w' : World),
  VectorStoreService.ingest_each env items ids w = Return ids' w' ->
  exists rows,
    knowledge_base w' = knowledge_base w ++ rows /\
    Forall2 ingested items rows /\
    ids' = ids ++ map KnowledgeRow.id rows /\
    semantic_cache w' = semantic_cache w /\
    semantic_cache_seq w' = semantic_cache_seq w /\
    calls w' = calls w ++ flat_map ingest_calls items.
Proof.
  induction items as [|item rest IH]; intros ids w ids' w' H; simpl in H.
  - inversion H; subst. exists []. simpl. rewrite !app_nil_r.
    repeat split; try reflexivity. constructor.
  - apply bind_returns in H. destruct H as (id & w1 & H1 & H).
    destruct (ingest_returns _ _ _ _ _ H1) as (row & Hkb & Hing & Hid & Hc & Hs & Hcalls).
    destruct (IH _ _ _ _ H) as (rows & Hkb' & Hall & Hids & Hc' & Hs' & Hcalls').
    exists (row :: rows).
    split; [rewrite Hkb', Hkb, <- app_assoc; reflexivity|].
    split; [constructor; assumption|].
    split; [rewrite Hids, <- app_assoc, <- Hid; reflexivity|].
    split; [congruence|]. split; [congruence|].
    rewrite Hcalls', Hcalls. simpl flat_map. rewrite <- app_assoc. reflexivity.
Qed.

(** A knowledge-tier [search] that returns has written to no table. *)
Lemma search_frame (env : Collaborators) (settings : Settings.t) (keywords : list string)
    (limit : option Z) (m : Q) (w : World) (items : list KnowledgeItem.t) (w' : World) :
  VectorStoreService.search env settings keywords limit m w = Return items w' ->
  same_tables w w'.
Proof.
  intro H. destruct keywords as [|k ks].
  - inversion H; subst. apply same_tables_refl.
  - assert (Hk : k :: ks <> []) by congruence.
    destruct (search_returns _ _ _ _ _ _ _ _ Hk H) as (emb & scored & _ & _ & _ & _ & ->).
    repeat split.
Qed.

(** What [extract] does, in full: whatever the completion call and the
    decoding of its answer do, keywords come back. *)
Lemma extract_unfold (env : Collaborators) (settings : Settings.t) (query : string)
    (w : World) :
  let model := Settings.llm_model settings in
  let system := KeywordExtractorService.SYSTEM_MESSAGE in
  let user := KeywordExtractorService.EXTRACTION_PROMPT query in
  let w1 := called [ChatCompletionsCreate model system user] w in
  let recover e :=
    match e with
    | JSONDecodeError _ => Return (KeywordExtractorService.fallback env query) w1
    | _ =>
        Return (KeywordExtractorService.fallback env query)
          (logged ("Keyword extraction failed: " ++ str_exn e) w1)
    end in
  KeywordExtractorService.extract env settings query w =
  match chat_completions_create env (List.length (calls w)) model system user with
  | inl e => recover e
  | inr choices =>
      match KeywordExtractorService.decode env choices with
      | inl e => recover e
      | inr keyword_result => Return keyword_result w1
      end
  end.
Proof.
  intros model system user w1 recover.
  unfold KeywordExtractorService.extract, try_except, bind at 1.
  unfold chat_completion, bind at 1. rewrite issue_run.
  fold model system user w1.
  destruct (chat_completions_create env (List.length (calls w)) model system user)
    as [e|choices]; simpl lift.
  - destruct e; reflexivity.
  - unfold ret at 1.
    destruct (KeywordExtractorService.decode env choices) as [e|kr]; simpl lift.
    + destruct e; reflexivity.
    + reflexivity.
Qed.

Lemma extract_returns (env : Collaborators) (settings : Settings.t) (query : string)
    (w : World) :
  exists keyword_result w',
    KeywordExtractorService.extract env settings query w = Return keyword_result w' /\
    same_tables w w'.
Proof.
  rewrite extract_unfold. cbv zeta.
  destruct (chat_completions_create env _ _ _ _) as [e|choices].
  - destruct e; eexists; eexists; (split; [reflexivity | repeat split]).
  - destruct (KeywordExtractorService.decode env choices) as [e|kr].
    + destruct e; eexists; eexists; (split; [reflexivity | repeat split]).
    + eexists. eexists. split; [reflexivity | repeat split].
Qed.

Lemma elapsed_since_returns (env : Collaborators) (start_time : Z) (w : World)
    (elapsed_ms : Q) (w' : World) :
  SearchOrchestrator.elapsed_since env start_time w = Return elapsed_ms w' ->
  w' = advance 1 w.
Proof.
  unfold SearchOrchestrator.elapsed_since, time_time, bind, ret.
  rewrite read_clock_run. intro H. inversion H. reflexivity.
Qed.

(** A cache [search] that returns leaves the knowledge base alone and
    keeps the rows of the cache, by id; a miss leaves both tables as they
    were. *)
Lemma cache_search_frame (env : Collaborators) (settings : Settings.t) (query : string)
    (w : World) (cached : option CacheEntry.t) (w' : World) :
  SemanticCacheService.search env settings query w = Return cached w' ->
  knowledge_base w' = knowledge_base w /\
  map CacheRow.id (semantic_cache w') = map CacheRow.id (semantic_cache w) /\
  (cached = None -> same_tables w w').
Proof.
  intro H.
  pose proof (cache_search_unfold env settings query w) as Hrun. cbv zeta in Hrun.
  rewrite H in Hrun.
  destruct (embeddings_create env (List.length (calls w)) query) as [e|emb];
    [discriminate Hrun|].
  destruct (SemanticCacheService.nearest_row env emb _ (semantic_cache w))
    as [[r similarity]|]; inversion Hrun; subst.
  - split; [reflexivity|]. split; [|discriminate].
    simpl. rewrite map_map. apply map_ext.
    intro x. destruct (CacheRow.id x =? CacheRow.id r); reflexivity.
  - repeat split.
Qed.

(** C5.  Whenever the pipeline returns an envelope: if the query was
    resolved at the knowledge tier or at the external tier, the cache has,
    at the return, one new entry holding the query, the response and the
    citations of the envelope, and storing it was the last call; if it was
    resolved at the external tier, every result of the combined external
    search has first been ingested into the knowledge base, in order; if
    nothing was found, or the cache answered, no entry has been added to
    either table. *)
Theorem pipeline_write_through (env : Collaborators) (settings : Settings.t)
    (request : SearchRequest.t) (w : World) (resp : SearchResponse.t) (w' : World) :
  SearchOrchestrator.search env settings request w = Return resp w' ->
  let query := SearchRequest.query request in
  exists keyword_result w_k,
  KeywordExtractorService.extract env settings query (advance 1 w)
    = Return keyword_result w_k /\
  let keywords := KeywordResult.keywords keyword_result in
  SearchResponse.query resp = query /\
  SearchResponse.keywords resp = keywords /\
  match SearchResponse.search_path resp with
  | CACHE =>
      knowledge_base w' = knowledge_base w /\
      map CacheRow.id (semantic_cache w') = map CacheRow.id (semantic_cache w)
  | VECTOR_DB =>
      knowledge_base w' = knowledge_base w /\
      exists row earlier,
        semantic_cache w' = semantic_cache w ++ [row] /\
        cached_as query (SearchResponse.response resp) (SearchResponse.sources resp) row /\
        calls w' = earlier ++ [EmbeddingsCreate query; CacheInsert query]
  | MCP =>
      exists mcp_results w0 w1 rows row earlier chat,
        MCPClientService.search_all env keywords 3 w0 = Return mcp_results w1 /\
        same_tables w w0 /\
        mcp_results <> [] /\
        knowledge_base w' = knowledge_base w ++ rows /\
        Forall2 ingested mcp_results rows /\
        SearchResponse.sources resp = map external_citation mcp_results /\
        semantic_cache w' = semantic_cache w ++ [row] /\
        cached_as query (SearchResponse.response resp) (SearchResponse.sources resp) row /\
        calls w' = earlier ++ flat_map ingest_calls mcp_results ++ chat
                   ++ [EmbeddingsCreate query; CacheInsert query]
  | NOT_FOUND =>
      same_tables w w' /\
      SearchResponse.sources resp = [] /\
      SearchResponse.response resp = SearchOrchestrator.NOT_FOUND_MESSAGE
  end.
Proof.
  intros H query.
  unfold SearchOrchestrator.search in H. fold query in H.
  apply bind_returns in H. destruct H as (start_time & w1 & H1 & H).
  unfold time_time in H1. rewrite read_clock_run in H1.
  inversion H1; subst start_time w1. clear H1.
  apply bind_returns in H. destruct H as (kr & w2 & H2 & H).
  exists kr, w2. split; [exact H2|].
  intro keywords. fold keywords in H.
  destruct (extract_returns env settings query (advance 1 w))
    as (kr' & w2' & H2' & (Hk2 & Hks2 & Hc2 & Hcs2)).
  rewrite H2 in H2'. injection H2' as <- <-.
  simpl in Hk2, Hks2, Hc2, Hcs2.
  apply bind_returns in H. destruct H as (cached & w3 & H3 & H).
  destruct (cache_search_frame _ _ _ _ _ _ H3) as (Hkb3 & Hids3 & Hmiss3).
  rewrite Hk2 in Hkb3. rewrite Hc2 in Hids3.
  destruct cached as [entry|].
  - (* tier 1 *)
    apply bind_returns in H. destruct H as (ms & w4 & H4 & H).
    apply elapsed_since_returns in H4. subst w4.
    inversion H; subst resp w'. clear H. simpl.
    repeat split; assumption.
  - destruct (Hmiss3 eq_refl) as (Hk3 & Hks3 & Hc3 & Hcs3).
    rewrite Hk2 in Hk3. rewrite Hks2 in Hks3. rewrite Hc2 in Hc3. rewrite Hcs2 in Hcs3.
    apply bind_returns in H. destruct H as (items & w4 & H4 & H).
    destruct (search_frame _ _ _ _ _ _ _ _ H4) as (Hk4 & Hks4 & Hc4 & Hcs4).
    destruct (Py.truthy items) eqn:Hitems.
    + (* tier 2 *)
      apply bind_returns in H. destruct H as ([text sources] & w5 & H5 & H).
      destruct (generate_response_returns env settings query (Some items) None w4)
        as (text' & w5' & H5' & (Hk5 & Hks5 & Hc5 & Hcs5)).
      rewrite H5 in H5'. injection H5' as Htext Hsources Hworld. subst text' w5'.
      apply bind_returns in H. destruct H as (cache_id & w6 & H6 & H).
      destruct (store_returns _ _ _ _ _ _ _ H6)
        as (row & Hc6 & Hrow & _ & _ & _ & Hk6 & _ & Hcalls6).
      apply bind_returns in H. destruct H as (ms & w7 & H7 & H).
      apply elapsed_since_returns in H7. subst w7.
      inversion H; subst resp w'. clear H. simpl.
      split; [reflexivity|]. split; [reflexivity|].
      split; [congruence|].
      exists row, (calls w5).
      split; [rewrite Hc6; congruence|].
      split; [exact Hrow | exact Hcalls6].
    + apply bind_returns in H. destruct H as (mcp_results & w5 & H5 & H).
      destruct (search_all_returns env keywords 3 w4)
        as (mcp' & w5' & H5' & (Hk5 & Hks5 & Hc5 & Hcs5)).
      rewrite H5 in H5'. injection H5' as <- <-.
      destruct (Py.truthy mcp_results) eqn:Hmcp.
      * (* tier 3 *)
        apply bind_returns in H. destruct H as (ids & w6 & H6 & H).
        destruct (ingest_each_returns _ _ _ _ _ _ H6)
          as (rows & Hk6 & Hall & _ & Hc6 & Hcs6 & Hcalls6).
        apply bind_returns in H. destruct H as ([text sources] & w7 & H7 & H).
        pose proof (generate_response_unfold env settings query None (Some mcp_results) w6)
          as Hgen.
        cbv zeta in Hgen. rewrite H7 in Hgen.
        assert (Hw7 : sources = map external_citation mcp_results /\
                      same_tables w6 w7 /\
                      exists chat, calls w7 = calls w6 ++ chat).
        { change (Py.truthy_opt None || Py.truthy_opt (Some mcp_results))
            with (Py.truthy mcp_results) in Hgen.
          rewrite Hmcp in Hgen.
          destruct (chat_completions_create env _ _ _ _) as [e|choices].
          { inversion Hgen; subst. split; [reflexivity|].
            split; [repeat split|]. eexists. reflexivity. }
          destruct (first_content_stripped choices) as [e|t];
            inversion Hgen; subst; (split; [reflexivity|]);
            (split; [repeat split|]); eexists; reflexivity. }
        destruct Hw7 as (Hsrc & (Hk7 & Hks7 & Hc7 & Hcs7) & (chat & Hcalls7)).
        apply bind_returns in H. destruct H as (cache_id & w8 & H8 & H).
        destruct (store_returns _ _ _ _ _ _ _ H8)
          as (row & Hc8 & Hrow & _ & _ & _ & Hk8 & _ & Hcalls8).
        apply bind_returns in H. destruct H as (ms & w9 & H9 & H).
        apply elapsed_since_returns in H9. subst w9.
        inversion H; subst resp w'. clear H. simpl.
        split; [reflexivity|]. split; [reflexivity|].
        exists mcp_results, w4, w5, rows, row, (calls w5), chat.
        split; [exact H5|].
        split; [repeat split; congruence|].
        split; [destruct mcp_results; [discriminate Hmcp | discriminate]|].
        split; [rewrite Hk8, Hk7, Hk6; congruence|].
        split; [exact Hall|].
        split; [exact Hsrc|].
        split; [rewrite Hc8, Hc7, Hc6; congruence|].
        split; [exact Hrow|].
        rewrite Hcalls8, Hcalls7, Hcalls6. rewrite <- !app_assoc. reflexivity.
      * (* nothing found *)
        apply bind_returns in H. destruct H as (ms & w6 & H6 & H).
        apply elapsed_since_returns in H6. subst w6.
        inversion H; subst resp w'. clear H. simpl.
        split; [reflexivity|]. split; [reflexivity|].
        split; [|split; reflexivity].
        repeat split; simpl; congruence.
Qed.

Lemma pipeline_write_through_witness :
  SearchResponse.search_path DemoRun.envelope = MCP /\
  exists row rows,
    semantic_cache DemoRun.after = [row] /\
    CacheRow.query_text row = "test model" /\
    CacheRow.response_text row = SearchResponse.response DemoRun.envelope /\
    CacheRow.sources row = Some (SearchResponse.sources DemoRun.envelope) /\
    knowledge_base DemoRun.after = rows /\
    List.length rows = 1%nat.
Proof.
  assert (Hrun : SearchOrchestrator.search Demo.hf_up Settings.default DemoRun.request
                   Demo.empty_world = Return DemoRun.envelope DemoRun.after)
    by (vm_compute; reflexivity).
  pose proof (pipeline_write_through Demo.hf_up Settings.default DemoRun.request
                Demo.empty_world DemoRun.envelope DemoRun.after Hrun) as H.
  cbv zeta in H. destruct H as (keyword_result & w_k & _ & _ & _ & H).
  change (SearchResponse.search_path DemoRun.envelope) with MCP in H. cbv iota in H.
  destruct H as (mcp_results & w0 & w1 & rows & row & earlier & chat
                 & _ & _ & _ & Hkb & Hall & _ & Hc & (Hq & Hr & Hs & _) & _).
  split; [reflexivity|].
  exists row, rows.
  split; [exact Hc|]. split; [exact Hq|]. split; [exact Hr|]. split; [exact Hs|].
  split; [exact Hkb|].
  change (knowledge_base Demo.empty_world ++ rows) with rows in Hkb.
  rewrite <- Hkb. reflexivity.
Defined.

(** ** Remarks *)

(** A new cache entry keeps the ids of the cache distinct: [cache_wf] holds
    of every world reached from an empty cache. *)
Lemma store_preserves_cache_wf (env : Collaborators) (query response : string)
    (sources : list SourceInfo.t) (w : World) (cache_id : Z) (w' : World) :
  cache_wf w ->
  SemanticCacheService.store env query response sources w = Return cache_id w' ->
  cache_wf w'.
Proof.
  intros [Hnd Hlt] H.
  destruct (store_returns _ _ _ _ _ _ _ H) as (row & Hc & _ & Hid & Hseq & Hnext & _).
  unfold cache_wf. rewrite Hc, Hnext. split.
  - rewrite map_app. simpl.
    apply NoDup_app; [exact Hnd | repeat constructor; intros [] |].
    intros i Hi [<- | []].
    apply in_map_iff in Hi. destruct Hi as (r & Hr & Hin).
    apply Hlt in Hin. lia.
  - intros r Hr. apply in_app_or in Hr. destruct Hr as [Hr | [<- | []]].
    + apply Hlt in Hr. lia.
    + lia.
Qed.

Lemma empty_world_cache_wf : cache_wf Demo.empty_world.
Proof.
  split; [constructor | intros r []].
Qed.

(** When a model of a well-formed HuggingFace answer cannot be converted,
    the search still returns and logs the failure; the results converted
    before it are kept, the models after it are not looked at. *)
Lemma search_huggingface_keeps_converted_models :
  exists result w',
    MCPClientService.search_huggingface Demo.hf_up ["test"; "model"] 3 Demo.empty_world
      = Return [result] w' /\
    MCPSearchResult.source_title result = Some "test-org/test-model" /\
    error_log w' = ["HuggingFace search failed: object has no attribute 'get'"].
Proof.
  eexists. eexists. split; [vm_compute; reflexivity|]. split; reflexivity.
Qed.

(** The ranking of the two papers of the stub library: the recent paper
    (similarity 0.85, score 0.895 to fifteen digits) stands before the
    older one (similarity 0.95, score 0.815 to fifteen digits). *)
Lemma reranking_new_beats_old :
  map KnowledgeItem.id DemoRun.ranked = [1; 2] /\
  Forall2 (fun it score =>
             (Qabs (KnowledgeItem.final_score it - score) <= 1 # 1000000000000000)%Q)
    DemoRun.ranked [895 # 1000; 815 # 1000]%Q.
Proof.
  split; [vm_compute; reflexivity|].
  repeat constructor; vm_compute; discriminate.
Qed.

(** On IEEE doubles the scoring expression is exact at the corners of the
    unit square: full similarity and full recency give 1.0, none give 0.0;
    and the recent paper of the example still outranks the older one. *)
Lemma binary64_corners :
  Binary64.final_score 1 1 = 1%float /\
  Binary64.final_score 0 0 = 0%float /\
  PrimFloat.ltb (Binary64.final_score Binary64.d0_95 Binary64.d0_5)
    (Binary64.final_score Binary64.d0_85 1) = true.
Proof.
  split; [|split]; vm_compute; reflexivity.
Qed.

(** The rounding of this development against the doubles of the proof
    assistant: the literals are the doubles they read, each the rounding
    of its decimal, and on them the scoring expression has the same value
    either way. *)
Lemma binary64_round_agrees :
  (f0_7 == Binary64.to_Q Binary64.d0_7 /\ f0_3 == Binary64.to_Q Binary64.d0_3 /\
   Settings.cache_similarity_threshold Settings.default
   == Binary64.to_Q Binary64.d0_95)%Q /\
  (Binary64.round (7 # 10) == f0_7 /\ Binary64.round (3 # 10) == f0_3 /\
   Binary64.round (95 # 100)
   == Settings.cache_similarity_threshold Settings.default)%Q /\
  Forall (fun sr : float * float =>
            (Binary64.add (Binary64.mul (Binary64.to_Q (fst sr)) f0_7)
                          (Binary64.mul (Binary64.to_Q (snd sr)) f0_3)
             == Binary64.to_Q (Binary64.final_score (fst sr) (snd sr)))%Q)
    [(Binary64.d0_95, Binary64.d0_5); (Binary64.d0_85, 1%float);
     (Binary64.d0_9, 1%float); (Binary64.d0_9, Binary64.d0_7);
     (Binary64.d0_3, Binary64.d0_5); (Binary64.d0_85, Binary64.d0_7);
     (Binary64.d0_7, Binary64.d0_7); (Binary64.d0_5, Binary64.d0_5);
     (1%float, 1%float); (0%float, 0%float);
     (0x1.5555555555555p-2%float, 1%float);
     (0x1.999999999999ap-4%float, Binary64.d0_7);
     (0x1p-1074%float, Binary64.d0_5); (0x1.fffffffffffffp-1%float, 1%float)].
Proof.
  split; [repeat split; vm_compute; reflexivity|].
  split; [repeat split; vm_compute; reflexivity|].
  repeat constructor; vm_compute; reflexivity.
Qed.

(* ================================================================== *)
(** * Further properties *)
(* ================================================================== *)

(** ** Recency and ranking *)

(** The score is a function of the age in days at the clock reading. *)
Lemma calculate_recency_score_eq (env : Collaborators) (created_at : datetime) (w : World) :
  let age := (clock_us env (ticks w) - instant created_at) / us_per_day in
  calculate_recency_score env created_at w
  = Return (if age <? 7 then f1_0 else if age <? 30 then f0_7 else f0_5) (advance 1 w).
Proof.
  intro age.
  unfold calculate_recency_score, datetime_now_utc, bind, ret.
  rewrite read_clock_run.
  assert (Hage : timedelta_days {| wall_us := clock_us env (ticks w); tzinfo := utc |}
                   (match tzinfo created_at with
                    | None => replace_tzinfo created_at utc
                    | Some _ => created_at
                    end) = age).
  { unfold timedelta_days, age. f_equal.
    destruct created_at as [wl [off|]]; unfold instant; simpl; lia. }
  rewrite Hage.
  destruct (age <? 7); [reflexivity|]. destruct (age <? 30); reflexivity.
Qed.

(** X1.  Scored at the same clock reading, an item created later never
    scores lower than one created earlier, and two timestamps that denote
    the same instant (a naive one being read as UTC) score the same. *)
Theorem recency_score_monotone (env : Collaborators) (w : World) (d1 d2 : datetime)
    (r1 r2 : Q) (w1 w2 : World) :
  instant d1 <= instant d2 ->
  calculate_recency_score env d1 w = Return r1 w1 ->
  calculate_recency_score env d2 w = Return r2 w2 ->
  (r1 <= r2)%Q /\ (instant d1 = instant d2 -> r1 = r2).
Proof.
  intros Hle H1 H2.
  rewrite calculate_recency_score_eq in H1, H2. cbv zeta in H1, H2.
  injection H1 as <- _. injection H2 as <- _.
  split.
  - assert (Hage : (clock_us env (ticks w) - instant d2) / us_per_day
                   <= (clock_us env (ticks w) - instant d1) / us_per_day).
    { apply Z.div_le_mono; [unfold us_per_day; lia | lia]. }
    destruct (Z.ltb_spec ((clock_us env (ticks w) - instant d1) / us_per_day) 7);
    destruct (Z.ltb_spec ((clock_us env (ticks w) - instant d2) / us_per_day) 7);
    destruct (Z.ltb_spec ((clock_us env (ticks w) - instant d1) / us_per_day) 30);
    destruct (Z.ltb_spec ((clock_us env (ticks w) - instant d2) / us_per_day) 30);
    try lia; unfold f1_0, f0_7, f0_5; lra.
  - intros ->. reflexivity.
Qed.

Lemma recency_score_monotone_witness : ((1 # 2) <= 1)%Q.
Proof.
  refine (proj1 (recency_score_monotone Demo.env Demo.empty_world
                   {| wall_us := 40 * us_per_day; tzinfo := utc |}
                   {| wall_us := 98 * us_per_day; tzinfo := None |}
                   (1 # 2) 1 (advance 1 Demo.empty_world) (advance 1 Demo.empty_world)
                   _ _ _)).
  - vm_compute. discriminate.
  - reflexivity.
  - reflexivity.
Defined.

Lemma sorted_earlier_later {A : Type} (R : A -> A -> Prop) (l1 l2 l3 : list A) (y x : A) :
  StronglySorted R (l1 ++ y :: l2 ++ x :: l3) -> R y x.
Proof.
  induction l1 as [|a l1 IH]; simpl; intro H.
  - inversion H as [|? ? _ Hall]; subst.
    rewrite Forall_forall in Hall. apply Hall.
    apply in_or_app. right. left. reflexivity.
  - inversion H; subst. apply IH. assumption.
Qed.

(** The list a knowledge-tier [search] returns is in descending order of
    final score. *)
Lemma search_sorted (env : Collaborators) (settings : Settings.t) (keywords : list string)
    (limit : option Z) (m : Q) (w : World) (items : list KnowledgeItem.t) (w' : World) :
  VectorStoreService.search env settings keywords limit m w = Return items w' ->
  StronglySorted (desc KnowledgeItem.final_score) items.
Proof.
  intro H. destruct keywords as [|k ks].
  - inversion H; subst. constructor.
  - assert (Hk : k :: ks <> []) by congruence.
    destruct (search_returns _ _ _ _ _ _ _ _ Hk H) as (emb & scored & _ & _ & _ & -> & _).
    apply firstn_sorted. apply sort_desc_sorted.
Qed.

(** X2.  Recency can make up for a similarity deficit of about 3/14, not
    more.  Of two returned items with similarities in [0,1], one whose
    similarity leads by more than 3/14 + 2^-49 has the strictly higher
    final score, whatever the ages, and is never listed after the other.
    (On exact numbers 3/14 would do; 2^-49 covers the rounding of the
    doubles.) *)
Theorem similarity_lead_decides_rank (env : Collaborators) (settings : Settings.t)
    (keywords : list string) (limit : option Z) (m : Q) (w : World)
    (items : list KnowledgeItem.t) (w' : World) (x y : KnowledgeItem.t) :
  VectorStoreService.search env settings keywords limit m w = Return items w' ->
  In x items -> In y items ->
  (0 <= KnowledgeItem.similarity y)%Q ->
  (KnowledgeItem.similarity x <= 1)%Q ->
  ((3 # 14) + (1 # 562949953421312)
   < KnowledgeItem.similarity x - KnowledgeItem.similarity y)%Q ->
  (KnowledgeItem.final_score y < KnowledgeItem.final_score x)%Q /\
  ~ (exists l1 l2 l3, items = l1 ++ y :: l2 ++ x :: l3).
Proof.
  intros Hrun Hx Hy Hy0 Hx1 Hlead.
  assert (Hlt : (KnowledgeItem.final_score y < KnowledgeItem.final_score x)%Q).
  { destruct (search_items_scored _ _ _ _ _ _ _ _ Hrun x Hx) as (rx & (cx & Hcx & ->) & _).
    destruct (search_items_scored _ _ _ _ _ _ _ _ Hrun y Hy) as (ry & (cy & Hcy & ->) & _).
    simpl in Hlead, Hy0, Hx1 |- *.
    assert (Hsx : (0 <= snd rx <= 1)%Q) by (split; lra).
    assert (Hsy : (0 <= snd ry <= 1)%Q) by (split; lra).
    destruct (score_bounds (snd rx) cx Hsx (is_tier_unit _ Hcx)) as (_ & Hex).
    destruct (score_bounds (snd ry) cy Hsy (is_tier_unit _ Hcy)) as (_ & Hey).
    apply Qabs_Qle_condition in Hex, Hey.
    assert (Hcx' : ((1 # 2) <= cx)%Q).
    { destruct Hcx as [-> | [-> | ->]]; unfold f1_0, f0_7, f0_5; lra. }
    pose proof (is_tier_unit _ Hcy) as Hcy'.
    lra. }
  split; [exact Hlt|].
  intros (l1 & l2 & l3 & Heq).
  pose proof (search_sorted _ _ _ _ _ _ _ _ Hrun) as Hs. rewrite Heq in Hs.
  apply sorted_earlier_later in Hs. unfold desc in Hs.
  exact (Qlt_not_le _ _ Hlt Hs).
Qed.

Lemma similarity_lead_decides_rank_witness :
  exists x y,
    In x DemoWide.ranked /\ In y DemoWide.ranked /\
    (KnowledgeItem.final_score y < KnowledgeItem.final_score x)%Q.
Proof.
  assert (Hrun : VectorStoreService.search Demo.env Settings.default DemoRun.keywords None
                   (1 # 4) Demo.library = DemoWide.outcome) by (vm_compute; reflexivity).
  exists (item_of (Demo.paper 2 "Old Transformer Paper" (5 # 100) 60, 1 - (5 # 100))%Q f0_5).
  exists (item_of (Demo.paper 3 "Cooking" (70 # 100) 1, 1 - (70 # 100))%Q f1_0).
  assert (Hx : In (item_of (Demo.paper 2 "Old Transformer Paper" (5 # 100) 60,
                            1 - (5 # 100))%Q f0_5) DemoWide.ranked)
    by (vm_compute; tauto).
  assert (Hy : In (item_of (Demo.paper 3 "Cooking" (70 # 100) 1, 1 - (70 # 100))%Q f1_0)
                 DemoWide.ranked)
    by (vm_compute; tauto).
  split; [exact Hx|]. split; [exact Hy|].
  refine (proj1 (similarity_lead_decides_rank Demo.env Settings.default DemoRun.keywords None
                   (1 # 4) Demo.library DemoWide.ranked _ _ _ Hrun Hx Hy _ _ _)).
  - vm_compute. discriminate.
  - vm_compute. discriminate.
  - vm_compute. reflexivity.
Defined.

Lemma filter_perm {A : Type} (f : A -> bool) (l l' : list A) :
  Permutation l l' -> Permutation (filter f l) (filter f l').
Proof.
  induction 1 as [|x l l' _ IH|x y l|l l' l'' _ IH1 _ IH2]; simpl.
  - apply perm_nil.
  - destruct (f x); [apply perm_skip|]; exact IH.
  - destruct (f x), (f y); try apply Permutation_refl. apply perm_swap.
  - eapply perm_trans; eassumption.
Qed.

Lemma Forall2_perm_right {A B : Type} (R : A -> B -> Prop) (l : list A) (l1 l2 : list B) :
  Forall2 R l l1 -> Permutation l1 l2 ->
  exists l', Permutation l l' /\ Forall2 R l' l2.
Proof.
  intros HF HP.
  assert (HF' : Forall2 (fun b a => R a b) l1 l).
  { clear HP. induction HF; constructor; assumption. }
  destruct (Permutation_Forall2 HP HF') as (l' & Hperm & HF2).
  exists l'. split; [exact Hperm|].
  clear - HF2. induction HF2; constructor; assumption.
Qed.

(** X3.  When the knowledge base holds at most [L] rows, [L] being the
    limit in force, a search that returns loses nothing: it returns exactly
    one item for every stored row whose similarity reaches
    [min_similarity]. *)
Theorem small_table_search_is_complete (env : Collaborators) (settings : Settings.t)
    (keywords : list string) (limit : option Z) (m : Q) (w : World)
    (items : list KnowledgeItem.t) (w' : World) :
  keywords <> [] ->
  VectorStoreService.search env settings keywords limit m w = Return items w' ->
  Z.of_nat (List.length (knowledge_base w))
    <= Py.or_int limit (Settings.vector_search_limit settings) ->
  exists emb rows,
    embeddings_create env (List.length (calls w)) (Py.join " " keywords) = inr emb /\
    Permutation rows
      (filter (fun c => Qle_bool m (snd c))
         (map (fun r => (r, VectorStoreService.row_similarity env emb r))
            (knowledge_base w))) /\
    Forall2 scored_from rows items.
Proof.
  intros Hk Hrun Hsmall.
  destruct (search_returns _ _ _ _ _ _ _ _ Hk Hrun) as (emb & scored & He & HL & Hall & Hit & _).
  set (L := Py.or_int limit (Settings.vector_search_limit settings)) in *.
  set (table := map (fun r => (r, VectorStoreService.row_similarity env emb r))
                  (knowledge_base w)) in *.
  assert (Hlen : List.length table = List.length (knowledge_base w))
    by (unfold table; apply length_map).
  assert (Hnear : VectorStoreService.nearest_rows env emb (L * 2) (knowledge_base w)
                  = sort_desc snd table).
  { unfold VectorStoreService.nearest_rows. cbv zeta. fold table.
    apply firstn_all2.
    rewrite (Permutation_length (sort_desc_perm snd table)). lia. }
  rewrite Hnear in Hall.
  assert (Hcut : items = sort_desc KnowledgeItem.final_score scored).
  { rewrite Hit. apply firstn_all2.
    rewrite (Permutation_length (sort_desc_perm _ scored)).
    rewrite <- (Forall2_length Hall).
    pose proof (filter_length_le (kept m) (sort_desc snd table)) as Hf.
    rewrite (Permutation_length (sort_desc_perm snd table)) in Hf. lia. }
  destruct (Forall2_perm_right _ _ _ _ Hall
              (Permutation_sym (sort_desc_perm KnowledgeItem.final_score scored)))
    as (rows & Hperm & Hrows).
  exists emb, rows. split; [exact He|]. split.
  - apply Permutation_sym. eapply perm_trans; [|exact Hperm].
    apply Permutation_sym.
    erewrite filter_ext.
    + apply filter_perm. apply sort_desc_perm.
    + intros c. unfold kept, Qlt_bool. rewrite negb_involutive. reflexivity.
  - rewrite Hcut. exact Hrows.
Qed.

Lemma small_table_search_is_complete_witness :
  List.length DemoWide.ranked = 3%nat.
Proof.
  assert (Hk : DemoRun.keywords <> []) by discriminate.
  assert (Hrun : VectorStoreService.search Demo.env Settings.default DemoRun.keywords None
                   (1 # 4) Demo.library = DemoWide.outcome) by (vm_compute; reflexivity).
  assert (Hsmall : Z.of_nat (List.length (knowledge_base Demo.library))
                   <= Py.or_int None (Settings.vector_search_limit Settings.default))
    by (vm_compute; discriminate).
  destruct (small_table_search_is_complete Demo.env Settings.default DemoRun.keywords None
              (1 # 4) Demo.library DemoWide.ranked _ Hk Hrun Hsmall)
    as (emb & rows & _ & Hperm & Hall).
  rewrite <- (Forall2_length Hall).
  rewrite (Permutation_length Hperm). reflexivity.
Defined.

(** ** Ingestion *)

(** What [ingest] does, in full. *)
Lemma ingest_unfold (env : Collaborators) (item : MCPSearchResult.t) (w : World) :
  VectorStoreService.ingest env item w =
  match embeddings_create env (List.length (calls w)) (MCPSearchResult.content item) with
  | inl e => Raise e (called [EmbeddingsCreate (MCPSearchResult.content item)] w)
  | inr emb =>
      Return (knowledge_base_seq w)
        (with_knowledge_row
           (knowledge_row_of env item emb (knowledge_base_seq w) (clock_us env (ticks w))) w)
  end.
Proof.
  unfold VectorStoreService.ingest. unfold bind at 1. rewrite get_embedding_run.
  destruct (embeddings_create env (List.length (calls w)) (MCPSearchResult.content item))
    as [e|emb]; [reflexivity|].
  cbv beta iota. unfold embedding_to_pgvector, bind, ret.
  unfold VectorStoreService.insert_row, bind.
  rewrite issue_run, read_clock_run.
  unfold with_knowledge_row, knowledge_row_of. simpl.
  rewrite <- app_assoc. reflexivity.
Qed.

Lemma get_count_run (w : World) :
  VectorStoreService.get_count w
  = Return (Z.of_nat (List.length (knowledge_base w))) (called [KnowledgeCount] w).
Proof. reflexivity. Qed.

(** X4.  An [ingest] that returns has added exactly one row, holding the
    fields of the item, under a fresh id: the id returned is the next value
    of the sequence, no stored row had it before, the ids stay distinct,
    and the count of the knowledge base has grown by one. *)
Theorem ingest_adds_one_fresh_row (env : Collaborators) (item : MCPSearchResult.t)
    (w : World) (knowledge_id : Z) (w' : World) :
  knowledge_wf w ->
  VectorStoreService.ingest env item w = Return knowledge_id w' ->
  exists row,
    knowledge_base w' = knowledge_base w ++ [row] /\
    ingested item row /\
    KnowledgeRow.id row = knowledge_id /\
    knowledge_id = knowledge_base_seq w /\
    ~ In knowledge_id (map KnowledgeRow.id (knowledge_base w)) /\
    knowledge_wf w' /\
    (forall n w1, VectorStoreService.get_count w = Return n w1 ->
       exists w2, VectorStoreService.get_count w' = Return (n + 1) w2).
Proof.
  intros [Hnd Hlt] H. rewrite ingest_unfold in H.
  destruct (embeddings_create env (List.length (calls w)) (MCPSearchResult.content item))
    as [e|emb]; [discriminate H|].
  injection H as <- <-.
  eexists. split; [reflexivity|].
  assert (Hfresh : ~ In (knowledge_base_seq w) (map KnowledgeRow.id (knowledge_base w))).
  { intro Hin. apply in_map_iff in Hin. destruct Hin as (r & Hr & Hin).
    apply Hlt in Hin. lia. }
  split; [repeat split|]. split; [reflexivity|]. split; [reflexivity|].
  split; [exact Hfresh|]. split.
  - unfold knowledge_wf. simpl. split.
    + rewrite map_app. simpl.
      apply NoDup_app; [exact Hnd | repeat constructor; intros [] |].
      intros i Hi [<- | []]. exact (Hfresh Hi).
    + intros r Hr. apply in_app_or in Hr. destruct Hr as [Hr | [<- | []]].
      * apply Hlt in Hr. lia.
      * simpl. lia.
  - intros n w1 Hn. rewrite get_count_run in Hn. injection Hn as <- _.
    eexists. rewrite get_count_run. simpl. rewrite length_app. simpl.
    f_equal. lia.
Qed.

Lemma ingest_adds_one_fresh_row_witness :
  exists row,
    knowledge_base (world_of (VectorStoreService.ingest Demo.env Demo.found Demo.library))
      = knowledge_base Demo.library ++ [row] /\
    KnowledgeRow.id row = 4.
Proof.
  assert (Hwf : knowledge_wf Demo.library).
  { split.
    - repeat constructor; simpl; intuition discriminate.
    - intros r [<- | [<- | [<- | []]]]; reflexivity. }
  assert (Hrun : VectorStoreService.ingest Demo.env Demo.found Demo.library
                 = Return 4 (world_of (VectorStoreService.ingest Demo.env Demo.found
                                         Demo.library)))
    by (vm_compute; reflexivity).
  destruct (ingest_adds_one_fresh_row Demo.env Demo.found Demo.library 4 _ Hwf Hrun)
    as (row & Hkb & _ & Hid & _).
  exists row. split; [exact Hkb | exact Hid].
Defined.

Lemma consecutive_S (start : Z) (n : nat) :
  consecutive start (S n) = start :: consecutive (start + 1) n.
Proof.
  unfold consecutive. simpl. f_equal; [lia|].
  rewrite <- seq_shift, map_map. apply map_ext. intro i. lia.
Qed.

(** The loop of [ingest_batch], whatever its outcome: the rows of the
    first [k] items have been written, under consecutive ids, and [k] is
    short of the number of items exactly when an ingestion raised. *)
Lemma ingest_each_outcome (env : Collaborators) (items : list MCPSearchResult.t) :
  forall (ids : list Z) (w : World),
  exists k rows,
    (k <= List.length items)%nat /\
    knowledge_base (world_of (VectorStoreService.ingest_each env items ids w))
      = knowledge_base w ++ rows /\
    Forall2 ingested (firstn k items) rows /\
    map KnowledgeRow.id rows = consecutive (knowledge_base_seq w) k /\
    knowledge_base_seq (world_of (VectorStoreService.ingest_each env items ids w))
      = knowledge_base_seq w + Z.of_nat k /\
    semantic_cache (world_of (VectorStoreService.ingest_each env items ids w))
      = semantic_cache w /\
    match VectorStoreService.ingest_each env items ids w with
    | Return ids' _ =>
        k = List.length items /\ ids' = ids ++ consecutive (knowledge_base_seq w) k
    | Raise e _ =>
        exists item,
          nth_error items k = Some item /\
          embeddings_create env (List.length (calls w) + 2 * k)
            (MCPSearchResult.content item) = inl e
    end.
Proof.
  induction items as [|item rest IH]; intros ids w.
  - exists 0%nat, []. simpl. rewrite !app_nil_r, Z.add_0_r.
    split; [lia|]. split; [reflexivity|]. split; [constructor|].
    split; [reflexivity|]. split; [reflexivity|]. split; [reflexivity|].
    split; reflexivity.
  - change (VectorStoreService.ingest_each env (item :: rest) ids w)
      with (bind (VectorStoreService.ingest env item)
              (fun knowledge_id =>
                 VectorStoreService.ingest_each env rest (ids ++ [knowledge_id])) w).
    unfold bind. rewrite ingest_unfold.
    destruct (embeddings_create env (List.length (calls w)) (MCPSearchResult.content item))
      as [e|emb] eqn:He.
    + exists 0%nat, []. simpl. rewrite !app_nil_r, Z.add_0_r.
      split; [lia|]. split; [reflexivity|]. split; [constructor|].
      split; [reflexivity|]. split; [reflexivity|]. split; [reflexivity|].
      exists item. split; [reflexivity|]. rewrite Nat.add_0_r. exact He.
    + set (row := knowledge_row_of env item emb (knowledge_base_seq w)
                    (clock_us env (ticks w))).
      destruct (IH (ids ++ [knowledge_base_seq w]) (with_knowledge_row row w))
        as (k & rows & Hk & Hkb & Hall & Hids & Hseq & Hc & Hout).
      exists (S k), (row :: rows).
      split; [simpl; lia|].
      split; [rewrite Hkb; simpl; rewrite <- app_assoc; reflexivity|].
      split; [simpl; constructor; [repeat split | exact Hall]|].
      split; [simpl; rewrite Hids, consecutive_S; reflexivity|].
      split; [rewrite Hseq; simpl; lia|].
      split; [rewrite Hc; reflexivity|].
      destruct (VectorStoreService.ingest_each env rest (ids ++ [knowledge_base_seq w])
                  (with_knowledge_row row w)) as [ids' w'|e w'].
      * destruct Hout as [-> ->]. split; [reflexivity|].
        rewrite consecutive_S, <- app_assoc. reflexivity.
      * destruct Hout as (bad & Hnth & Hbad). exists bad. split; [exact Hnth|].
        simpl in Hbad. rewrite length_app in Hbad. simpl in Hbad.
        replace (List.length (calls w) + 2 * S k)%nat
          with (List.length (calls w) + 2 + 2 * k)%nat by lia.
        exact Hbad.
Qed.




(** ** The cache *)

(** What [store] does, in full. *)
Lemma store_unfold (env : Collaborators) (query response : string)
    (sources : list SourceInfo.t) (w : World) :
  SemanticCacheService.store env query response sources w =
  match embeddings_create env (List.length (calls w)) query with
  | inl e => Raise e (called [EmbeddingsCreate query] w)
  | inr emb =>
      Return (semantic_cache_seq w)
        (with_cache_row
           (cache_row_of env query emb response sources (semantic_cache_seq w)
              (clock_us env (ticks w))) w)
  end.
Proof.
  unfold SemanticCacheService.store. unfold bind at 1. rewrite get_embedding_run.
  destruct (embeddings_create env (List.length (calls w)) query) as [e|emb]; [reflexivity|].
  cbv beta iota. unfold embedding_to_pgvector, bind, ret.
  unfold SemanticCacheService.insert_row, bind.
  rewrite issue_run, read_clock_run.
  unfold with_cache_row, cache_row_of. simpl.
  rewrite <- app_assoc. reflexivity.
Qed.

Lemma nearest_row_exists (env : Collaborators) (q : list Q) (threshold : Q)
    (table : list CacheRow.t) (r : CacheRow.t) :
  In r table ->
  (threshold <= SemanticCacheService.row_similarity env q r)%Q ->
  exists r' similarity,
    SemanticCacheService.nearest_row env q threshold table = Some (r', similarity).
Proof.
  intros Hin Hthr.
  destruct (SemanticCacheService.nearest_row env q threshold table) as [[r' s]|] eqn:E.
  - eauto.
  - exfalso. rewrite nearest_row_none in E.
    exact (Qlt_not_le _ _ (E r Hin) Hthr).
Qed.

(** X7.  Round trip of the cache.  Let [store] return for a query, let the
    embedding of the query be the same when it is searched right after,
    let a vector be at distance 0 from itself and the threshold be at most
    1.  Then the search is a hit at or above the threshold.  If no entry
    stored before reaches the threshold, the hit is the new entry: its id
    is the one [store] returned, response and citations are the stored
    ones, and its hit counter reads 1. *)
Theorem store_then_search_hits (env : Collaborators) (settings : Settings.t)
    (query response : string) (sources : list SourceInfo.t) (w : World)
    (cache_id : Z) (w1 : World) (emb : list Q) :
  SemanticCacheService.store env query response sources w = Return cache_id w1 ->
  embeddings_create env (List.length (calls w)) query = inr emb ->
  embeddings_create env (List.length (calls w1)) query = inr emb ->
  (cosine_distance env emb emb == 0)%Q ->
  (Settings.cache_similarity_threshold settings <= 1)%Q ->
  exists entry w2,
    SemanticCacheService.search env settings query w1 = Return (Some entry) w2 /\
    (Settings.cache_similarity_threshold settings <= CacheEntry.similarity entry)%Q /\
    ((forall r, In r (semantic_cache w) ->
        (SemanticCacheService.row_similarity env emb r
         < Settings.cache_similarity_threshold settings)%Q) ->
     CacheEntry.id entry = cache_id /\
     CacheEntry.query_text entry = query /\
     CacheEntry.response_text entry = response /\
     CacheEntry.sources entry = sources /\
     CacheEntry.hit_count entry = 1).
Proof.
  intros Hstore He He1 Hself Hthr.
  rewrite store_unfold, He in Hstore. injection Hstore as <- <-.
  set (row := cache_row_of env query emb response sources (semantic_cache_seq w)
                (clock_us env (ticks w))) in *.
  set (w1 := with_cache_row row w) in *.
  assert (Hsim : (Settings.cache_similarity_threshold settings
                  <= SemanticCacheService.row_similarity env emb row)%Q).
  { unfold SemanticCacheService.row_similarity. simpl. rewrite Hself. lra. }
  assert (Hin : In row (semantic_cache w1)).
  { simpl. apply in_or_app. right. left. reflexivity. }
  destruct (nearest_row_exists env emb _ _ row Hin Hsim) as (r & similarity & Hnear).
  pose proof (cache_search_unfold env settings query w1) as Hrun. cbv zeta in Hrun.
  rewrite He1, Hnear in Hrun.
  eexists. eexists. split; [exact Hrun|].
  destruct (nearest_row_some _ _ _ _ _ _ Hnear) as (Hr & Heq & Hge & _).
  split; [exact Hge|].
  intro Hold.
  assert (Hrow : r = row).
  { simpl in Hr. apply in_app_or in Hr. destruct Hr as [Hr | [<- | []]]; [|reflexivity].
    exfalso. apply Hold in Hr. rewrite <- Heq in Hr. exact (Qlt_not_le _ _ Hr Hge). }
  subst r. repeat split.
Qed.

Lemma store_then_search_hits_witness :
  exists entry w2,
    SemanticCacheService.search DemoExact.env Settings.default "What is RAG?"
      DemoExact.after_store = Return (Some entry) w2 /\
    CacheEntry.response_text entry = "Retrieval-Augmented Generation." /\
    CacheEntry.hit_count entry = 1.
Proof.
  assert (Hstore : SemanticCacheService.store DemoExact.env "What is RAG?"
                     "Retrieval-Augmented Generation." [] Demo.empty_world
                   = Return 1 DemoExact.after_store) by (vm_compute; reflexivity).
  destruct (store_then_search_hits DemoExact.env Settings.default "What is RAG?"
              "Retrieval-Augmented Generation." [] Demo.empty_world 1
              DemoExact.after_store [inject_Z 12] Hstore)
    as (entry & w2 & Hrun & _ & Hnew).
  - reflexivity.
  - reflexivity.
  - vm_compute. reflexivity.
  - vm_compute. discriminate.
  - exists entry, w2. split; [exact Hrun|].
    destruct Hnew as (_ & _ & Hr & _ & Hh); [intros r []|].
    split; [exact Hr | exact Hh].
Defined.

Lemma clear_run (w : World) :
  SemanticCacheService.clear w
  = Return (Z.of_nat (List.length (semantic_cache w))) (with_cache [] (called [CacheDelete] w)).
Proof. reflexivity. Qed.

(** X8.  [clear] returns the number of entries and leaves the cache empty,
    the knowledge base as it was.  Clearing again returns 0, and every
    search that returns after a [clear] is a miss. *)
Theorem clear_empties_cache (env : Collaborators) (settings : Settings.t) (w : World) :
  exists w1,
    SemanticCacheService.clear w
      = Return (Z.of_nat (List.length (semantic_cache w))) w1 /\
    semantic_cache w1 = [] /\
    knowledge_base w1 = knowledge_base w /\
    (exists w2, SemanticCacheService.clear w1 = Return 0 w2 /\ semantic_cache w2 = []) /\
    (forall query cached w2,
       SemanticCacheService.search env settings query w1 = Return cached w2 ->
       cached = None /\ semantic_cache w2 = []).
Proof.
  exists (with_cache [] (called [CacheDelete] w)).
  split; [apply clear_run|]. split; [reflexivity|]. split; [reflexivity|]. split.
  - eexists. split; [apply clear_run | reflexivity].
  - intros query cached w2 H.
    pose proof (cache_search_unfold env settings query
                  (with_cache [] (called [CacheDelete] w))) as Hrun.
    cbv zeta in Hrun. rewrite H in Hrun.
    destruct (embeddings_create env _ query) as [e|emb]; [discriminate Hrun|].
    simpl in Hrun. injection Hrun as -> ->. split; reflexivity.
Qed.






Lemma same_entry_refl (r : CacheRow.t) : same_entry r r.
Proof. unfold same_entry. repeat (split; [reflexivity|]). lia. Qed.

Lemma same_entry_bump (r : CacheRow.t) : same_entry r (CacheRow.bump r).
Proof. unfold same_entry. repeat (split; [reflexivity|]). simpl. lia. Qed.

Lemma Forall2_same_entry_map (f : CacheRow.t -> CacheRow.t) (table : list CacheRow.t) :
  (forall r, same_entry r (f r)) ->
  Forall2 same_entry table (map f table).
Proof.
  intro Hf. induction table as [|r table IH]; simpl; constructor; auto.
Qed.

Lemma Forall2_same_entry_ids (table table' : list CacheRow.t) :
  Forall2 same_entry table table' ->
  map CacheRow.id table' = map CacheRow.id table.
Proof.
  induction 1 as [|r r' l l' Hr _ IH]; simpl; [reflexivity|].
  rewrite IH. destruct Hr as (-> & _). reflexivity.
Qed.

(** X10.  Entries outlive searches and stores.  Whatever a cache search or
    a store does (return or raise), the cache afterwards holds the entries
    it held, in their order, each with the same id, text, embedding,
    response, sources and creation time and a hit counter that did not go
    down, followed by at most one new entry; ids stay distinct and below
    the sequence. *)
Theorem cache_entries_persist (env : Collaborators) (settings : Settings.t)
    (query response : string) (sources : list SourceInfo.t) (w w' : World) :
  cache_wf w ->
  w' = world_of (SemanticCacheService.search env settings query w) \/
  w' = world_of (SemanticCacheService.store env query response sources w) ->
  cache_wf w' /\
  exists rows new,
    semantic_cache w' = rows ++ new /\
    Forall2 same_entry (semantic_cache w) rows /\
    (List.length new <= 1)%nat /\
    knowledge_base w' = knowledge_base w.
Proof.
  intros Hwf [-> | ->].
  - pose proof (cache_search_unfold env settings query w) as Hrun. cbv zeta in Hrun.
    rewrite Hrun. clear Hrun.
    destruct (embeddings_create env (List.length (calls w)) query) as [e|emb].
    { split; [exact Hwf|]. exists (semantic_cache w), []. rewrite app_nil_r.
      split; [reflexivity|]. split; [|split; [simpl; lia | reflexivity]].
      rewrite <- (map_id (semantic_cache w)) at 2.
      apply Forall2_same_entry_map. apply same_entry_refl. }
    destruct (SemanticCacheService.nearest_row env emb _ (semantic_cache w))
      as [[r similarity]|].
    + assert (H2 : Forall2 same_entry (semantic_cache w)
                     (map (fun x => if CacheRow.id x =? CacheRow.id r
                                    then CacheRow.bump x else x) (semantic_cache w))).
      { apply Forall2_same_entry_map. intro x.
        destruct (CacheRow.id x =? CacheRow.id r);
          [apply same_entry_bump | apply same_entry_refl]. }
      split.
      * destruct Hwf as [Hnd Hlt]. unfold cache_wf. simpl.
        rewrite (Forall2_same_entry_ids _ _ H2). split; [exact Hnd|].
        intros x Hx. apply in_map_iff in Hx. destruct Hx as (y & <- & Hy).
        apply Hlt in Hy. destruct (CacheRow.id y =? CacheRow.id r); simpl; exact Hy.
      * eexists. exists []. rewrite app_nil_r. simpl.
        split; [reflexivity|]. split; [exact H2|]. split; [lia | reflexivity].
    + split; [exact Hwf|]. exists (semantic_cache w), []. rewrite app_nil_r.
      split; [reflexivity|]. split; [|split; [simpl; lia | reflexivity]].
      rewrite <- (map_id (semantic_cache w)) at 2.
      apply Forall2_same_entry_map. apply same_entry_refl.
  - rewrite store_unfold.
    destruct (embeddings_create env (List.length (calls w)) query) as [e|emb] eqn:Hemb.
    { split; [exact Hwf|]. exists (semantic_cache w), []. rewrite app_nil_r.
      split; [reflexivity|]. split; [|split; [simpl; lia | reflexivity]].
      rewrite <- (map_id (semantic_cache w)) at 2.
      apply Forall2_same_entry_map. apply same_entry_refl. }
    split.
    + apply (store_preserves_cache_wf env query response sources w (semantic_cache_seq w));
        [exact Hwf|].
      rewrite store_unfold, Hemb. reflexivity.
    + exists (semantic_cache w). eexists [_]. simpl.
      split; [reflexivity|]. split; [|split; [lia | reflexivity]].
      rewrite <- (map_id (semantic_cache w)) at 2.
      apply Forall2_same_entry_map. apply same_entry_refl.
Qed.

Lemma cache_entries_persist_witness :
  cache_wf (world_of (SemanticCacheService.search Demo.env Settings.default "What is RAG?"
                        Demo.warm_cache)).
Proof.
  assert (Hwf : cache_wf Demo.warm_cache).
  { split.
    - repeat constructor; simpl; intuition discriminate.
    - intros r [<- | [<- | []]]; reflexivity. }
  exact (proj1 (cache_entries_persist Demo.env Settings.default "What is RAG?" "RAG." []
                  Demo.warm_cache _ Hwf (or_introl eq_refl))).
Defined.

(** ** The external providers *)

Lemma slice_to_length_le {A : Type} (xs : list A) (n : Z) :
  0 <= n -> Z.of_nat (List.length (Py.slice_to xs n)) <= n.
Proof.
  intro Hn. unfold Py.slice_to.
  destruct (Z.leb_spec 0 n) as [_|Hneg]; [|lia].
  rewrite length_firstn. lia.
Qed.

Lemma slice_models_length_le (models : JSON) (max_results : Z) (head : list JSON) :
  0 <= max_results ->
  MCPClientService.slice_models models max_results = inr head ->
  Z.of_nat (List.length head) <= max_results.
Proof.
  intros Hn H. destruct models; simpl in H; try discriminate H; injection H as <-.
  - rewrite length_map. apply slice_to_length_le. exact Hn.
  - apply slice_to_length_le. exact Hn.
Qed.

Lemma model_result_source_type (env : Collaborators) (model : JSON)
    (result : MCPSearchResult.t) :
  MCPClientService.model_result env model = inr result ->
  MCPSearchResult.source_type result = HUGGINGFACE.
Proof.
  unfold MCPClientService.model_result. intro H.
  repeat (match type of H with
          | context [match ?x with _ => _ end] => destruct x eqn:?
          end; try discriminate H).
  all: injection H as <-; reflexivity.
Qed.

(** The loop appends to what it was given, at most one result per model,
    each a HuggingFace one. *)
Lemma collect_models_spec (env : Collaborators) (models : list JSON) :
  forall results,
  exists added,
    fst (MCPClientService.collect_models env models results) = results ++ added /\
    (List.length added <= List.length models)%nat /\
    Forall (fun r => MCPSearchResult.source_type r = HUGGINGFACE) added.
Proof.
  induction models as [|model rest IH]; intro results; simpl.
  - exists []. rewrite app_nil_r. split; [reflexivity|]. split; [simpl; lia | constructor].
  - destruct (MCPClientService.model_result env model) as [e|result] eqn:Hm.
    + exists []. rewrite app_nil_r. split; [reflexivity|].
      split; [simpl; lia | constructor].
    + destruct (IH (results ++ [result])) as (added & Heq & Hlen & Hall).
      exists (result :: added). rewrite Heq, <- app_assoc.
      split; [reflexivity|]. split; [simpl; lia|].
      constructor; [exact (model_result_source_type _ _ _ Hm) | exact Hall].
Qed.

(** What a HuggingFace search with keywords returns, and the one request
    it makes. *)
Lemma search_huggingface_inv (env : Collaborators) (keywords : list string)
    (max_results : Z) (w : World) (results : list MCPSearchResult.t) (w' : World) :
  0 <= max_results ->
  keywords <> [] ->
  MCPClientService.search_huggingface env keywords max_results w = Return results w' ->
  Z.of_nat (List.length results) <= max_results /\
  Forall (fun r => MCPSearchResult.source_type r = HUGGINGFACE) results /\
  same_tables w w' /\
  calls w' = calls w ++
    [HttpGet (MCPClientService.huggingface_url env (Py.join " " keywords) max_results) []].
Proof.
  intros Hn Hk H.
  rewrite (search_huggingface_unfold env keywords max_results w Hk) in H. cbv zeta in H.
  assert (Hnil : forall w0 : World,
            Return (@nil MCPSearchResult.t) w0 = Return results w' ->
            Z.of_nat (List.length results) <= max_results /\
            Forall (fun r => MCPSearchResult.source_type r = HUGGINGFACE) results).
  { intros w0 H0. injection H0 as <- _. split; [simpl; lia | constructor]. }
  destruct (httpx_get env _ _ _) as [e|response].
  { destruct (Hnil _ H) as (A & B). injection H as _ <-.
    split; [exact A|]. split; [exact B|]. split; [repeat split | reflexivity]. }
  destruct (Response.status_error response) as [e|].
  { destruct (Hnil _ H) as (A & B). injection H as _ <-.
    split; [exact A|]. split; [exact B|]. split; [repeat split | reflexivity]. }
  destruct (json_loads env (Response.text response)) as [e|models].
  { destruct (Hnil _ H) as (A & B). injection H as _ <-.
    split; [exact A|]. split; [exact B|]. split; [repeat split | reflexivity]. }
  destruct (MCPClientService.slice_models models max_results) as [e|head] eqn:Hslice.
  { destruct (Hnil _ H) as (A & B). injection H as _ <-.
    split; [exact A|]. split; [exact B|]. split; [repeat split | reflexivity]. }
  pose proof (slice_models_length_le _ _ _ Hn Hslice) as Hhead.
  destruct (collect_models_spec env head []) as (added & Heq & Hlen & Hall).
  destruct (MCPClientService.collect_models env head []) as [collected failure].
  simpl in Heq. subst collected.
  destruct failure as [e|]; injection H as <- <-.
  all: split; [lia|]; split; [exact Hall|]; split; [repeat split | reflexivity].
Qed.

(** What an arXiv search with keywords returns, and the one request it
    makes. *)
Lemma search_arxiv_inv (env : Collaborators) (keywords : list string)
    (max_results : Z) (w : World) (results : list MCPSearchResult.t) (w' : World) :
  keywords <> [] ->
  MCPClientService.search_arxiv env keywords max_results w = Return results w' ->
  Forall (fun r => MCPSearchResult.source_type r = ARXIV_PAPER) results /\
  same_tables w w' /\
  calls w' = calls w ++
    [HttpGet MCPClientService.ARXIV_API_URL
       (MCPClientService.arxiv_params keywords max_results)].
Proof.
  intros Hk H.
  rewrite (search_arxiv_unfold env keywords max_results w Hk) in H. cbv zeta in H.
  destruct (httpx_get env _ _ _) as [e|response].
  { injection H as <- <-. split; [constructor|]. split; [repeat split | reflexivity]. }
  destruct (Response.status_error response) as [e|].
  { injection H as <- <-. split; [constructor|]. split; [repeat split | reflexivity]. }
  destruct (ET_fromstring env (Response.text response)) as [e|root].
  - destruct (is_ParseError e); injection H as <- <-;
      (split; [constructor|]; split; [repeat split | reflexivity]).
  - injection H as <- <-. split; [|split; [repeat split | reflexivity]].
    apply Forall_forall. intros r Hr. apply in_map_iff in Hr.
    destruct Hr as (entry & <- & _). reflexivity.
Qed.

(** X11.  A HuggingFace search asked for at most [max_results] models
    ([0 <= max_results]) returns at most that many results, whatever the
    provider sends, all of source type [HUGGINGFACE]; it makes exactly one
    request, to the models endpoint with the keywords joined by spaces, and
    writes to no table. *)
Theorem search_huggingface_bounded (env : Collaborators) (keywords : list string)
    (max_results : Z) (w : World) (results : list MCPSearchResult.t) (w' : World) :
  0 <= max_results ->
  keywords <> [] ->
  MCPClientService.search_huggingface env keywords max_results w = Return results w' ->
  Z.of_nat (List.length results) <= max_results /\
  Forall (fun r => MCPSearchResult.source_type r = HUGGINGFACE) results /\
  same_tables w w' /\
  calls w' = calls w ++
    [HttpGet (MCPClientService.huggingface_url env (Py.join " " keywords) max_results) []].
Proof. exact (search_huggingface_inv env keywords max_results w results w'). Qed.

Lemma search_huggingface_bounded_witness :
  exists results w',
    MCPClientService.search_huggingface Demo.hf_up ["test"; "model"] 3 Demo.empty_world
      = Return results w' /\
    Z.of_nat (List.length results) <= 3 /\
    Forall (fun r => MCPSearchResult.source_type r = HUGGINGFACE) results.
Proof.
  destruct (search_huggingface_returns Demo.hf_up ["test"; "model"] 3 Demo.empty_world)
    as (results & w' & H & _).
  exists results, w'. split; [exact H|].
  assert (Hn : 0 <= 3) by lia.
  assert (Hk : ["test"; "model"] <> @nil string) by discriminate.
  destruct (search_huggingface_bounded Demo.hf_up _ 3 Demo.empty_world results w' Hn Hk H)
    as (A & B & _).
  split; [exact A | exact B].
Defined.

(** X12.  The combined search makes both requests, whether or not the
    first one fails: with keywords, [search_all] issues exactly two
    requests, arXiv's then HuggingFace's, and returns arXiv's papers
    followed by HuggingFace's models, of the latter at most
    [max_results_per_source]; it writes to no table. *)
Theorem search_all_papers_then_models (env : Collaborators) (keywords : list string)
    (max_results_per_source : Z) (w : World) (results : list MCPSearchResult.t)
    (w' : World) :
  0 <= max_results_per_source ->
  keywords <> [] ->
  MCPClientService.search_all env keywords max_results_per_source w = Return results w' ->
  exists papers models w1,
    MCPClientService.search_arxiv env keywords max_results_per_source w
      = Return papers w1 /\
    MCPClientService.search_huggingface env keywords max_results_per_source w1
      = Return models w' /\
    results = papers ++ models /\
    Forall (fun r => MCPSearchResult.source_type r = ARXIV_PAPER) papers /\
    Forall (fun r => MCPSearchResult.source_type r = HUGGINGFACE) models /\
    Z.of_nat (List.length models) <= max_results_per_source /\
    same_tables w w' /\
    calls w' = calls w ++
      [HttpGet MCPClientService.ARXIV_API_URL
         (MCPClientService.arxiv_params keywords max_results_per_source);
       HttpGet (MCPClientService.huggingface_url env (Py.join " " keywords)
                  max_results_per_source) []].
Proof.
  intros Hn Hk H.
  destruct (search_arxiv_returns env keywords max_results_per_source w)
    as (papers & w1 & H1 & _).
  destruct (search_huggingface_returns env keywords max_results_per_source w1)
    as (models & w2 & H2 & _).
  unfold MCPClientService.search_all, bind in H. rewrite H1, H2 in H.
  unfold ret in H. injection H as <- <-.
  destruct (search_arxiv_inv _ _ _ _ _ _ Hk H1) as (A1 & T1 & C1).
  destruct (search_huggingface_inv _ _ _ _ _ _ Hn Hk H2) as (L2 & A2 & T2 & C2).
  exists papers, models, w1.
  split; [exact H1|]. split; [exact H2|]. split; [reflexivity|].
  split; [exact A1|]. split; [exact A2|]. split; [exact L2|].
  split; [eapply same_tables_trans; eassumption|].
  rewrite C2, C1, <- app_assoc. reflexivity.
Qed.

Lemma search_all_papers_then_models_witness :
  exists results w',
    MCPClientService.search_all Demo.hf_up ["test"; "model"] 3 Demo.empty_world
      = Return results w' /\
    List.length (calls w') = 2%nat.
Proof.
  destruct (search_all_returns Demo.hf_up ["test"; "model"] 3 Demo.empty_world)
    as (results & w' & H & _).
  exists results, w'. split; [exact H|].
  assert (Hn : 0 <= 3) by lia.
  assert (Hk : ["test"; "model"] <> @nil string) by discriminate.
  destruct (search_all_papers_then_models Demo.hf_up _ 3 Demo.empty_world results w' Hn Hk H)
    as (papers & models & w1 & _ & _ & _ & _ & _ & _ & _ & C).
  rewrite C. reflexivity.
Defined.

(** ** The keyword extractor *)

Lemma fallback_keywords (env : Collaborators) (query : string) :
  let keyword_result := KeywordExtractorService.fallback env query in
  (List.length (KeywordResult.keywords keyword_result) <= 5)%nat /\
  Forall (fun k => (2 < Py.len k)%nat) (KeywordResult.keywords keyword_result) /\
  KeywordResult.source_type_hint keyword_result = None.
Proof.
  unfold KeywordExtractorService.fallback.
  cbn [KeywordResult.keywords KeywordResult.source_type_hint].
  split; [|split; [|reflexivity]].
  - rewrite length_firstn. lia.
  - apply Forall_forall. intros k Hk. apply In_firstn in Hk.
    apply filter_In in Hk. destruct Hk as (_ & Hk).
    apply Nat.ltb_lt. exact Hk.
Qed.

(** X13.  Extraction always returns, after exactly one completion call and
    without touching a table.  Its result is either what the answer
    decodes to (nothing is logged then), or the fallback: at most five
    words of the lower-cased query, each longer than two characters, and no
    source hint. *)
Theorem extract_answer_or_fallback (env : Collaborators) (settings : Settings.t)
    (query : string) (w : World) :
  exists keyword_result w',
    KeywordExtractorService.extract env settings query w = Return keyword_result w' /\
    same_tables w w' /\
    calls w' = calls w ++
      [ChatCompletionsCreate (Settings.llm_model settings)
         KeywordExtractorService.SYSTEM_MESSAGE
         (KeywordExtractorService.EXTRACTION_PROMPT query)] /\
    ((exists choices,
        chat_completions_create env (List.length (calls w)) (Settings.llm_model settings)
          KeywordExtractorService.SYSTEM_MESSAGE
          (KeywordExtractorService.EXTRACTION_PROMPT query) = inr choices /\
        KeywordExtractorService.decode env choices = inr keyword_result /\
        error_log w' = error_log w)
     \/
     (keyword_result = KeywordExtractorService.fallback env query /\
      (List.length (KeywordResult.keywords keyword_result) <= 5)%nat /\
      Forall (fun k => (2 < Py.len k)%nat) (KeywordResult.keywords keyword_result) /\
      KeywordResult.source_type_hint keyword_result = None)).
Proof.
  rewrite extract_unfold. cbv zeta.
  pose proof (fallback_keywords env query) as Hfb. cbv zeta in Hfb.
  destruct (chat_completions_create env _ _ _ _) as [e|choices] eqn:Hchat.
  - destruct e; eexists; eexists;
      (split; [reflexivity|]; split; [repeat split|]; split; [reflexivity|];
       right; split; [reflexivity | exact Hfb]).
  - destruct (KeywordExtractorService.decode env choices) as [e|kr] eqn:Hdecode.
    + destruct e; eexists; eexists;
        (split; [reflexivity|]; split; [repeat split|]; split; [reflexivity|];
         right; split; [reflexivity | exact Hfb]).
    + eexists. eexists. split; [reflexivity|]. split; [repeat split|].
      split; [reflexivity|].
      left. exists choices. split; [reflexivity|]. split; [exact Hdecode | reflexivity].
Qed.

Lemma all_strings_map_JStr (ks : list string) :
  KeywordExtractorService.all_strings (map JStr ks) = Some ks.
Proof.
  induction ks as [|k ks IH]; simpl; [reflexivity|]. rewrite IH. reflexivity.
Qed.

Lemma type_map_get_hint (s : string) (hint : option SourceType) :
  (if py_truthy (JStr s) then KeywordExtractorService.type_map_get (JStr s) else inr None)
    = inr hint ->
  forall t, hint = Some t <-> t <> MANUAL /\ s = SourceType_value t.
Proof.
  simpl. intros H t.
  destruct s as [|c s'].
  { simpl in H. injection H as <-. split; [discriminate|].
    intros (Hm & Hs). destruct t; discriminate Hs. }
  simpl Py.truthy_str in H. cbv iota in H.
  destruct (String.eqb_spec (String c s') "expert_insight") as [E1|N1].
  { injection H as <-. rewrite E1. split.
    - intro Ht. injection Ht as <-. split; [discriminate | reflexivity].
    - intros (Hm & Hs). destruct t; try discriminate Hs; congruence. }
  destruct (String.eqb_spec (String c s') "arxiv_paper") as [E2|N2].
  { injection H as <-. rewrite E2. split.
    - intro Ht. injection Ht as <-. split; [discriminate | reflexivity].
    - intros (Hm & Hs). destruct t; try discriminate Hs; congruence. }
  destruct (String.eqb_spec (String c s') "huggingface") as [E3|N3].
  { injection H as <-. rewrite E3. split.
    - intro Ht. injection Ht as <-. split; [discriminate | reflexivity].
    - intros (Hm & Hs). destruct t; try discriminate Hs; congruence. }
  injection H as <-. split; [discriminate|].
  intros (Hm & Hs). destruct t; simpl in Hs; congruence.
Qed.

(** X14.  A well-formed answer is read as it is.  When the completion's
    first message, stripped, is not fenced and decodes to an object whose
    [keywords] is a list of strings and whose [source_type_hint] is
    missing, null or a string, extraction returns exactly those keywords,
    in their order, and logs nothing; the hint is a source type exactly
    when the string is the value of [EXPERT_INSIGHT], [ARXIV_PAPER] or
    [HUGGINGFACE], never [MANUAL]. *)
Theorem extract_reads_keywords_and_hint (env : Collaborators) (settings : Settings.t)
    (query : string) (w : World) (content : string) (rest : list (option string))
    (fields : list (string * JSON)) (ks : list string) :
  let model := Settings.llm_model settings in
  let system := KeywordExtractorService.SYSTEM_MESSAGE in
  let user := KeywordExtractorService.EXTRACTION_PROMPT query in
  chat_completions_create env (List.length (calls w)) model system user
    = inr (Some content :: rest) ->
  Py.startswith (Py.strip content) "```" = false ->
  json_loads env (Py.strip content) = inr (JObj fields) ->
  dict_lookup fields "keywords" = Some (JArr (map JStr ks)) ->
  (forall v, dict_lookup fields "source_type_hint" = Some v ->
             v = JNull \/ exists s, v = JStr s) ->
  exists hint,
    KeywordExtractorService.extract env settings query w
      = Return {| KeywordResult.keywords := ks; KeywordResult.source_type_hint := hint |}
          (called [ChatCompletionsCreate model system user] w) /\
    (forall t,
       hint = Some t <->
       t <> MANUAL /\
       dict_lookup fields "source_type_hint" = Some (JStr (SourceType_value t))).
Proof.
  intros model system user Hchat Hfence Hjson Hkw Hhint.
  pose proof (extract_unfold env settings query w) as Hrun. cbv zeta in Hrun.
  fold model system user in Hrun. rewrite Hchat in Hrun.
  unfold KeywordExtractorService.decode in Hrun.
  simpl first_content_stripped in Hrun. unfold and_then at 1 in Hrun.
  unfold KeywordExtractorService.unfence in Hrun. rewrite Hfence in Hrun.
  unfold and_then at 1 in Hrun. rewrite Hjson in Hrun.
  unfold and_then at 1 in Hrun. unfold py_get in Hrun. rewrite Hkw in Hrun.
  simpl Py.or_else in Hrun. unfold and_then at 1 2 in Hrun.
  rewrite Hrun. clear Hrun.
  destruct (dict_lookup fields "source_type_hint") as [v|] eqn:Hv.
  - destruct (Hhint v eq_refl) as [-> | (s & ->)].
    + exists None. simpl. rewrite all_strings_map_JStr. split; [reflexivity|].
      intro t. split; [discriminate|]. intros (_ & Habs). discriminate Habs.
    + simpl Py.or_else.
      destruct (if py_truthy (JStr s)
                then KeywordExtractorService.type_map_get (JStr s) else inr None)
        as [e|hint] eqn:Hh.
      { exfalso. simpl in Hh. destruct (Py.truthy_str s); [|discriminate Hh].
        repeat (match type of Hh with
                | context [if ?b then _ else _] => destruct b
                end; try discriminate Hh). }
      exists hint. unfold and_then. simpl KeywordExtractorService.validate_keywords.
      rewrite all_strings_map_JStr. split; [reflexivity|].
      intro t. rewrite (type_map_get_hint s hint Hh t).
      split; intros (Hm & Hs); (split; [exact Hm|]); congruence.
  - exists None. simpl. rewrite all_strings_map_JStr. split; [reflexivity|].
    intro t. split; [discriminate|]. intros (_ & Habs). discriminate Habs.
Qed.

Lemma extract_reads_keywords_and_hint_witness :
  exists w',
    KeywordExtractorService.extract DemoExtract.env Settings.default "What is RAG?"
      Demo.empty_world
    = Return {| KeywordResult.keywords := ["rag"; "retrieval"];
                KeywordResult.source_type_hint := Some ARXIV_PAPER |} w'.
Proof.
  assert (Hhint : forall v,
            dict_lookup [ ("keywords", JArr [JStr "rag"; JStr "retrieval"]);
                          ("source_type_hint", JStr "arxiv_paper") ] "source_type_hint"
              = Some v -> v = JNull \/ exists s, v = JStr s).
  { intros v Hv. vm_compute in Hv. injection Hv as <-. right. eexists. reflexivity. }
  destruct (extract_reads_keywords_and_hint DemoExtract.env Settings.default "What is RAG?"
              Demo.empty_world DemoExtract.answer_text [] _ ["rag"; "retrieval"]
              eq_refl eq_refl eq_refl eq_refl Hhint) as (hint & Hrun & Hiff).
  assert (Hh : hint = Some ARXIV_PAPER).
  { apply Hiff. split; [discriminate | reflexivity]. }
  rewrite Hh in Hrun. eexists. exact Hrun.
Defined.

(** ** The response synthesizer, further *)

Lemma enumerate_cons {A : Type} (x : A) (xs : list A) (start : nat) :
  Py.enumerate (x :: xs) start = (start, x) :: Py.enumerate xs (S start).
Proof. reflexivity. Qed.

Lemma enumerate_app {A : Type} (l1 l2 : list A) :
  forall start,
  Py.enumerate (l1 ++ l2) start
  = Py.enumerate l1 start ++ Py.enumerate l2 (start + List.length l1).
Proof.
  induction l1 as [|x xs IH]; intro start.
  - simpl. rewrite Nat.add_0_r. reflexivity.
  - change ((x :: xs) ++ l2) with (x :: (xs ++ l2)).
    rewrite !enumerate_cons, IH.
    change (List.length (x :: xs)) with (S (List.length xs)).
    replace (start + S (List.length xs))%nat with (S start + List.length xs)%nat by lia.
    reflexivity.
Qed.

Lemma enumerate_length {A : Type} (l : list A) (start : nat) :
  List.length (Py.enumerate l start) = List.length l.
Proof.
  unfold Py.enumerate. rewrite length_combine, length_seq. lia.
Qed.

Lemma fold_knowledge_items_numbered (l : list KnowledgeItem.t) :
  forall (start : nat) (parts : list string) (sources : list SourceInfo.t),
  fold_left LLMResponderService.add_knowledge_item (Py.enumerate l start) (parts, sources)
  = (parts ++ map numbered_part
               (Py.enumerate
                  (map (fun item => (KnowledgeItem.source_type item,
                                     KnowledgeItem.content item)) l) start),
     sources ++ map knowledge_citation l).
Proof.
  induction l as [|x xs IH]; intros start parts sources.
  - simpl. rewrite !app_nil_r. reflexivity.
  - simpl map. rewrite !enumerate_cons. simpl fold_left.
    rewrite IH. simpl map. rewrite <- !app_assoc. reflexivity.
Qed.

Lemma fold_mcp_results_numbered (l : list MCPSearchResult.t) :
  forall (start : nat) (parts : list string) (sources : list SourceInfo.t),
  fold_left LLMResponderService.add_mcp_result (Py.enumerate l start) (parts, sources)
  = (parts ++ map numbered_part
               (Py.enumerate
                  (map (fun result => (MCPSearchResult.source_type result,
                                       MCPSearchResult.content result)) l) start),
     sources ++ map external_citation l).
Proof.
  induction l as [|x xs IH]; intros start parts sources.
  - simpl. rewrite !app_nil_r. reflexivity.
  - simpl map. rewrite !enumerate_cons. simpl fold_left.
    rewrite IH. simpl map. rewrite <- !app_assoc. reflexivity.
Qed.

(** X15.  The context numbers the documents 1, 2, ... without a gap or a
    restart: knowledge items first, the external results continuing where
    they stop.  The k-th citation is that of the k-th document, so
    [Source k] in the prompt and entry k of the returned sources are the
    same document. *)
Theorem context_numbering_is_continuous (knowledge_items : option (list KnowledgeItem.t))
    (mcp_results : option (list MCPSearchResult.t)) :
  LLMResponderService.build_context knowledge_items mcp_results
  = (map numbered_part (Py.enumerate (documents knowledge_items mcp_results) 1),
     citations knowledge_items mcp_results) /\
  map SourceInfo.source_type (citations knowledge_items mcp_results)
  = map fst (documents knowledge_items mcp_results) /\
  forall k part,
    nth_error (fst (LLMResponderService.build_context knowledge_items mcp_results)) k
      = Some part ->
    exists source_type content,
      nth_error (documents knowledge_items mcp_results) k = Some (source_type, content) /\
      part = LLMResponderService.context_part (S k) source_type content.
Proof.
  assert (Hbuild :
    LLMResponderService.build_context knowledge_items mcp_results
    = (map numbered_part (Py.enumerate (documents knowledge_items mcp_results) 1),
       citations knowledge_items mcp_results)).
  { unfold LLMResponderService.build_context, documents, citations.
    set (ks := map (fun item => (KnowledgeItem.source_type item, KnowledgeItem.content item))
                 (Py.or_else knowledge_items [])).
    assert (H1 :
      (if Py.truthy_opt knowledge_items
       then fold_left LLMResponderService.add_knowledge_item
              (Py.enumerate (Py.or_else knowledge_items []) 1) ([], [])
       else ([], []))
      = (map numbered_part (Py.enumerate ks 1),
         map knowledge_citation (Py.or_else knowledge_items []))).
    { destruct knowledge_items as [[|x xs]|]; simpl Py.truthy_opt; cbv iota;
        try reflexivity.
      rewrite fold_knowledge_items_numbered. reflexivity. }
    cbv zeta. rewrite H1. simpl fst.
    rewrite enumerate_app, map_app.
    replace (1 + List.length ks)%nat
      with (List.length (map numbered_part (Py.enumerate ks 1)) + 1)%nat
      by (rewrite length_map, enumerate_length; lia).
    destruct mcp_results as [[|y ys]|]; simpl Py.truthy_opt; cbv iota.
    - simpl. rewrite !app_nil_r. reflexivity.
    - rewrite fold_mcp_results_numbered. reflexivity.
    - simpl. rewrite !app_nil_r. reflexivity. }
  split; [exact Hbuild|]. split.
  - unfold citations, documents. rewrite !map_app, !map_map. reflexivity.
  - rewrite Hbuild. simpl fst.
    generalize (documents knowledge_items mcp_results). intros docs k part.
    assert (Hgen : forall (l : list (SourceType * string)) start k part,
              nth_error (map numbered_part (Py.enumerate l start)) k = Some part ->
              exists source_type content,
                nth_error l k = Some (source_type, content) /\
                part = LLMResponderService.context_part (start + k) source_type content).
    { clear. induction l as [|[t c] l IH]; intros start k part H.
      - destruct k; discriminate H.
      - rewrite enumerate_cons in H. destruct k as [|k]; simpl in H.
        + injection H as <-. exists t, c. rewrite Nat.add_0_r. split; reflexivity.
        + destruct (IH _ _ _ H) as (t' & c' & Hn & ->).
          exists t', c'. split; [exact Hn|].
          replace (S start + k)%nat with (start + S k)%nat by lia. reflexivity. }
    intro H. exact (Hgen docs 1%nat k part H).
Qed.

(** X16.  The text generator is called exactly when there is a document.
    [generate_response] always returns, with one citation per document in
    order.  Without a document (both sets missing or empty) it returns the
    fixed not-found message and no citation, and the world is untouched: no
    completion is requested, nothing is logged.  With one, it requests
    exactly one completion, on the prompt built from the documents. *)
Theorem generate_response_calls_llm_iff_documents (env : Collaborators)
    (settings : Settings.t) (query : string)
    (knowledge_items : option (list KnowledgeItem.t))
    (mcp_results : option (list MCPSearchResult.t)) (w : World) :
  exists text w',
    LLMResponderService.generate_response env settings query knowledge_items mcp_results w
      = Return (text, citations knowledge_items mcp_results) w' /\
    (documents knowledge_items mcp_results = [] ->
     text = LLMResponderService._not_found_response query /\
     citations knowledge_items mcp_results = [] /\
     w' = w) /\
    (documents knowledge_items mcp_results <> [] ->
     same_tables w w' /\
     calls w' = calls w ++
       [ChatCompletionsCreate (Settings.llm_model settings)
          LLMResponderService.SYSTEM_MESSAGE
          (user_prompt query knowledge_items mcp_results)]).
Proof.
  pose proof (generate_response_unfold env settings query knowledge_items mcp_results w)
    as H.
  cbv zeta in H. rewrite H. clear H.
  assert (Hdocs : Py.truthy_opt knowledge_items || Py.truthy_opt mcp_results = false <->
                  documents knowledge_items mcp_results = []).
  { unfold documents.
    destruct knowledge_items as [[|x xs]|], mcp_results as [[|y ys]|]; simpl;
      split; intro; try reflexivity; discriminate. }
  destruct (Py.truthy_opt knowledge_items || Py.truthy_opt mcp_results) eqn:Htruthy.
  - assert (Hne : documents knowledge_items mcp_results <> []).
    { intro Habs. apply Hdocs in Habs. discriminate Habs. }
    destruct (chat_completions_create env _ _ _ _) as [e|choices].
    { eexists. eexists. split; [reflexivity|]. split; [intro; contradiction|].
      intros _. split; [repeat split | reflexivity]. }
    destruct (first_content_stripped choices) as [e|text];
      (eexists; eexists; split; [reflexivity|]; split; [intro; contradiction|];
       intros _; split; [repeat split | reflexivity]).
  - assert (Hnil : documents knowledge_items mcp_results = []) by (apply Hdocs; reflexivity).
    assert (Hcit : citations knowledge_items mcp_results = []).
    { unfold documents in Hnil. unfold citations.
      apply app_eq_nil in Hnil. destruct Hnil as (Hk & Hm).
      apply map_eq_nil in Hk, Hm. rewrite Hk, Hm. reflexivity. }
    rewrite Hcit. eexists. eexists. split; [reflexivity|]. split.
    + intros _. split; [reflexivity|]. split; reflexivity.
    + intro Hne. contradiction.
Qed.

(** ** The pipeline *)

Lemma bind_run {A B : Type} (c : M A) (k : A -> M B) (w : World) (a : A) (w1 : World) :
  c w = Return a w1 -> bind c k w = k a w1.
Proof. intro H. unfold bind. rewrite H. reflexivity. Qed.

Lemma bind_raise {A B : Type} (c : M A) (k : A -> M B) (w : World) (e : exn) (w1 : World) :
  c w = Raise e w1 -> bind c k w = Raise e w1.
Proof. intro H. unfold bind. rewrite H. reflexivity. Qed.

(** Extraction makes one call, reads no clock and writes to no table. *)
Lemma extract_frame (env : Collaborators) (settings : Settings.t) (query : string)
    (w : World) (keyword_result : KeywordResult.t) (w' : World) :
  KeywordExtractorService.extract env settings query w = Return keyword_result w' ->
  same_tables w w' /\
  ticks w' = ticks w /\
  calls w' = calls w ++
    [ChatCompletionsCreate (Settings.llm_model settings)
       KeywordExtractorService.SYSTEM_MESSAGE
       (KeywordExtractorService.EXTRACTION_PROMPT query)].
Proof.
  rewrite extract_unfold. cbv zeta. intro H.
  destruct (chat_completions_create env _ _ _ _) as [e|choices].
  - destruct e; injection H as _ <-; (split; [repeat split|]; split; reflexivity).
  - destruct (KeywordExtractorService.decode env choices) as [e|kr].
    + destruct e; injection H as _ <-; (split; [repeat split|]; split; reflexivity).
    + injection H as _ <-. split; [repeat split|]. split; reflexivity.
Qed.

(** The pipeline up to the cache lookup: the clock is read, the keywords
    are extracted, the cache is searched. *)
Lemma pipeline_prefix (env : Collaborators) (settings : Settings.t)
    (request : SearchRequest.t) (w : World) :
  exists keyword_result w2,
    KeywordExtractorService.extract env settings (SearchRequest.query request) (advance 1 w)
      = Return keyword_result w2 /\
    same_tables w w2 /\
    ticks w2 = S (ticks w) /\
    calls w2 = calls w ++
      [ChatCompletionsCreate (Settings.llm_model settings)
         KeywordExtractorService.SYSTEM_MESSAGE
         (KeywordExtractorService.EXTRACTION_PROMPT (SearchRequest.query request))] /\
    SearchOrchestrator.search env settings request w
    = bind (SemanticCacheService.search env settings (SearchRequest.query request))
        (fun cached =>
           match cached with
           | Some cached =>
               elapsed_ms <- SearchOrchestrator.elapsed_since env (clock_us env (ticks w)) ;;
               ret {| SearchResponse.query := SearchRequest.query request;
                      SearchResponse.response := CacheEntry.response_text cached;
                      SearchResponse.sources := CacheEntry.sources cached;
                      SearchResponse.search_path := CACHE;
                      SearchResponse.processing_time_ms := elapsed_ms;
                      SearchResponse.keywords := KeywordResult.keywords keyword_result |}
           | None =>
               bind (VectorStoreService.search env settings
                       (KeywordResult.keywords keyword_result) None f0_5)
                 (fun vector_results =>
                    if Py.truthy vector_results then
                      bind (LLMResponderService.generate_response env settings
                              (SearchRequest.query request) (Some vector_results) None)
                        (fun '(response_text, sources) =>
                           _ <- SemanticCacheService.store env (SearchRequest.query request)
                                  response_text sources ;;
                           elapsed_ms <- SearchOrchestrator.elapsed_since env
                                           (clock_us env (ticks w)) ;;
                           ret {| SearchResponse.query := SearchRequest.query request;
                                  SearchResponse.response := response_text;
                                  SearchResponse.sources := sources;
                                  SearchResponse.search_path := VECTOR_DB;
                                  SearchResponse.processing_time_ms := elapsed_ms;
                                  SearchResponse.keywords :=
                                    KeywordResult.keywords keyword_result |})
                    else
                      bind (MCPClientService.search_all env
                              (KeywordResult.keywords keyword_result) 3)
                        (fun mcp_results =>
                           if Py.truthy mcp_results then
                             _ <- VectorStoreService.ingest_batch env mcp_results ;;
                             bind (LLMResponderService.generate_response env settings
                                     (SearchRequest.query request) None (Some mcp_results))
                               (fun '(response_text, sources) =>
                                  _ <- SemanticCacheService.store env
                                         (SearchRequest.query request) response_text sources ;;
                                  elapsed_ms <- SearchOrchestrator.elapsed_since env
                                                  (clock_us env (ticks w)) ;;
                                  ret {| SearchResponse.query := SearchRequest.query request;
                                         SearchResponse.response := response_text;
                                         SearchResponse.sources := sources;
                                         SearchResponse.search_path := MCP;
                                         SearchResponse.processing_time_ms := elapsed_ms;
                                         SearchResponse.keywords :=
                                           KeywordResult.keywords keyword_result |})
                           else
                             elapsed_ms <- SearchOrchestrator.elapsed_since env
                                             (clock_us env (ticks w)) ;;
                             ret {| SearchResponse.query := SearchRequest.query request;
                                    SearchResponse.response :=
                                      SearchOrchestrator.NOT_FOUND_MESSAGE;
                                    SearchResponse.sources := [];
                                    SearchResponse.search_path := NOT_FOUND;
                                    SearchResponse.processing_time_ms := elapsed_ms;
                                    SearchResponse.keywords :=
                                      KeywordResult.keywords keyword_result |}))
           end) w2.
Proof.
  destruct (extract_returns env settings (SearchRequest.query request) (advance 1 w))
    as (kr & w2 & H2 & _).
  destruct (extract_frame _ _ _ _ _ _ H2) as (Htab & Hticks & Hcalls).
  exists kr, w2. split; [exact H2|]. split; [exact Htab|].
  split; [exact Hticks|]. split; [exact Hcalls|].
  unfold SearchOrchestrator.search.
  rewrite (bind_run _ _ _ _ _ (read_clock_run env w)).
  rewrite (bind_run _ _ _ _ _ H2). reflexivity.
Qed.

Lemma elapsed_since_run (env : Collaborators) (start_time : Z) (w : World) :
  SearchOrchestrator.elapsed_since env start_time w
  = Return (inject_Z (clock_us env (ticks w) - start_time) / 1000)%Q (advance 1 w).
Proof. reflexivity. Qed.

(** X17.  A cached answer wins.  When the cache holds an entry that
    reaches the threshold for the embedding of the query, the pipeline
    answers from the cache: the envelope carries the response and the
    citations of the most similar entry, the knowledge base is neither
    queried nor written, no external request is made and no response is
    synthesized: four calls are made in all. *)
Theorem cached_answer_short_circuits_pipeline (env : Collaborators) (settings : Settings.t)
    (request : SearchRequest.t) (w : World) (emb : list Q) (r : CacheRow.t) :
  let query := SearchRequest.query request in
  let threshold := Settings.cache_similarity_threshold settings in
  embeddings_create env (S (List.length (calls w))) query = inr emb ->
  In r (semantic_cache w) ->
  (threshold <= SemanticCacheService.row_similarity env emb r)%Q ->
  exists resp w' best,
    SearchOrchestrator.search env settings request w = Return resp w' /\
    SearchResponse.search_path resp = CACHE /\
    In best (semantic_cache w) /\
    (forall x, In x (semantic_cache w) ->
       (SemanticCacheService.row_similarity env emb x
        <= SemanticCacheService.row_similarity env emb best)%Q) /\
    SearchResponse.response resp = CacheRow.response_text best /\
    SearchResponse.sources resp = Py.or_else (CacheRow.sources best) [] /\
    knowledge_base w' = knowledge_base w /\
    calls w' = calls w ++
      [ChatCompletionsCreate (Settings.llm_model settings)
         KeywordExtractorService.SYSTEM_MESSAGE
         (KeywordExtractorService.EXTRACTION_PROMPT query);
       EmbeddingsCreate query;
       CacheSelect emb threshold;
       CacheUpdate (CacheRow.id best)].
Proof.
  intros query threshold Hemb Hin Hthr.
  destruct (pipeline_prefix env settings request w)
    as (kr & w2 & _ & (Hkb & _ & Hc & _) & _ & Hcalls & Hrun).
  fold query in Hcalls, Hrun.
  assert (Hlen : List.length (calls w2) = S (List.length (calls w))).
  { rewrite Hcalls, length_app. simpl. lia. }
  destruct (nearest_row_exists env emb threshold (semantic_cache w) r Hin Hthr)
    as (best & similarity & Hnear).
  destruct (nearest_row_some _ _ _ _ _ _ Hnear) as (Hbest & -> & _ & Hmax).
  pose proof (cache_search_unfold env settings query w2) as Hcache. cbv zeta in Hcache.
  fold threshold in Hcache. rewrite Hlen, Hemb, Hc, Hnear in Hcache.
  rewrite (bind_run _ _ _ _ _ Hcache) in Hrun.
  rewrite (bind_run _ _ _ _ _ (elapsed_since_run env _ _)) in Hrun.
  eexists. eexists. exists best.
  split; [exact Hrun|]. split; [reflexivity|]. split; [exact Hbest|].
  split; [exact Hmax|]. split; [reflexivity|]. split; [reflexivity|].
  split; [exact Hkb|].
  simpl. rewrite Hcalls, <- app_assoc. reflexivity.
Qed.

Lemma cached_answer_short_circuits_pipeline_witness :
  exists resp w',
    SearchOrchestrator.search Demo.env Settings.default
      {| SearchRequest.query := "What is RAG?" |} Demo.warm_cache = Return resp w' /\
    SearchResponse.search_path resp = CACHE /\
    List.length (calls w') = 4%nat.
Proof.
  assert (Hin : In (Demo.answer 2 "What is RAG?"
                      "RAG stands for Retrieval-Augmented Generation." (2 # 100) 5)
                  (semantic_cache Demo.warm_cache)) by (right; left; reflexivity).
  assert (Hthr : (Settings.cache_similarity_threshold Settings.default
                  <= SemanticCacheService.row_similarity Demo.env [12%Q]
                       (Demo.answer 2 "What is RAG?"
                          "RAG stands for Retrieval-Augmented Generation." (2 # 100) 5))%Q)
    by (vm_compute; discriminate).
  destruct (cached_answer_short_circuits_pipeline Demo.env Settings.default
              {| SearchRequest.query := "What is RAG?" |} Demo.warm_cache [12%Q] _
              eq_refl Hin Hthr)
    as (resp & w' & best & Hrun & Hpath & _ & _ & _ & _ & _ & Hcalls).
  exists resp, w'. split; [exact Hrun|]. split; [exact Hpath|].
  rewrite Hcalls. reflexivity.
Defined.

(** X18.  A failure of the embedding service is not absorbed.  When the
    embedding of the query cannot be computed for the cache lookup, the
    pipeline raises that exception to its caller, unlike a failure of the
    extraction; by then it has made two calls and written to no table. *)
Theorem pipeline_raises_when_query_embedding_fails (env : Collaborators)
    (settings : Settings.t) (request : SearchRequest.t) (w : World) (e : exn) :
  let query := SearchRequest.query request in
  embeddings_create env (S (List.length (calls w))) query = inl e ->
  exists w',
    SearchOrchestrator.search env settings request w = Raise e w' /\
    same_tables w w' /\
    calls w' = calls w ++
      [ChatCompletionsCreate (Settings.llm_model settings)
         KeywordExtractorService.SYSTEM_MESSAGE
         (KeywordExtractorService.EXTRACTION_PROMPT query);
       EmbeddingsCreate query].
Proof.
  intros query Hemb.
  destruct (pipeline_prefix env settings request w)
    as (kr & w2 & _ & Htab & _ & Hcalls & Hrun).
  fold query in Hcalls, Hrun.
  assert (Hlen : List.length (calls w2) = S (List.length (calls w))).
  { rewrite Hcalls, length_app. simpl. lia. }
  pose proof (cache_search_unfold env settings query w2) as Hcache. cbv zeta in Hcache.
  rewrite Hlen, Hemb in Hcache.
  rewrite (bind_raise _ _ _ _ _ Hcache) in Hrun.
  eexists. split; [exact Hrun|]. split.
  - destruct Htab as (A & B & C & D). repeat split; assumption.
  - simpl. rewrite Hcalls, <- app_assoc. reflexivity.
Qed.

Lemma pipeline_raises_when_query_embedding_fails_witness :
  exists w',
    SearchOrchestrator.search DemoOutage.env Settings.default
      {| SearchRequest.query := "What is RAG?" |} Demo.library
    = Raise (APIError "Connection error") w' /\
    same_tables Demo.library w'.
Proof.
  destruct (pipeline_raises_when_query_embedding_fails DemoOutage.env Settings.default
              {| SearchRequest.query := "What is RAG?" |} Demo.library
              (APIError "Connection error") eq_refl) as (w' & Hrun & Htab & _).
  exists w'. split; [exact Hrun | exact Htab].
Defined.

(** X19.  Without keywords the pipeline consults no tier beyond the cache.
    When extraction yields no keyword and no cached entry reaches the
    threshold, the pipeline returns the not-found envelope after three
    calls (the extraction, the embedding of the query, the cache lookup):
    the knowledge base is not queried, no external request is made, no
    response is synthesized and nothing is written. *)
Theorem pipeline_without_keywords_finds_nothing (env : Collaborators)
    (settings : Settings.t) (request : SearchRequest.t) (w : World)
    (keyword_result : KeywordResult.t) (w2 : World) (emb : list Q) :
  let query := SearchRequest.query request in
  let threshold := Settings.cache_similarity_threshold settings in
  KeywordExtractorService.extract env settings query (advance 1 w)
    = Return keyword_result w2 ->
  KeywordResult.keywords keyword_result = [] ->
  embeddings_create env (S (List.length (calls w))) query = inr emb ->
  (forall r, In r (semantic_cache w) ->
     (SemanticCacheService.row_similarity env emb r < threshold)%Q) ->
  exists resp w',
    SearchOrchestrator.search env settings request w = Return resp w' /\
    SearchResponse.search_path resp = NOT_FOUND /\
    SearchResponse.response resp = SearchOrchestrator.NOT_FOUND_MESSAGE /\
    SearchResponse.sources resp = [] /\
    SearchResponse.keywords resp = [] /\
    same_tables w w' /\
    calls w' = calls w ++
      [ChatCompletionsCreate (Settings.llm_model settings)
         KeywordExtractorService.SYSTEM_MESSAGE
         (KeywordExtractorService.EXTRACTION_PROMPT query);
       EmbeddingsCreate query;
       CacheSelect emb threshold].
Proof.
  intros query threshold Hextract Hnone Hemb Hfar.
  destruct (pipeline_prefix env settings request w)
    as (kr & w2' & H2 & Htab & _ & Hcalls & Hrun).
  fold query in H2, Hcalls, Hrun.
  rewrite Hextract in H2. injection H2 as <- <-.
  rewrite Hnone in Hrun.
  assert (Hlen : List.length (calls w2) = S (List.length (calls w))).
  { rewrite Hcalls, length_app. simpl. lia. }
  destruct Htab as (Hkb & Hkbs & Hc & Hcs).
  assert (Hnear : SemanticCacheService.nearest_row env emb threshold (semantic_cache w2)
                  = None).
  { apply nearest_row_none. rewrite Hc. exact Hfar. }
  pose proof (cache_search_unfold env settings query w2) as Hcache. cbv zeta in Hcache.
  fold threshold in Hcache. rewrite Hlen, Hemb, Hnear in Hcache.
  rewrite (bind_run _ _ _ _ _ Hcache) in Hrun.
  set (w3 := called [EmbeddingsCreate query; CacheSelect emb threshold] w2) in *.
  assert (Hvec : VectorStoreService.search env settings [] None f0_5 w3 = Return [] w3)
    by reflexivity.
  rewrite (bind_run _ _ _ _ _ Hvec) in Hrun.
  change (Py.truthy (@nil KnowledgeItem.t)) with false in Hrun. cbv iota in Hrun.
  assert (Hall : MCPClientService.search_all env [] 3 w3 = Return [] w3) by reflexivity.
  rewrite (bind_run _ _ _ _ _ Hall) in Hrun.
  change (Py.truthy (@nil MCPSearchResult.t)) with false in Hrun. cbv iota in Hrun.
  rewrite (bind_run _ _ _ _ _ (elapsed_since_run env _ _)) in Hrun.
  eexists. eexists. split; [exact Hrun|].
  split; [reflexivity|]. split; [reflexivity|]. split; [reflexivity|].
  split; [reflexivity|]. split.
  - repeat split; simpl; assumption.
  - simpl. rewrite Hcalls, <- app_assoc. reflexivity.
Qed.

Lemma pipeline_without_keywords_finds_nothing_witness :
  exists resp w',
    SearchOrchestrator.search Demo.llm_down Settings.default
      {| SearchRequest.query := "AI" |} Demo.library = Return resp w' /\
    SearchResponse.search_path resp = NOT_FOUND /\
    List.length (calls w') = 3%nat.
Proof.
  assert (Hextract :
    KeywordExtractorService.extract Demo.llm_down Settings.default "AI"
      (advance 1 Demo.library)
    = Return {| KeywordResult.keywords := []; KeywordResult.source_type_hint := None |}
        (world_of (KeywordExtractorService.extract Demo.llm_down Settings.default "AI"
                     (advance 1 Demo.library))))
    by (vm_compute; reflexivity).
  assert (Hfar : forall r, In r (semantic_cache Demo.library) ->
            (SemanticCacheService.row_similarity Demo.llm_down [2%Q] r
             < Settings.cache_similarity_threshold Settings.default)%Q)
    by (intros r []).
  destruct (pipeline_without_keywords_finds_nothing Demo.llm_down Settings.default
              {| SearchRequest.query := "AI" |} Demo.library _ _ [2%Q]
              Hextract eq_refl eq_refl Hfar)
    as (resp & w' & Hrun & Hpath & _ & _ & _ & _ & Hcalls).
  exists resp, w'. split; [exact Hrun|]. split; [exact Hpath|].
  rewrite Hcalls. reflexivity.
Defined.

(** A run resolved at the knowledge tier or at the external tier: the
    cache lookup missed, and the run ended by storing the envelope's
    response and citations in a cache that was still the one of the
    start. *)
Lemma pipeline_resolved_inv (env : Collaborators) (settings : Settings.t)
    (request : SearchRequest.t) (w : World) (resp : SearchResponse.t) (w' : World) :
  SearchOrchestrator.search env settings request w = Return resp w' ->
  SearchResponse.search_path resp = VECTOR_DB \/ SearchResponse.search_path resp = MCP ->
  exists w2 w3 w5 cache_id w6,
    same_tables w w2 /\
    SemanticCacheService.search env settings (SearchRequest.query request) w2
      = Return None w3 /\
    semantic_cache w5 = semantic_cache w /\
    SemanticCacheService.store env (SearchRequest.query request)
      (SearchResponse.response resp) (SearchResponse.sources resp) w5
      = Return cache_id w6 /\
    w' = advance 1 w6.
Proof.
  intros H Hpath.
  destruct (pipeline_prefix env settings request w)
    as (kr & w2 & _ & Htab & _ & _ & Hrun).
  rewrite Hrun in H. clear Hrun.
  destruct Htab as (Hk2 & Hks2 & Hc2 & Hcs2).
  apply bind_returns in H. destruct H as (cached & w3 & H3 & H).
  destruct (cache_search_frame _ _ _ _ _ _ H3) as (_ & _ & Hmiss3).
  destruct cached as [entry|].
  { apply bind_returns in H. destruct H as (ms & w4 & _ & H).
    inversion H; subst resp w'. simpl in Hpath. destruct Hpath; discriminate. }
  destruct (Hmiss3 eq_refl) as (_ & _ & Hc3 & _).
  apply bind_returns in H. destruct H as (items & w4 & H4 & H).
  destruct (search_frame _ _ _ _ _ _ _ _ H4) as (_ & _ & Hc4 & _).
  destruct (Py.truthy items).
  - apply bind_returns in H. destruct H as ([text sources] & w5 & H5 & H).
    destruct (generate_response_returns env settings (SearchRequest.query request)
                (Some items) None w4) as (text' & w5' & H5' & (_ & _ & Hc5 & _)).
    rewrite H5 in H5'. injection H5' as _ _ <-.
    apply bind_returns in H. destruct H as (cache_id & w6 & H6 & H).
    apply bind_returns in H. destruct H as (ms & w7 & H7 & H).
    apply elapsed_since_returns in H7. subst w7.
    inversion H; subst resp w'. clear H. simpl.
    exists w2, w3, w5, cache_id, w6.
    split; [repeat split; assumption|]. split; [exact H3|].
    split; [congruence|]. split; [exact H6 | reflexivity].
  - apply bind_returns in H. destruct H as (mcp_results & w5 & H5 & H).
    destruct (search_all_returns env (KeywordResult.keywords kr) 3 w4)
      as (mcp' & w5' & H5' & (_ & _ & Hc5 & _)).
    rewrite H5 in H5'. injection H5' as _ <-.
    destruct (Py.truthy mcp_results).
    + apply bind_returns in H. destruct H as (ids & w6 & H6 & H).
      destruct (ingest_each_returns _ _ _ _ _ _ H6) as (rows & _ & _ & _ & Hc6 & _).
      apply bind_returns in H. destruct H as ([text sources] & w7 & H7 & H).
      destruct (generate_response_returns env settings (SearchRequest.query request)
                  None (Some mcp_results) w6) as (text' & w7' & H7' & (_ & _ & Hc7 & _)).
      rewrite H7 in H7'. injection H7' as _ _ <-.
      apply bind_returns in H. destruct H as (cache_id & w8 & H8 & H).
      apply bind_returns in H. destruct H as (ms & w9 & H9 & H).
      apply elapsed_since_returns in H9. subst w9.
      inversion H; subst resp w'. clear H. simpl.
      exists w2, w3, w7, cache_id, w8.
      split; [repeat split; assumption|]. split; [exact H3|].
      split; [congruence|]. split; [exact H8 | reflexivity].
    + apply bind_returns in H. destruct H as (ms & w6 & _ & H).
      inversion H; subst resp w'. simpl in Hpath. destruct Hpath; discriminate.
Qed.

(** X20.  A resolved query is served from the cache the next time.  Let a
    run of the pipeline resolve a query at the knowledge tier or at the
    external tier.  If the embedding service gives the query the same
    vector each time, a vector is at distance 0 from itself and the
    threshold is at most 1, then the same request, run again right after,
    is answered from the cache with the same response and the same
    citations, and the knowledge base is left as the first run left it. *)
Theorem repeated_query_is_served_from_cache (env : Collaborators) (settings : Settings.t)
    (request : SearchRequest.t) (w : World) (resp : SearchResponse.t) (w' : World)
    (emb : list Q) :
  SearchOrchestrator.search env settings request w = Return resp w' ->
  SearchResponse.search_path resp = VECTOR_DB \/ SearchResponse.search_path resp = MCP ->
  (forall n, embeddings_create env n (SearchRequest.query request) = inr emb) ->
  (cosine_distance env emb emb == 0)%Q ->
  (Settings.cache_similarity_threshold settings <= 1)%Q ->
  exists resp2 w'',
    SearchOrchestrator.search env settings request w' = Return resp2 w'' /\
    SearchResponse.search_path resp2 = CACHE /\
    SearchResponse.response resp2 = SearchResponse.response resp /\
    SearchResponse.sources resp2 = SearchResponse.sources resp /\
    knowledge_base w'' = knowledge_base w' /\
    List.length (semantic_cache w'') = List.length (semantic_cache w').
Proof.
  intros Hrun Hpath Hstable Hself Hthr.
  set (query := SearchRequest.query request) in *.
  set (threshold := Settings.cache_similarity_threshold settings) in *.
  destruct (pipeline_resolved_inv _ _ _ _ _ _ Hrun Hpath)
    as (w2 & w3 & w5 & cache_id & w6 & (_ & _ & Hc2 & _) & Hmiss & Hc5 & Hstore & ->).
  fold query in Hmiss, Hstore.
  (* the rows of the start are all below the threshold *)
  assert (Hold : forall r, In r (semantic_cache w) ->
            (SemanticCacheService.row_similarity env emb r < threshold)%Q).
  { pose proof (cache_search_unfold env settings query w2) as Hcache. cbv zeta in Hcache.
    fold threshold in Hcache. rewrite Hmiss, Hstable in Hcache.
    destruct (SemanticCacheService.nearest_row env emb threshold (semantic_cache w2))
      as [[r0 s0]|] eqn:Hnear; [discriminate Hcache|].
    rewrite nearest_row_none in Hnear. rewrite Hc2 in Hnear. exact Hnear. }
  (* the entry the first run stored *)
  rewrite store_unfold, Hstable in Hstore. injection Hstore as _ <-.
  set (row := cache_row_of env query emb (SearchResponse.response resp)
                (SearchResponse.sources resp) (semantic_cache_seq w5)
                (clock_us env (ticks w5))) in *.
  set (w1 := advance 1 (with_cache_row row w5)) in *.
  assert (Hcache1 : semantic_cache w1 = semantic_cache w ++ [row]).
  { simpl. rewrite Hc5. reflexivity. }
  assert (Hsim : (threshold <= SemanticCacheService.row_similarity env emb row)%Q).
  { unfold SemanticCacheService.row_similarity.
    change (CacheRow.query_embedding row) with emb. rewrite Hself. lra. }
  (* the second run *)
  destruct (pipeline_prefix env settings request w1)
    as (kr & v2 & _ & (Hk & _ & Hc & _) & _ & _ & Hrun2).
  fold query in Hrun2.
  assert (Hin : In row (semantic_cache v2)).
  { rewrite Hc, Hcache1. apply in_or_app. right. left. reflexivity. }
  destruct (nearest_row_exists env emb threshold (semantic_cache v2) row Hin Hsim)
    as (best & similarity & Hnear).
  destruct (nearest_row_some _ _ _ _ _ _ Hnear) as (Hbest & Heq & Hge & _).
  assert (Hrow : best = row).
  { rewrite Hc, Hcache1 in Hbest. apply in_app_or in Hbest.
    destruct Hbest as [Hbest | [<- | []]]; [|reflexivity].
    exfalso. apply Hold in Hbest. rewrite <- Heq in Hbest.
    exact (Qlt_not_le _ _ Hbest Hge). }
  pose proof (cache_search_unfold env settings query v2) as Hcache. cbv zeta in Hcache.
  fold threshold in Hcache. rewrite Hstable, Hnear in Hcache.
  rewrite (bind_run _ _ _ _ _ Hcache) in Hrun2.
  rewrite (bind_run _ _ _ _ _ (elapsed_since_run env _ _)) in Hrun2.
  eexists. eexists. split; [exact Hrun2|].
  split; [reflexivity|]. split; [rewrite Hrow; reflexivity|].
  split; [rewrite Hrow; reflexivity|]. split; [exact Hk|].
  simpl. rewrite length_map, Hc. reflexivity.
Qed.

Lemma repeated_query_is_served_from_cache_witness :
  exists resp resp2 w'',
    SearchOrchestrator.search DemoExact.env Settings.default DemoRepeat.request
      DemoRepeat.library = Return resp (world_of DemoRepeat.first_run) /\
    SearchResponse.search_path resp = VECTOR_DB /\
    SearchOrchestrator.search DemoExact.env Settings.default DemoRepeat.request
      (world_of DemoRepeat.first_run) = Return resp2 w'' /\
    SearchResponse.search_path resp2 = CACHE /\
    SearchResponse.response resp2 = SearchResponse.response resp.
Proof.
  destruct DemoRepeat.first_run as [resp w'|e w'] eqn:Hfirst; [|discriminate Hfirst].
  assert (Hrun : SearchOrchestrator.search DemoExact.env Settings.default DemoRepeat.request
                   DemoRepeat.library = Return resp w').
  { rewrite <- Hfirst. vm_compute. reflexivity. }
  assert (Hpath : SearchResponse.search_path resp = VECTOR_DB).
  { injection Hfirst as <- _. reflexivity. }
  assert (Hstable : forall n,
            embeddings_create DemoExact.env n (SearchRequest.query DemoRepeat.request)
            = inr [12%Q]) by (intro n; reflexivity).
  assert (Hself : (cosine_distance DemoExact.env [12%Q] [12%Q] == 0)%Q) by reflexivity.
  assert (Hthr : (Settings.cache_similarity_threshold Settings.default <= 1)%Q)
    by (vm_compute; discriminate).
  destruct (repeated_query_is_served_from_cache DemoExact.env Settings.default
              DemoRepeat.request DemoRepeat.library resp w' [12%Q]
              Hrun (or_introl Hpath) Hstable Hself Hthr)
    as (resp2 & w'' & Hrun2 & Hpath2 & Hresp & _).
  exists resp, resp2, w''.
  split; [exact Hrun|]. split; [exact Hpath|]. split; [exact Hrun2|].
  split; [exact Hpath2 | exact Hresp].
Defined.

Lemma bind_raises {A B : Type} (c : M A) (k : A -> M B) (w : World) (e : exn) (w' : World) :
  bind c k w = Raise e w' ->
  c w = Raise e w' \/ exists a w1, c w = Return a w1 /\ k a w1 = Raise e w'.
Proof.
  unfold bind. destruct (c w) as [a w1|e1 w1]; intro H.
  - right. exists a, w1. split; [reflexivity | exact H].
  - left. injection H as <- <-. reflexivity.
Qed.

(** A knowledge-tier search that raises has written nothing. *)
Lemma vector_search_raises (env : Collaborators) (settings : Settings.t)
    (keywords : list string) (limit : option Z) (m : Q) (w : World) (e : exn) (w' : World) :
  VectorStoreService.search env settings keywords limit m w = Raise e w' ->
  same_tables w w'.
Proof.
  intro H. destruct keywords as [|k ks]; [discriminate H|].
  assert (Hk : k :: ks <> []) by congruence.
  rewrite (search_unfold env settings (k :: ks) limit m w Hk) in H. cbv zeta in H.
  destruct (embeddings_create env (List.length (calls w)) (Py.join " " (k :: ks)))
    as [e1|emb].
  - injection H as _ <-. repeat split.
  - destruct (Py.or_int limit (Settings.vector_search_limit settings) * 2 <? 0).
    + injection H as _ <-. repeat split.
    + match type of H with
      | bind (VectorStoreService.rerank env ?rows m []) _ ?w2 = _ =>
          destruct (rerank_run env rows m [] w2) as (new & Hr & _);
          rewrite (bind_run _ _ _ _ _ Hr) in H
      end.
      discriminate H.
Qed.

(** So has a [store] that raises, and a cache [search] that raises. *)
Lemma store_raises (env : Collaborators) (query response : string)
    (sources : list SourceInfo.t) (w : World) (e : exn) (w' : World) :
  SemanticCacheService.store env query response sources w = Raise e w' ->
  same_tables w w'.
Proof.
  rewrite store_unfold. intro H.
  destruct (embeddings_create env (List.length (calls w)) query) as [e1|emb];
    [|discriminate H].
  injection H as _ <-. repeat split.
Qed.

Lemma cache_search_raises (env : Collaborators) (settings : Settings.t) (query : string)
    (w : World) (e : exn) (w' : World) :
  SemanticCacheService.search env settings query w = Raise e w' ->
  same_tables w w'.
Proof.
  pose proof (cache_search_unfold env settings query w) as Hrun. cbv zeta in Hrun.
  rewrite Hrun. clear Hrun. intro H.
  destruct (embeddings_create env (List.length (calls w)) query) as [e1|emb].
  - injection H as _ <-. repeat split.
  - destruct (SemanticCacheService.nearest_row env emb _ (semantic_cache w))
      as [[r s]|]; discriminate H.
Qed.

Lemma consecutive_length (start : Z) (n : nat) :
  List.length (consecutive start n) = n.
Proof. unfold consecutive. rewrite length_map, length_seq. reflexivity. Qed.

(** X21.  What a failed request leaves behind.  When the pipeline raises,
    no answer has been cached and no hit counted: the cache is as it was.
    The knowledge base has lost nothing, but it may have grown: the
    external results ingested before the failure stay, under the next ids
    of the sequence. *)
Theorem pipeline_failure_keeps_cache (env : Collaborators) (settings : Settings.t)
    (request : SearchRequest.t) (w : World) (e : exn) (w' : World) :
  SearchOrchestrator.search env settings request w = Raise e w' ->
  semantic_cache w' = semantic_cache w /\
  exists rows,
    knowledge_base w' = knowledge_base w ++ rows /\
    map KnowledgeRow.id rows
      = consecutive (knowledge_base_seq w) (List.length rows).
Proof.
  intro H.
  destruct (pipeline_prefix env settings request w)
    as (kr & w2 & _ & T2 & _ & _ & Hrun).
  rewrite Hrun in H. clear Hrun.
  assert (Hnil : forall v : World, same_tables w v ->
            semantic_cache v = semantic_cache w /\
            exists rows,
              knowledge_base v = knowledge_base w ++ rows /\
              map KnowledgeRow.id rows
                = consecutive (knowledge_base_seq w) (List.length rows)).
  { intros v (Hk & _ & Hc & _). split; [exact Hc|].
    exists []. rewrite app_nil_r. split; [exact Hk | reflexivity]. }
  apply bind_raises in H. destruct H as [H | (cached & w3 & H3 & H)].
  { apply Hnil. eapply same_tables_trans; [exact T2|].
    exact (cache_search_raises _ _ _ _ _ _ H). }
  destruct (cache_search_frame _ _ _ _ _ _ H3) as (_ & _ & Hmiss3).
  destruct cached as [entry|].
  { rewrite (bind_run _ _ _ _ _ (elapsed_since_run env _ _)) in H. discriminate H. }
  assert (T3 : same_tables w w3).
  { eapply same_tables_trans; [exact T2 | exact (Hmiss3 eq_refl)]. }
  apply bind_raises in H. destruct H as [H | (items & w4 & H4 & H)].
  { apply Hnil. eapply same_tables_trans; [exact T3|].
    exact (vector_search_raises _ _ _ _ _ _ _ _ H). }
  assert (T4 : same_tables w w4).
  { eapply same_tables_trans; [exact T3 | exact (search_frame _ _ _ _ _ _ _ _ H4)]. }
  destruct (Py.truthy items).
  - destruct (generate_response_returns env settings (SearchRequest.query request)
                (Some items) None w4) as (text & w5 & H5 & T45).
    rewrite (bind_run _ _ _ _ _ H5) in H.
    apply bind_raises in H. destruct H as [H | (cache_id & w6 & _ & H)].
    + apply Hnil. eapply same_tables_trans; [exact T4|].
      eapply same_tables_trans; [exact T45 | exact (store_raises _ _ _ _ _ _ _ H)].
    + rewrite (bind_run _ _ _ _ _ (elapsed_since_run env _ _)) in H. discriminate H.
  - destruct (search_all_returns env (KeywordResult.keywords kr) 3 w4)
      as (mcp_results & w5 & H5 & T45).
    rewrite (bind_run _ _ _ _ _ H5) in H.
    assert (T5 : same_tables w w5) by (eapply same_tables_trans; eassumption).
    destruct T5 as (Hk5 & Hks5 & Hc5 & _).
    destruct (Py.truthy mcp_results).
    + destruct (ingest_each_outcome env mcp_results [] w5)
        as (k & rows & _ & Hkb & _ & Hids & _ & Hc & _).
      assert (Hk : k = List.length rows).
      { rewrite <- (length_map KnowledgeRow.id rows), Hids.
        symmetry. apply consecutive_length. }
      rewrite Hk, Hks5 in Hids.
      apply bind_raises in H. unfold VectorStoreService.ingest_batch in H.
      destruct H as [H | (ids & w6 & H6 & H)].
      * rewrite H in Hkb, Hc. simpl in Hkb, Hc.
        split; [congruence|].
        exists rows. split; [rewrite Hkb; congruence | exact Hids].
      * rewrite H6 in Hkb, Hc. simpl in Hkb, Hc.
        destruct (generate_response_returns env settings (SearchRequest.query request)
                    None (Some mcp_results) w6) as (text & w7 & H7 & (Hk7 & _ & Hc7 & _)).
        rewrite (bind_run _ _ _ _ _ H7) in H.
        apply bind_raises in H. destruct H as [H | (cache_id & w8 & _ & H)].
        -- destruct (store_raises _ _ _ _ _ _ _ H) as (Hk8 & _ & Hc8 & _).
           split; [congruence|].
           exists rows. split; [rewrite Hk8, Hk7, Hkb; congruence | exact Hids].
        -- rewrite (bind_run _ _ _ _ _ (elapsed_since_run env _ _)) in H. discriminate H.
    + rewrite (bind_run _ _ _ _ _ (elapsed_since_run env _ _)) in H. discriminate H.
Qed.

Lemma pipeline_failure_keeps_cache_witness :
  exists e w',
    SearchOrchestrator.search DemoPartial.env Settings.default DemoRun.request
      Demo.empty_world = Raise e w' /\
    semantic_cache w' = [] /\
    List.length (knowledge_base w') = 1%nat.
Proof.
  destruct DemoPartial.run as [resp w'|e w'] eqn:Hrun; [discriminate Hrun|].
  assert (H : SearchOrchestrator.search DemoPartial.env Settings.default DemoRun.request
                Demo.empty_world = Raise e w').
  { rewrite <- Hrun. vm_compute. reflexivity. }
  exists e, w'. split; [exact H|]. split.
  - exact (proj1 (pipeline_failure_keeps_cache DemoPartial.env Settings.default
                    DemoRun.request Demo.empty_world e w' H)).
  - injection Hrun as _ <-. reflexivity.
Defined.
